(** * Pineapple OFC web client: the round placement logic

    The repository ships three versions of [game.js], the browser-side
    script that stages the cards of one turn before they are sent to the
    server:

    - [Rows]: cards are dragged straight onto the board rows, the card that
      is left over on a draw turn is discarded automatically;
    - [Zones]: cards are dragged into labelled drop zones (with a pool and
      an explicit discard zone);
    - [Buttons]: every card has a row of buttons, one per destination.

    Each version is embedded below as a state record (the module-level
    [let] variables of the script plus the few DOM properties the logic
    reads or writes) and one function per JavaScript function. *)

From Stdlib Require Import Ascii.
From stdpp Require Import gmap list strings sorting pretty.

(** ** Values shared by the three scripts *)

(** The [row] strings of a placement: ['front'], ['middle'], ['back'],
    ['discard']. *)
Inductive Row := front | middle | back | discard.

#[global] Instance Row_eq_dec : EqDecision Row.
Proof. solve_decision. Defined.

Definition Row_to_nat (r : Row) : nat :=
  match r with front => 0 | middle => 1 | back => 2 | discard => 3 end.

Definition Row_of_nat (n : nat) : Row :=
  match n with 0 => front | 1 => middle | 2 => back | _ => discard end.

#[global] Instance Row_countable : Countable Row.
Proof. apply (inj_countable' Row_to_nat Row_of_nat). by intros []. Defined.

Definition rowString (r : Row) : string :=
  match r with
  | front => "front" | middle => "middle" | back => "back" | discard => "discard"
  end.

(** [c.toUpperCase()] on one ASCII character. *)
Definition toUpperCase (c : ascii) : ascii :=
  let n := nat_of_ascii c in
  if bool_decide (97 ≤ n ≤ 122) then ascii_of_nat (n - 32) else c.

(** [s.charAt(0).toUpperCase() + s.slice(1)] *)
Definition capitalize (s : string) : string :=
  match s with
  | EmptyString => EmptyString
  | String c t => String (toUpperCase c) t
  end.

(** A card as the server sends it: [{height, suit}]. *)
Record card := { height : string; suit : string }.

(** A player's board as the server sends it; [board[row] || []] reads a
    missing row as the empty list. *)
Record board := { board_front : list card; board_middle : list card; board_back : list card }.

Definition board_row (b : board) (r : Row) : list card :=
  match r with
  | front => board_front b
  | middle => board_middle b
  | back => board_back b
  | discard => []
  end.

(** The [phase] tag of a server state. *)
Inductive Phase := init_human | human_turn | game_over | unexpected (tag : string).

#[global] Instance Phase_eq_dec : EqDecision Phase.
Proof. solve_decision. Defined.

(** The JSON object answered by [/api/new_game] and [/api/play]. The fields
    besides [error] are read only when [error] is falsy. *)
Record response := {
  error : option string;
  game_id : string;
  phase : Phase;
  cards : list card;
  player_board : board;
  ai_board : board;
  ai_goes_first : bool;
}.

(** JavaScript truthiness of an optional string property. *)
Definition truthy (o : option string) : bool :=
  match o with
  | Some m => bool_decide (m ≠ "")
  | None => false
  end.

(** What [await fetch(...)] followed by [resp.json()] produces: a rejected
    promise carrying [e.message], or the parsed object. *)
Inductive fetch_result := Rejected (message : string) | Json (state : response).

(** One element of the [placements] array and the body of a play request. *)
Record placement := { card_idx : nat; row : Row }.

Record request := { req_game_id : option string; req_placements : list placement }.

(** ** Abrupt completion

    A JavaScript function either returns or throws; in both cases the
    mutations done so far stay. *)
Inductive completion (S : Type) :=
  | Normal (s : S)
  | Throw (message : string) (s : S).
Arguments Normal {S} s.
Arguments Throw {S} message s.

Definition after {S} (c : completion S) : S :=
  match c with Normal s | Throw _ s => s end.

Definition cbind {S} (c : completion S) (k : S → completion S) : completion S :=
  match c with
  | Normal s => k s
  | Throw m s => Throw m s
  end.

Infix ">>>" := cbind (at level 60, right associativity).

(** The text of the [TypeError] raised when a property of [undefined] or
    [null] is read. *)
Definition typeError : string := "Cannot read properties of undefined".

(** ** [Object] used as a map from card index to row

    [Object.keys], [Object.values] and [Object.entries] enumerate
    integer-like keys in ascending order. *)
Definition key_le (x y : nat * Row) : Prop := x.1 ≤ y.1.

#[global] Instance key_le_dec : RelDecision key_le.
Proof. intros x y. unfold key_le. apply _. Defined.

Definition entries (o : gmap nat Row) : list (nat * Row) :=
  merge_sort key_le (map_to_list o).

Definition keys (o : gmap nat Row) : list nat := (entries o).*1.

Definition values (o : gmap nat Row) : list Row := (entries o).*2.

(** [const counts = {}; values.forEach(r => { counts[r] = (counts[r] || 0) + 1; })] *)
Definition tally (vals : list Row) : gmap Row nat :=
  foldl (λ counts r, <[r := default 0 (counts !! r) + 1]> counts) ∅ vals.

(** [counts[r] || 0] *)
Definition count_or_0 (counts : gmap Row nat) (r : Row) : nat :=
  default 0 (counts !! r).

(** Number of entries of the object whose value is [r]. *)
Definition countFor (o : gmap nat Row) (r : Row) : nat :=
  length (filter (λ kv, kv.2 = r) (map_to_list o)).

(** A server state that opens a placing turn. *)
Definition placing (st : response) : Prop :=
  phase st = init_human ∨ phase st = human_turn.

(** ** Version 1: drag and drop onto the board rows *)
Module Rows.

(** [boardPlacements = { front: [], middle: [], back: [] }] *)
Record BoardPlacements := {
  bp_front : list nat;
  bp_middle : list nat;
  bp_back : list nat;
}.

Definition noPlacements : BoardPlacements :=
  {| bp_front := []; bp_middle := []; bp_back := [] |}.

(** [boardPlacements[row]]; [undefined] for a name that is no board row. *)
Definition bp_get (bp : BoardPlacements) (r : Row) : option (list nat) :=
  match r with
  | front => Some (bp_front bp)
  | middle => Some (bp_middle bp)
  | back => Some (bp_back bp)
  | discard => None
  end.

Definition bp_push (r : Row) (idx : nat) (bp : BoardPlacements) : BoardPlacements :=
  match r with
  | front => {| bp_front := bp_front bp ++ [idx]; bp_middle := bp_middle bp; bp_back := bp_back bp |}
  | middle => {| bp_front := bp_front bp; bp_middle := bp_middle bp ++ [idx]; bp_back := bp_back bp |}
  | back => {| bp_front := bp_front bp; bp_middle := bp_middle bp; bp_back := bp_back bp ++ [idx] |}
  | discard => bp
  end.

Definition bp_all (bp : BoardPlacements) : list nat :=
  bp_front bp ++ bp_middle bp ++ bp_back bp.

(** The script's variables, then the DOM properties it drives: the text
    of [#placement-hint], [#btn-confirm.disabled], the visible text of
    [#status-bar] and whether the row drop listeners are registered. *)
Record state := {
  gameId : option string;
  currentCards : list card;
  currentServerBoard : option board;
  boardPlacements : BoardPlacements;
  isInitial : bool;
  isActionMode : bool;
  hint : string;
  confirmDisabled : bool;
  status : option string;
  boardDrop : bool;
}.

Definition setHint (msg : string) (s : state) : state :=
  {| gameId := gameId s; currentCards := currentCards s;
     currentServerBoard := currentServerBoard s;
     boardPlacements := boardPlacements s; isInitial := isInitial s;
     isActionMode := isActionMode s; hint := msg;
     confirmDisabled := confirmDisabled s; status := status s;
     boardDrop := boardDrop s |}.

Definition setConfirmDisabled (b : bool) (s : state) : state :=
  {| gameId := gameId s; currentCards := currentCards s;
     currentServerBoard := currentServerBoard s;
     boardPlacements := boardPlacements s; isInitial := isInitial s;
     isActionMode := isActionMode s; hint := hint s;
     confirmDisabled := b; status := status s;
     boardDrop := boardDrop s |}.

(** [setStatus(msg)]: a falsy message hides the bar. *)
Definition setStatus (msg : option string) (s : state) : state :=
  {| gameId := gameId s; currentCards := currentCards s;
     currentServerBoard := currentServerBoard s;
     boardPlacements := boardPlacements s; isInitial := isInitial s;
     isActionMode := isActionMode s; hint := hint s;
     confirmDisabled := confirmDisabled s;
     status := if truthy msg then msg else None;
     boardDrop := boardDrop s |}.

Definition setBoardPlacements (bp : BoardPlacements) (s : state) : state :=
  {| gameId := gameId s; currentCards := currentCards s;
     currentServerBoard := currentServerBoard s;
     boardPlacements := bp; isInitial := isInitial s;
     isActionMode := isActionMode s; hint := hint s;
     confirmDisabled := confirmDisabled s; status := status s;
     boardDrop := boardDrop s |}.

(** [isActionMode = b] *)
Definition setActionMode (b : bool) (s : state) : state :=
  {| gameId := gameId s; currentCards := currentCards s;
     currentServerBoard := currentServerBoard s;
     boardPlacements := boardPlacements s; isInitial := isInitial s;
     isActionMode := b; hint := hint s;
     confirmDisabled := confirmDisabled s; status := status s;
     boardDrop := boardDrop s |}.

Definition enableBoardDrop (s : state) : state :=
  {| gameId := gameId s; currentCards := currentCards s;
     currentServerBoard := currentServerBoard s;
     boardPlacements := boardPlacements s; isInitial := isInitial s;
     isActionMode := isActionMode s; hint := hint s;
     confirmDisabled := confirmDisabled s; status := status s;
     boardDrop := true |}.

Definition disableBoardDrop (s : state) : state :=
  {| gameId := gameId s; currentCards := currentCards s;
     currentServerBoard := currentServerBoard s;
     boardPlacements := boardPlacements s; isInitial := isInitial s;
     isActionMode := isActionMode s; hint := hint s;
     confirmDisabled := confirmDisabled s; status := status s;
     boardDrop := false |}.

(** [row === 'front' ? 3 : 5] *)
Definition rowMax (r : Row) : nat :=
  if decide (r = front) then 3 else 5.

Definition removeFromPlacements (idx : nat) (s : state) : state :=
  let bp := boardPlacements s in
  setBoardPlacements
    {| bp_front := filter (λ i, i ≠ idx) (bp_front bp);
       bp_middle := filter (λ i, i ≠ idx) (bp_middle bp);
       bp_back := filter (λ i, i ≠ idx) (bp_back bp) |} s.

Definition getAllPlacedIndices (s : state) : gset nat :=
  list_to_set (bp_all (boardPlacements s)).

(** The numbers [updateConfirmButton] computes. *)
Definition totalPlaced (s : state) : Z :=
  let bp := boardPlacements s in
  (Z.of_nat (length (bp_front bp)) + Z.of_nat (length (bp_middle bp))
   + Z.of_nat (length (bp_back bp)))%Z.

Definition required (s : state) : Z :=
  if isInitial s then Z.of_nat (length (currentCards s))
  else (Z.of_nat (length (currentCards s)) - 1)%Z.

(** [`Place ${k} more card${k > 1 ? 's' : ''}.`] *)
Definition placeMore (k : Z) : string :=
  "Place " +:+ pretty k +:+ " more card" +:+ (if bool_decide (1 < k)%Z then "s" else "") +:+ ".".

Definition updateConfirmButton (s : state) : state :=
  if negb (isActionMode s) then setConfirmDisabled true s
  else
    let s1 := setConfirmDisabled (bool_decide (totalPlaced s ≠ required s)) s in
    let unplaced := (Z.of_nat (length (currentCards s)) - totalPlaced s)%Z in
    if negb (isInitial s) then
      if bool_decide (1 < unplaced)%Z then
        setHint (placeMore (required s - totalPlaced s)) s1
      else if bool_decide (unplaced = 1)%Z then
        setHint "The last card will be automatically discarded." s1
      else setHint "" s1
    else
      setHint (if bool_decide (0 < unplaced)%Z then placeMore unplaced else "") s1.

(** [renderPlayerBoard()] only rebuilds DOM nodes, but it reads
    [currentServerBoard[row]] and calls [makeCard(currentCards[idx])] for
    every placed index, which throws when the board is [null] or the
    index has no card. *)
Definition renderPlayerBoard (s : state) : completion state :=
  if bool_decide (is_Some (currentServerBoard s)
                  ∧ Forall (λ idx, idx < length (currentCards s)) (bp_all (boardPlacements s)))
  then Normal s
  else Throw typeError s.

(** [renderHandArea()] only rebuilds the pool from [currentCards], so it
    leaves no trace here. *)
Definition refreshUI (s : state) : completion state :=
  renderPlayerBoard s >>> λ s,
  Normal (updateConfirmButton s).

Definition placeCardOnRow (idx : nat) (r : Row) (s : state) : completion state :=
  match currentServerBoard s, bp_get (boardPlacements s) r with
  | Some b, Some current =>
      if bool_decide (rowMax r ≤ length (board_row b r) + length current) then
        Normal (setHint (capitalize (rowString r) +:+ " row is full.") s)
      else
        let s1 := removeFromPlacements idx s in
        refreshUI (setBoardPlacements (bp_push r idx (boardPlacements s1)) s1)
  | _, _ => Throw typeError s
  end.

Definition returnCardToHand (idx : nat) (s : state) : completion state :=
  refreshUI (removeFromPlacements idx s).

(** The [placements] array built at the top of [submitPlay]. *)
Definition rowPlacements (s : state) : list placement :=
  let bp := boardPlacements s in
  ((λ idx, {| card_idx := idx; row := front |}) <$> bp_front bp)
  ++ ((λ idx, {| card_idx := idx; row := middle |}) <$> bp_middle bp)
  ++ ((λ idx, {| card_idx := idx; row := back |}) <$> bp_back bp).

(** The first hand index that is on no row: the [for] loop with [break]. *)
Definition firstUnplaced (s : state) : option nat :=
  let placed := getAllPlacedIndices s in
  head (filter (λ i, i ∉ placed) (seq 0 (length (currentCards s)))).

Definition buildPlacements (s : state) : list placement :=
  if negb (isInitial s) then
    match firstUnplaced s with
    | Some i => rowPlacements s ++ [{| card_idx := i; row := discard |}]
    | None => rowPlacements s
    end
  else rowPlacements s.

Definition applyState (st : response) (s : state) : completion state :=
  let s :=
    {| gameId := Some (game_id st); currentCards := currentCards s;
       currentServerBoard := Some (player_board st);
       boardPlacements := boardPlacements s; isInitial := isInitial s;
       isActionMode := isActionMode s; hint := hint s;
       confirmDisabled := confirmDisabled s; status := status s;
       boardDrop := boardDrop s |} in
  match phase st with
  | init_human | human_turn =>
      let s :=
        {| gameId := gameId s; currentCards := cards st;
           currentServerBoard := currentServerBoard s;
           boardPlacements := noPlacements;
           isInitial := bool_decide (phase st = init_human);
           isActionMode := true; hint := hint s;
           confirmDisabled := confirmDisabled s; status := status s;
           boardDrop := boardDrop s |} in
      refreshUI s >>> λ s,
      let s :=
        if isInitial s then
          setStatus (Some (if ai_goes_first st then "AI goes first this game."
                           else "You go first this game.")) s
        else setStatus None s in
      Normal (enableBoardDrop s)
  | game_over =>
      refreshUI (disableBoardDrop (setActionMode false s)) >>> λ s,
      Normal (setStatus (Some "Game over!") s)
  | unexpected _ => Normal s
  end.

(** [submitPlay], with the answer of the network given as a function of
    the request that is sent. *)
Definition submitPlay (net : request → fetch_result) (s : state) : state :=
  let placements := buildPlacements s in
  let s1 := disableBoardDrop (setActionMode false (setConfirmDisabled true s)) in
  let recover msg s :=
    enableBoardDrop (setActionMode true (setConfirmDisabled false (setStatus (Some msg) s))) in
  match net {| req_game_id := gameId s; req_placements := placements |} with
  | Rejected message => recover ("Network error: " +:+ message) s1
  | Json st =>
      if truthy (error st) then recover ("Error: " +:+ default "" (error st)) s1
      else
        match applyState st s1 with
        | Normal s2 => s2
        | Throw message s2 => recover ("Network error: " +:+ message) s2
        end
  end.

(** The two gestures: dropping card [idx] on a board row, and dropping
    it back on the hand pool. An exception ends the handler. *)
Inductive op := Place (idx : nat) (r : Row) | Return (idx : nat).

Definition step (s : state) (o : op) : state :=
  match o with
  | Place idx r => after (placeCardOnRow idx r s)
  | Return idx => after (returnCardToHand idx s)
  end.

Definition run (ops : list op) (s : state) : state := foldl step s ops.

(** What the confirm button shows once refreshed: enabled or not. *)
Definition isSubmittable (s : state) : bool :=
  negb (confirmDisabled (updateConfirmButton s)).

(** The ledger view of the placements: the row card [idx] lies on. *)
Definition rowOf (s : state) (idx : nat) : option Row :=
  let bp := boardPlacements s in
  if bool_decide (idx ∈ bp_front bp) then Some front
  else if bool_decide (idx ∈ bp_middle bp) then Some middle
  else if bool_decide (idx ∈ bp_back bp) then Some back
  else None.

(** The pending cards of a row ([discard] is no row of the board). *)
Definition onRow (s : state) (r : Row) : list nat :=
  default [] (bp_get (boardPlacements s) r).

(** Number of pending cards on a row. *)
Definition pending (s : state) (r : Row) : nat := length (onRow s r).

(** Number of cards the server already committed to a row. *)
Definition committed (s : state) (r : Row) : nat :=
  match currentServerBoard s with
  | Some b => length (board_row b r)
  | None => 0
  end.

(** [newGame], with the outcome of the request given. An exception of
    [applyState] is caught like a failed request. *)
Definition newGame (answer : fetch_result) (s : state) : state :=
  let failed message s := setStatus (Some ("Error starting game: " +:+ message)) s in
  match answer with
  | Rejected message => failed message s
  | Json st =>
      match applyState st s with
      | Normal s' => s'
      | Throw message s' => failed message s'
      end
  end.




(** A card of the hand pool and whether it carries the [will-discard] class. *)
Record poolCard := { pool_idx : nat; pool_card : card; will_discard : bool }.

(** [renderHandArea]: the children of [#hand-pool]. *)
Definition handPool (s : state) : list poolCard :=
  let placed := getAllPlacedIndices s in
  let unplacedCount := (Z.of_nat (length (currentCards s)) - Z.of_nat (size placed))%Z in
  (λ ic : nat * card,
     {| pool_idx := ic.1; pool_card := ic.2;
        will_discard := negb (isInitial s) && bool_decide (unplacedCount = 1)%Z |})
  <$> filter (λ ic : nat * card, ic.1 ∉ placed) (imap (λ idx c, (idx, c)) (currentCards s)).




End Rows.

(** ** Version 2: drag and drop into labelled zones *)
Module Zones.

(** The drop targets [makeZone] builds: the pool and one zone per row name. *)
Inductive Zone := pool | zone (r : Row).

(** The script's variables, then the DOM: the [data-idx] of the
    [.hand-card] elements in the document, the text of
    [#placement-hint], [#btn-confirm.disabled] and the visible text of
    [#status-bar]. *)
Record state := {
  gameId : option string;
  currentCards : list card;
  assignments : gmap nat Row;
  isInitial : bool;
  handCards : list nat;
  hint : string;
  confirmDisabled : bool;
  status : option string;
}.

Definition setHint (msg : string) (s : state) : state :=
  {| gameId := gameId s; currentCards := currentCards s;
     assignments := assignments s; isInitial := isInitial s;
     handCards := handCards s; hint := msg;
     confirmDisabled := confirmDisabled s; status := status s |}.

Definition setConfirmDisabled (b : bool) (s : state) : state :=
  {| gameId := gameId s; currentCards := currentCards s;
     assignments := assignments s; isInitial := isInitial s;
     handCards := handCards s; hint := hint s;
     confirmDisabled := b; status := status s |}.

Definition setStatus (msg : option string) (s : state) : state :=
  {| gameId := gameId s; currentCards := currentCards s;
     assignments := assignments s; isInitial := isInitial s;
     handCards := handCards s; hint := hint s;
     confirmDisabled := confirmDisabled s;
     status := if truthy msg then msg else None |}.

Definition setAssignments (a : gmap nat Row) (s : state) : state :=
  {| gameId := gameId s; currentCards := currentCards s;
     assignments := a; isInitial := isInitial s;
     handCards := handCards s; hint := hint s;
     confirmDisabled := confirmDisabled s; status := status s |}.

(** [isInitial ? ['front', 'middle', 'back'] : ['front', 'middle', 'back', 'discard']] *)
Definition rowNames (initial : bool) : list Row :=
  if initial then [front; middle; back] else [front; middle; back; discard].

Definition updateConfirmButton (s : state) : state :=
  let n := length (currentCards s) in
  let done := bool_decide (length (keys (assignments s)) = n) in
  if done then
    let counts := tally (values (assignments s)) in
    if isInitial s && bool_decide (3 < count_or_0 counts front) then
      setConfirmDisabled true (setHint "Front takes at most 3 cards." s)
    else if negb (isInitial s) && bool_decide (count_or_0 counts discard ≠ 1) then
      setConfirmDisabled true (setHint "Discard exactly 1 card." s)
    else setConfirmDisabled false (setHint "" s)
  else setConfirmDisabled true s.

(** The first line looks the dragged card up in the document and gives
    up when there is none. Moving the node to the target zone changes
    the display only. *)
Definition moveCard (idx : nat) (toZone : Zone) (s : state) : state :=
  if bool_decide (idx ∈ handCards s) then
    let a :=
      match toZone with
      | pool => delete idx (assignments s)
      | zone r => <[idx := r]> (assignments s)
      end in
    updateConfirmButton (setAssignments a s)
  else s.

Definition validateAssignments (s : state) : bool * state :=
  if bool_decide (length (keys (assignments s)) < length (currentCards s)) then
    (false, setHint "Place all cards before confirming." s)
  else
    let counts := tally (values (assignments s)) in
    if isInitial s then
      if bool_decide (3 < count_or_0 counts front) then
        (false, setHint "Front takes at most 3 cards." s)
      else (true, setHint "" s)
    else
      if bool_decide (count_or_0 counts discard ≠ 1) then
        (false, setHint "Discard exactly 1 card." s)
      else (true, setHint "" s).

(** [Object.entries(assignments).map(([idx, row]) => ({card_idx: parseInt(idx), row}))] *)
Definition buildPlacements (s : state) : list placement :=
  (λ e, {| card_idx := e.1; row := e.2 |}) <$> entries (assignments s).

(** One draggable [.hand-card] per card of the hand, all in the pool. *)
Definition buildDragDropUI (cs : list card) (s : state) : state :=
  updateConfirmButton
    {| gameId := gameId s; currentCards := currentCards s;
       assignments := assignments s; isInitial := isInitial s;
       handCards := seq 0 (length cs); hint := hint s;
       confirmDisabled := confirmDisabled s; status := status s |}.

Definition applyState (st : response) (s : state) : state :=
  let s :=
    {| gameId := Some (game_id st); currentCards := currentCards s;
       assignments := assignments s; isInitial := isInitial s;
       handCards := handCards s; hint := hint s;
       confirmDisabled := confirmDisabled s; status := status s |} in
  match phase st with
  | init_human | human_turn =>
      let s :=
        {| gameId := gameId s; currentCards := cards st;
           assignments := ∅;
           isInitial := bool_decide (phase st = init_human);
           handCards := handCards s; hint := hint s;
           confirmDisabled := confirmDisabled s; status := status s |} in
      let s := buildDragDropUI (currentCards s) s in
      setStatus
        (Some (if isInitial s
               then "Drag your cards into Front, Middle, or Back. Front gets at most 3 cards."
               else "Drag 2 cards into a row and 1 card into Discard.")) s
  | game_over => setStatus (Some "Game over!") s
  | unexpected _ => s
  end.

Definition submitPlay (net : request → fetch_result) (s : state) : state :=
  let (ok, s) := validateAssignments s in
  if negb ok then s
  else
    let placements := buildPlacements s in
    let s1 := setConfirmDisabled true s in
    match net {| req_game_id := gameId s; req_placements := placements |} with
    | Rejected message =>
        setConfirmDisabled false (setStatus (Some ("Network error: " +:+ message)) s1)
    | Json st =>
        if truthy (error st) then
          setConfirmDisabled false
            (setStatus (Some ("Error: " +:+ default "" (error st))) s1)
        else applyState st s1
    end.

(** The one gesture: dropping card [idx] on a zone. *)
Inductive op := Move (idx : nat) (toZone : Zone).

Definition step (s : state) (o : op) : state :=
  match o with Move idx z => moveCard idx z s end.

Definition run (ops : list op) (s : state) : state := foldl step s ops.

(** A drop can only land on a zone that [buildDragDropUI] created. *)
Definition zoneExists (initial : bool) (o : op) : Prop :=
  match o with
  | Move _ pool => True
  | Move _ (zone r) => r ∈ rowNames initial
  end.

Definition isSubmittable (s : state) : bool :=
  negb (confirmDisabled (updateConfirmButton s)).

#[global] Instance Zone_eq_dec : EqDecision Zone.
Proof. solve_decision. Defined.

(** [newGame], with the outcome of the request given. *)
Definition newGame (answer : fetch_result) (s : state) : state :=
  match answer with
  | Rejected message => setStatus (Some ("Error starting game: " +:+ message)) s
  | Json st => applyState st s
  end.

(** The page around the variables: the zones [makeZone] has put into
    [#hand-area], and for every [.hand-card] element the zone whose card
    container holds it. *)
Record page := {
  vars : state;
  zoneEls : list Zone;
  cardAt : gmap nat Zone;
}.

(** What [buildDragDropUI] puts into the emptied [#hand-area]: one zone per
    row name, the pool, and every card of the hand in the pool. *)
Definition zonesFor (initial : bool) : list Zone :=
  (zone <$> rowNames initial) ++ [pool].

Definition allInPool (cs : list card) : gmap nat Zone :=
  list_to_map ((λ idx, (idx, pool)) <$> seq 0 (length cs)).

(** [applyState] with the elements it builds; a state that opens no turn
    leaves [#hand-area] as it is. *)
Definition applyStateOnPage (st : response) (p : page) : page :=
  match phase st with
  | init_human | human_turn =>
      {| vars := applyState st (vars p);
         zoneEls := zonesFor (bool_decide (phase st = init_human));
         cardAt := allInPool (cards st) |}
  | _ => {| vars := applyState st (vars p); zoneEls := zoneEls p; cardAt := cardAt p |}
  end.

(** [moveCard] with the node it moves: [target.appendChild(cardEl)] when
    the target zone is in the document. *)
Definition moveCardOnPage (idx : nat) (toZone : Zone) (p : page) : page :=
  if bool_decide (idx ∈ handCards (vars p)) then
    {| vars := moveCard idx toZone (vars p);
       zoneEls := zoneEls p;
       cardAt := if bool_decide (toZone ∈ zoneEls p) then <[idx := toZone]> (cardAt p)
                 else cardAt p |}
  else p.

Definition runOnPage (ops : list op) (p : page) : page :=
  foldl (λ p o, match o with Move idx z => moveCardOnPage idx z p end) p ops.

(** The zone the ledger gives a card: its row's zone, or the pool. *)
Definition ledgerZone (s : state) (idx : nat) : Zone :=
  match assignments s !! idx with
  | Some r => zone r
  | None => pool
  end.

(** The card tables. A lookup that misses stands for a name that is no key
    of the table. *)
Definition SUIT_SYMBOL : gmap string string :=
  list_to_map [("d", "♦"); ("c", "♣"); ("s", "♠"); ("h", "♥")].

Definition SUIT_COLOR : gmap string string :=
  list_to_map [("d", "red"); ("c", "black"); ("s", "black"); ("h", "red")].






(** The score part of a game-over state. *)
Record scores := { score_player : Z; score_ai : Z }.

(** One entry of [hand_results]. *)
Record handResult := {
  hr_player : string;
  hr_ai : string;
  hr_player_bonus : Z;
  hr_ai_bonus : Z;
  hr_winner : string;
}.

(** What [showGameOver] writes: the title, the classes of the two score
    values, and per row the cell classes, the label and the bonus texts. *)
Record scoreHeader := { go_title : string; playerValueClass : string; aiValueClass : string }.

Definition showGameOverHeader (sc : scores) : scoreHeader :=
  let playerWon := bool_decide (score_ai sc < score_player sc)%Z in
  let aiWon := bool_decide (score_player sc < score_ai sc)%Z in
  {| go_title := if playerWon then "🏆 You Win!"
                 else if bool_decide (score_player sc = score_ai sc) then "It's a Tie"
                 else "AI Wins";
     playerValueClass := if playerWon then "winner" else "loser";
     aiValueClass := if aiWon then "winner" else "loser" |}.

Record resultRow := {
  pC : string;
  aC : string;
  label : string;
  playerBonusText : string;
  aiBonusText : string;
}.

Definition showGameOverRow (r : handResult) : resultRow :=
  let w := hr_winner r in
  {| pC := if decide (w = "player") then "go-winner"
           else if decide (w = "ai") then "go-loser" else "go-tie";
     aC := if decide (w = "ai") then "go-winner"
           else if decide (w = "player") then "go-loser" else "go-tie";
     label := if decide (w = "player") then "← You"
              else if decide (w = "ai") then "AI →" else "Tie";
     playerBonusText := if bool_decide (0 < hr_player_bonus r)%Z
                        then "+" +:+ pretty (hr_player_bonus r) else "—";
     aiBonusText := if bool_decide (0 < hr_ai_bonus r)%Z
                    then "+" +:+ pretty (hr_ai_bonus r) else "—" |}.

End Zones.

(** ** Version 3: one row picker per card *)
Module Buttons.

(** The script's variables, then the DOM: the [data-idx] of the
    [.hand-card-group] elements, the text of [#placement-hint],
    [#btn-confirm.disabled] and the visible text of [#status-bar]. *)
Record state := {
  gameId : option string;
  currentCards : list card;
  assignments : gmap nat Row;
  isInitialTurn : bool;
  cardGroups : list nat;
  hint : string;
  confirmDisabled : bool;
  status : option string;
}.

Definition setHint (msg : string) (s : state) : state :=
  {| gameId := gameId s; currentCards := currentCards s;
     assignments := assignments s; isInitialTurn := isInitialTurn s;
     cardGroups := cardGroups s; hint := msg;
     confirmDisabled := confirmDisabled s; status := status s |}.

Definition setConfirmDisabled (b : bool) (s : state) : state :=
  {| gameId := gameId s; currentCards := currentCards s;
     assignments := assignments s; isInitialTurn := isInitialTurn s;
     cardGroups := cardGroups s; hint := hint s;
     confirmDisabled := b; status := status s |}.

Definition setStatus (msg : option string) (s : state) : state :=
  {| gameId := gameId s; currentCards := currentCards s;
     assignments := assignments s; isInitialTurn := isInitialTurn s;
     cardGroups := cardGroups s; hint := hint s;
     confirmDisabled := confirmDisabled s;
     status := if truthy msg then msg else None |}.

Definition setAssignments (a : gmap nat Row) (s : state) : state :=
  {| gameId := gameId s; currentCards := currentCards s;
     assignments := a; isInitialTurn := isInitialTurn s;
     cardGroups := cardGroups s; hint := hint s;
     confirmDisabled := confirmDisabled s; status := status s |}.

(** The buttons [makeRowPicker] builds for a card. *)
Definition rows (initial : bool) : list Row :=
  if initial then [front; middle; back] else [front; middle; back; discard].

Definition updateConfirmButton (s : state) : state :=
  let n := length (currentCards s) in
  let allSet := bool_decide (length (keys (assignments s)) = n) in
  if allSet then
    let counts := tally (values (assignments s)) in
    if isInitialTurn s && bool_decide (3 < count_or_0 counts front) then
      setConfirmDisabled true (setHint "Front can hold at most 3 cards." s)
    else if negb (isInitialTurn s) && bool_decide (count_or_0 counts discard ≠ 1) then
      setConfirmDisabled true (setHint "Discard exactly 1 card." s)
    else setConfirmDisabled false (setHint "" s)
  else setConfirmDisabled true s.

(** The mapping is written first; highlighting the buttons then reads
    the card's group, which throws when the document has none. *)
Definition assignCard (idx : nat) (r : Row) (s : state) : completion state :=
  let s1 := setAssignments (<[idx := r]> (assignments s)) s in
  if bool_decide (idx ∈ cardGroups s) then Normal (updateConfirmButton s1)
  else Throw typeError s1.

Definition validateAssignments (s : state) : bool * state :=
  let n := length (currentCards s) in
  if bool_decide (length (keys (assignments s)) < n) then
    (false, setHint "Assign all cards before confirming." s)
  else
    let counts := tally (values (assignments s)) in
    if isInitialTurn s then
      if bool_decide (3 < count_or_0 counts front) then
        (false, setHint "Front can hold at most 3 cards." s)
      else (true, setHint "" s)
    else
      if bool_decide (count_or_0 counts discard ≠ 1) then
        (false, setHint "You must discard exactly 1 card." s)
      else (true, setHint "" s).

Definition buildPlacements (s : state) : list placement :=
  (λ e, {| card_idx := e.1; row := e.2 |}) <$> entries (assignments s).

(** One [.hand-card-group] with its row picker per card of the hand. *)
Definition renderHandArea (cs : list card) (s : state) : state :=
  updateConfirmButton
    {| gameId := gameId s; currentCards := currentCards s;
       assignments := assignments s; isInitialTurn := isInitialTurn s;
       cardGroups := seq 0 (length cs); hint := hint s;
       confirmDisabled := confirmDisabled s; status := status s |}.

Definition applyState (st : response) (s : state) : state :=
  let s :=
    {| gameId := Some (game_id st); currentCards := currentCards s;
       assignments := assignments s; isInitialTurn := isInitialTurn s;
       cardGroups := cardGroups s; hint := hint s;
       confirmDisabled := confirmDisabled s; status := status s |} in
  match phase st with
  | init_human | human_turn =>
      let s :=
        {| gameId := gameId s; currentCards := cards st;
           assignments := ∅;
           isInitialTurn := bool_decide (phase st = init_human);
           cardGroups := cardGroups s; hint := hint s;
           confirmDisabled := confirmDisabled s; status := status s |} in
      let s := renderHandArea (currentCards s) s in
      setStatus
        (Some (if isInitialTurn s
               then "Opening hand: place 3 cards in Front and 2 in Middle/Back."
               else "Draw: place 2 cards and discard 1.")) s
  | game_over => setStatus (Some "Game over!") s
  | unexpected tag => setStatus (Some ("Unexpected phase: " +:+ tag)) s
  end.

(** The one gesture: clicking the button [r] of card [idx]. *)
Inductive op := Assign (idx : nat) (r : Row).

Definition step (s : state) (o : op) : state :=
  match o with Assign idx r => after (assignCard idx r s) end.

Definition run (ops : list op) (s : state) : state := foldl step s ops.

Definition isSubmittable (s : state) : bool :=
  negb (confirmDisabled (updateConfirmButton s)).

(** [newGame], with the outcome of the request given. *)
Definition newGame (answer : fetch_result) (s : state) : state :=
  match answer with
  | Rejected message => setStatus (Some ("Error starting game: " +:+ message)) s
  | Json st => applyState st s
  end.

Definition submitPlay (net : request → fetch_result) (s : state) : state :=
  let (ok, s) := validateAssignments s in
  if negb ok then s
  else
    let placements := buildPlacements s in
    let s1 := setConfirmDisabled true s in
    match net {| req_game_id := gameId s; req_placements := placements |} with
    | Rejected message =>
        setConfirmDisabled false (setStatus (Some ("Network error: " +:+ message)) s1)
    | Json st =>
        if truthy (error st) then
          setConfirmDisabled false
            (setStatus (Some ("Error: " +:+ default "" (error st))) s1)
        else applyState st s1
    end.

(** The page around the variables: the row names of the buttons every
    picker was built with, and for every card the button that carries the
    [selected] class, if any. *)
Record page := {
  vars : state;
  buttonRows : list Row;
  selected : gmap nat Row;
}.

(** [applyState] with the pickers it builds: fresh ones, nothing selected,
    when the state opens a turn. *)
Definition applyStateOnPage (st : response) (p : page) : page :=
  match phase st with
  | init_human | human_turn =>
      {| vars := applyState st (vars p);
         buttonRows := rows (bool_decide (phase st = init_human));
         selected := ∅ |}
  | _ => {| vars := applyState st (vars p); buttonRows := buttonRows p;
            selected := selected p |}
  end.

(** [assignCard] with the highlighting: every button of the card's picker
    is selected exactly when its row is the one clicked. *)
Definition assignCardOnPage (idx : nat) (r : Row) (p : page) : completion page :=
  let s1 := setAssignments (<[idx := r]> (assignments (vars p))) (vars p) in
  if bool_decide (idx ∈ cardGroups (vars p)) then
    Normal {| vars := updateConfirmButton s1;
              buttonRows := buttonRows p;
              selected := if bool_decide (r ∈ buttonRows p) then <[idx := r]> (selected p)
                          else delete idx (selected p) |}
  else Throw typeError {| vars := s1; buttonRows := buttonRows p; selected := selected p |}.

Definition runOnPage (ops : list op) (p : page) : page :=
  foldl (λ p o, match o with Assign idx r => after (assignCardOnPage idx r p) end) p ops.

(** A click can only come from a button that [makeRowPicker] created for
    a card of the hand. *)
Definition buttonExists (initial : bool) (n : nat) (o : op) : Prop :=
  match o with Assign idx r => idx < n ∧ r ∈ rows initial end.

End Buttons.

(** * Invariants and sample data *)

(** [Zones]: the document holds one card element per hand index, every key
    of [assignments] is a hand index, and the confirm button shows what
    [updateConfirmButton] computes from the current assignments. *)
Definition zones_wf (s : Zones.state) : Prop :=
  Zones.handCards s = seq 0 (length (Zones.currentCards s))
  ∧ (∀ k, is_Some (Zones.assignments s !! k) → k < length (Zones.currentCards s))
  ∧ Zones.confirmDisabled s = negb (Zones.isSubmittable s).

(** No card sits on the discard zone. *)
Definition zones_no_discard (s : Zones.state) : Prop :=
  ∀ k, Zones.assignments s !! k ≠ Some discard.

(** [Rows]: gestures that carry the index of a card of the hand. *)
Definition in_hand (n : nat) (o : Rows.op) : Prop :=
  match o with
  | Rows.Place idx _ => idx < n
  | Rows.Return idx => idx < n
  end.

(** [Rows]: no index lies on two rows or twice on a row, every placed
    index is a hand index, the server board is known, the turn is open, and
    the confirm button shows what [updateConfirmButton] computes. *)
Definition rows_wf (s : Rows.state) : Prop :=
  NoDup (Rows.bp_all (Rows.boardPlacements s))
  ∧ (∀ k, k ∈ Rows.bp_all (Rows.boardPlacements s) → k < length (Rows.currentCards s))
  ∧ is_Some (Rows.currentServerBoard s)
  ∧ Rows.isActionMode s = true
  ∧ Rows.confirmDisabled s = negb (Rows.isSubmittable s).

(** [Rows]: a row with pending cards is within its maximum. *)
Definition rows_within_max (s : Rows.state) : Prop :=
  ∀ r, Rows.pending s r = 0 ∨ Rows.committed s r + Rows.pending s r ≤ Rows.rowMax r.

(** The values of the script variables when the page loads, with an empty
    hint, an enabled button and a hidden status bar. *)
Definition rowsPageLoad : Rows.state :=
  {| Rows.gameId := None; Rows.currentCards := []; Rows.currentServerBoard := None;
     Rows.boardPlacements := Rows.noPlacements; Rows.isInitial := false;
     Rows.isActionMode := false; Rows.hint := ""; Rows.confirmDisabled := false;
     Rows.status := None; Rows.boardDrop := false |}.

Definition zonesPageLoad : Zones.state :=
  {| Zones.gameId := None; Zones.currentCards := []; Zones.assignments := ∅;
     Zones.isInitial := false; Zones.handCards := []; Zones.hint := "";
     Zones.confirmDisabled := false; Zones.status := None |}.

Definition buttonsPageLoad : Buttons.state :=
  {| Buttons.gameId := None; Buttons.currentCards := []; Buttons.assignments := ∅;
     Buttons.isInitialTurn := false; Buttons.cardGroups := []; Buttons.hint := "";
     Buttons.confirmDisabled := false; Buttons.status := None |}.

Definition emptyBoard : board :=
  {| board_front := []; board_middle := []; board_back := [] |}.

(** An opening deal of five cards and a draw deal of three. *)
Definition openingDeal : response :=
  {| error := None; game_id := "g"; phase := init_human;
     cards := [ {| height := "A"; suit := "s" |}; {| height := "K"; suit := "h" |};
                {| height := "7"; suit := "d" |}; {| height := "7"; suit := "c" |};
                {| height := "2"; suit := "s" |} ];
     player_board := emptyBoard; ai_board := emptyBoard; ai_goes_first := false |}.

Definition drawDeal : response :=
  {| error := None; game_id := "g"; phase := human_turn;
     cards := [ {| height := "Q"; suit := "s" |}; {| height := "T"; suit := "h" |};
                {| height := "3"; suit := "d" |} ];
     player_board := emptyBoard; ai_board := emptyBoard; ai_goes_first := false |}.

(** A server answer that rejects the play. *)
Definition rejection (msg : string) : response :=
  {| error := Some msg; game_id := ""; phase := unexpected "";
     cards := []; player_board := emptyBoard; ai_board := emptyBoard;
     ai_goes_first := false |}.

(** [Buttons]: one card group per hand index, every key a hand index, and
    the confirm button shows what [updateConfirmButton] computes. *)
Definition buttons_wf (s : Buttons.state) : Prop :=
  Buttons.cardGroups s = seq 0 (length (Buttons.currentCards s))
  ∧ (∀ k, is_Some (Buttons.assignments s !! k) → k < length (Buttons.currentCards s))
  ∧ Buttons.confirmDisabled s = negb (Buttons.isSubmittable s).

(** [Zones]: the zones of the current turn are in the document and every
    card of the hand sits in the zone its ledger entry names. *)
Definition zones_page_wf (p : Zones.page) : Prop :=
  zones_wf (Zones.vars p)
  ∧ Zones.zoneEls p = Zones.zonesFor (Zones.isInitial (Zones.vars p))
  ∧ ∀ idx, idx < length (Zones.currentCards (Zones.vars p)) →
      Zones.cardAt p !! idx = Some (Zones.ledgerZone (Zones.vars p) idx).

(** [Buttons]: the pickers of the current turn are in the document and the
    selected button of every card is its ledger entry. *)
Definition buttons_page_wf (p : Buttons.page) : Prop :=
  buttons_wf (Buttons.vars p)
  ∧ Buttons.buttonRows p = Buttons.rows (Buttons.isInitialTurn (Buttons.vars p))
  ∧ Buttons.selected p = Buttons.assignments (Buttons.vars p).


#[global] Instance card_eq_dec : EqDecision card.
Proof. solve_decision. Defined.


Definition oddState : response :=
  {| error := None; game_id := "g"; phase := unexpected "ai_turn"; cards := [];
     player_board := emptyBoard; ai_board := emptyBoard; ai_goes_first := false |}.

(** * Properties of the object model *)

Section object_model.
Implicit Types (o : gmap nat Row) (k : nat) (r : Row).

Lemma entries_Permutation o : entries o ≡ₚ map_to_list o.
Proof. apply merge_sort_Permutation. Qed.

Lemma elem_of_entries o k r : (k, r) ∈ entries o ↔ o !! k = Some r.
Proof. rewrite entries_Permutation. apply elem_of_map_to_list. Qed.

Lemma length_keys o : length (keys o) = size o.
Proof.
  unfold keys. rewrite length_fmap, entries_Permutation.
  apply length_map_to_list.
Qed.

Lemma NoDup_keys o : NoDup (keys o).
Proof. unfold keys. rewrite entries_Permutation. apply NoDup_fst_map_to_list. Qed.

Lemma elem_of_keys o k : k ∈ keys o ↔ is_Some (o !! k).
Proof.
  unfold keys. rewrite list_elem_of_fmap. split.
  - intros [[k' r] [-> Hin]]. apply elem_of_entries in Hin. by exists r.
  - intros [r Hr]. exists (k, r). split; [done|]. by apply elem_of_entries.
Qed.

(** The running tally adds one to the counter of each value it meets. *)
Lemma foldl_tally (vals : list Row) (acc : gmap Row nat) r :
  count_or_0 (foldl (λ counts x, <[x := default 0 (counts !! x) + 1]> counts) acc vals) r
  = count_or_0 acc r + length (filter (λ x, x = r) vals).
Proof.
  revert acc. induction vals as [|v vals IH]; intros acc; simpl.
  - lia.
  - rewrite IH. rewrite filter_cons. unfold count_or_0.
    destruct (decide (v = r)) as [->|Hne].
    + rewrite lookup_insert_eq. simpl. lia.
    + rewrite lookup_insert_ne by done. lia.
Qed.

Lemma tally_count (vals : list Row) r :
  count_or_0 (tally vals) r = length (filter (λ x, x = r) vals).
Proof. unfold tally. rewrite foldl_tally. unfold count_or_0. by rewrite lookup_empty. Qed.

Lemma length_filter_snd (l : list (nat * Row)) r :
  length (filter (λ x, x = r) l.*2) = length (filter (λ kv, kv.2 = r) l).
Proof.
  induction l as [|[k v] l IH]; [done|].
  rewrite fmap_cons, !filter_cons. simpl.
  destruct (decide (v = r)); simpl; by rewrite IH.
Qed.

(** The counter the scripts read off [counts] is the number of entries
    with that value. *)
Lemma tally_values o r : count_or_0 (tally (values o)) r = countFor o r.
Proof.
  rewrite tally_count. unfold values, countFor.
  rewrite length_filter_snd. by rewrite entries_Permutation.
Qed.

Lemma countFor_insert_fresh o k r r' :
  o !! k = None →
  countFor (<[k := r]> o) r' = (if decide (r = r') then 1 else 0) + countFor o r'.
Proof.
  intros Hk. unfold countFor. rewrite map_to_list_insert by done.
  rewrite filter_cons. simpl. by destruct (decide (r = r')).
Qed.

Lemma countFor_delete o k r r' :
  o !! k = Some r →
  countFor o r' = (if decide (r = r') then 1 else 0) + countFor (delete k o) r'.
Proof.
  intros Hk. rewrite <-(countFor_insert_fresh _ k) by apply lookup_delete_eq.
  by rewrite insert_delete_id.
Qed.

(** Writing a property: the old value's counter loses the entry, the new
    value's counter gains it. *)
Lemma countFor_insert o k r r' :
  countFor (<[k := r]> o) r' + (if decide (o !! k = Some r') then 1 else 0)
  = (if decide (r = r') then 1 else 0) + countFor o r'.
Proof.
  destruct (o !! k) as [r0|] eqn:Hk.
  - rewrite <-insert_delete_eq.
    rewrite countFor_insert_fresh by apply lookup_delete_eq.
    rewrite (countFor_delete o k r0 r') by done.
    repeat case_decide; simplify_eq; lia.
  - rewrite countFor_insert_fresh by done.
    repeat case_decide; simplify_eq; lia.
Qed.

(** An object whose keys all lie below [n] has at most [n] keys, and
    exactly [n] only when every index below [n] is a key. *)
Lemma size_le_bound o n :
  (∀ k, is_Some (o !! k) → k < n) → size o ≤ n.
Proof.
  intros Hlt. rewrite <-size_dom, <-(size_set_seq (C := gset nat) 0 n).
  apply subseteq_size. intros k Hk. apply elem_of_dom in Hk.
  apply elem_of_set_seq. specialize (Hlt k Hk). lia.
Qed.

Lemma full_of_size o n :
  (∀ k, is_Some (o !! k) → k < n) → n ≤ size o →
  ∀ k, k < n → is_Some (o !! k).
Proof.
  intros Hlt Hsize k Hk.
  assert (dom o = set_seq (C := gset nat) 0 n) as Hdom.
  { apply set_subseteq_size_eq.
    - intros j Hj. apply elem_of_dom in Hj. apply elem_of_set_seq.
      specialize (Hlt j Hj). lia.
    - by rewrite size_set_seq, size_dom. }
  apply elem_of_dom. rewrite Hdom. apply elem_of_set_seq. lia.
Qed.

Lemma size_of_full o n :
  (∀ k, is_Some (o !! k) → k < n) → (∀ k, k < n → is_Some (o !! k)) →
  size o = n.
Proof.
  intros Hlt Hfull. rewrite <-size_dom, <-(size_set_seq (C := gset nat) 0 n).
  f_equal. apply set_eq. intros k.
  rewrite elem_of_dom, elem_of_set_seq. split; [intros ?%Hlt; lia|].
  intros [_ ?]. apply Hfull. lia.
Qed.

(** A duplicate-free list of indices below [n], of length [n], lists
    every index below [n] once. *)
Lemma Permutation_seq (l : list nat) n :
  NoDup l → (∀ k, k ∈ l → k < n) → n ≤ length l → l ≡ₚ seq 0 n.
Proof.
  intros Hnd Hlt Hlen. apply submseteq_length_Permutation.
  - apply NoDup_submseteq; [done|]. intros k Hk. apply elem_of_seq.
    specialize (Hlt k Hk). lia.
  - by rewrite length_seq.
Qed.

Lemma length_le_bound (l : list nat) n :
  NoDup l → (∀ k, k ∈ l → k < n) → length l ≤ n.
Proof.
  intros Hnd Hlt. transitivity (length (seq 0 n)); [|by rewrite length_seq].
  apply submseteq_length, NoDup_submseteq; [done|].
  intros k Hk. apply elem_of_seq. specialize (Hlt k Hk). lia.
Qed.

End object_model.

(** * Properties of the zone script *)

Section zones.
Import Zones.
Implicit Types (s : state) (idx k : nat) (z : Zone) (r : Row).

Lemma zones_updateConfirmButton_frame s :
  let s' := updateConfirmButton s in
  assignments s' = assignments s ∧ currentCards s' = currentCards s
  ∧ isInitial s' = isInitial s ∧ handCards s' = handCards s
  ∧ status s' = status s ∧ gameId s' = gameId s.
Proof.
  unfold updateConfirmButton. simpl.
  repeat case_match; simpl; done.
Qed.

(** What enables the confirm button. *)
Lemma zones_isSubmittable_spec s :
  isSubmittable s = true ↔
    size (assignments s) = length (currentCards s)
    ∧ (if isInitial s then countFor (assignments s) front ≤ 3
       else countFor (assignments s) discard = 1).
Proof.
  unfold isSubmittable, updateConfirmButton.
  rewrite !tally_values, length_keys.
  destruct (isInitial s); simpl;
    repeat case_bool_decide; simpl; split; try done; try lia;
    intros [? ?]; done || lia.
Qed.

(** What lets [validateAssignments] pass. *)
Lemma zones_validateAssignments_spec s :
  (validateAssignments s).1 = true ↔
    length (currentCards s) ≤ size (assignments s)
    ∧ (if isInitial s then countFor (assignments s) front ≤ 3
       else countFor (assignments s) discard = 1).
Proof.
  unfold validateAssignments.
  rewrite !tally_values, length_keys.
  destruct (isInitial s); simpl;
    repeat case_bool_decide; simpl; split; try done; try lia;
    intros [? ?]; done || lia.
Qed.

Lemma zones_validateAssignments_frame s :
  let s' := (validateAssignments s).2 in
  assignments s' = assignments s ∧ currentCards s' = currentCards s
  ∧ isInitial s' = isInitial s ∧ handCards s' = handCards s
  ∧ status s' = status s ∧ gameId s' = gameId s
  ∧ confirmDisabled s' = confirmDisabled s.
Proof.
  unfold validateAssignments. simpl. repeat case_match; simpl; done.
Qed.

Lemma zones_isSubmittable_ext s s' :
  assignments s = assignments s' → currentCards s = currentCards s' →
  isInitial s = isInitial s' → isSubmittable s = isSubmittable s'.
Proof.
  intros Ha Hc Hi. unfold isSubmittable, updateConfirmButton.
  rewrite Ha, Hc, Hi. repeat (case_match; simpl; try done).
Qed.

Lemma zones_isSubmittable_updateConfirmButton s :
  confirmDisabled (updateConfirmButton s) = negb (isSubmittable (updateConfirmButton s)).
Proof.
  unfold isSubmittable, updateConfirmButton. simpl.
  repeat (case_match; simpl; try done).
Qed.

(** The assignments after a drop. *)
Lemma zones_moveCard_assignments idx z s :
  assignments (moveCard idx z s) =
    if bool_decide (idx ∈ handCards s) then
      match z with
      | pool => delete idx (assignments s)
      | zone r => <[idx := r]> (assignments s)
      end
    else assignments s.
Proof.
  unfold moveCard. case_bool_decide; [|done].
  by destruct (zones_updateConfirmButton_frame
    (setAssignments match z with pool => delete idx (assignments s)
                    | zone r => <[idx:=r]> (assignments s) end s)) as [-> _].
Qed.

Lemma zones_moveCard_frame idx z s :
  let s' := moveCard idx z s in
  currentCards s' = currentCards s ∧ isInitial s' = isInitial s
  ∧ handCards s' = handCards s.
Proof.
  unfold moveCard. case_bool_decide; [|done].
  match goal with |- context [updateConfirmButton ?x] =>
    destruct (zones_updateConfirmButton_frame x) as (_ & -> & -> & -> & _) end.
  done.
Qed.

Lemma zones_moveCard_wf idx z s : zones_wf s → zones_wf (moveCard idx z s).
Proof.
  intros (Hcards & Hkeys & Hbtn).
  destruct (zones_moveCard_frame idx z s) as (Hc & Hi & Hh).
  split_and!.
  - by rewrite Hh, Hc.
  - intros k. rewrite Hc, zones_moveCard_assignments.
    case_bool_decide as Hin; [|apply Hkeys].
    rewrite Hcards, elem_of_seq in Hin.
    destruct z as [|r].
    + destruct (decide (idx = k)) as [->|]; [lia|].
      rewrite lookup_delete_ne by done. apply Hkeys.
    + destruct (decide (idx = k)) as [->|]; [lia|].
      rewrite lookup_insert_ne by done. apply Hkeys.
  - unfold moveCard. case_bool_decide; [|done].
    apply zones_isSubmittable_updateConfirmButton.
Qed.

Lemma zones_run_wf ops s : zones_wf s → zones_wf (run ops s).
Proof.
  revert s. induction ops as [|[idx z] ops IH]; intros s Hwf; [done|].
  simpl. by apply IH, zones_moveCard_wf.
Qed.

Lemma zones_run_frame ops s :
  currentCards (run ops s) = currentCards s ∧ isInitial (run ops s) = isInitial s.
Proof.
  revert s. induction ops as [|[idx z] ops IH]; intros s; [done|].
  simpl. destruct (IH (moveCard idx z s)) as [-> ->].
  by destruct (zones_moveCard_frame idx z s) as (-> & -> & _).
Qed.

(** A placing state from the server opens the turn with an empty ledger. *)
Lemma zones_applyState_placing st s :
  placing st →
  let s' := applyState st s in
  assignments s' = ∅ ∧ currentCards s' = cards st
  ∧ isInitial s' = bool_decide (phase st = init_human) ∧ zones_wf s'.
Proof.
  intros Hph. unfold applyState.
  assert (∀ s1 : state,
    assignments s1 = ∅ → currentCards s1 = cards st →
    isInitial s1 = bool_decide (phase st = init_human) →
    let s' := setStatus (Some (if isInitial (buildDragDropUI (currentCards s1) s1)
        then "Drag your cards into Front, Middle, or Back. Front gets at most 3 cards."
        else "Drag 2 cards into a row and 1 card into Discard."))
        (buildDragDropUI (currentCards s1) s1) in
    assignments s' = ∅ ∧ currentCards s' = cards st
    ∧ isInitial s' = bool_decide (phase st = init_human) ∧ zones_wf s') as Hgen.
  { intros s1 Ha Hc Hi. unfold buildDragDropUI.
    match goal with |- context [updateConfirmButton ?x] => set (s2 := x) end.
    destruct (zones_updateConfirmButton_frame s2) as (Ha' & Hc' & Hi' & Hh' & _).
    simpl. split_and!.
    - by rewrite Ha'.
    - by rewrite Hc'.
    - by rewrite Hi'.
    - unfold zones_wf. simpl. rewrite Hh', Hc', Ha'. simpl. split_and!.
      + done.
      + intros k. rewrite Ha, lookup_empty. by intros [? ?].
      + rewrite zones_isSubmittable_updateConfirmButton. f_equal.
        by apply zones_isSubmittable_ext. }
  destruct Hph as [Hph|Hph]; rewrite Hph in *; by apply Hgen.
Qed.

(** Every state met during a turn is well formed. *)
Lemma zones_turn_wf st s0 ops :
  placing st →
  let s := run ops (applyState st s0) in
  zones_wf s ∧ currentCards s = cards st
  ∧ isInitial s = bool_decide (phase st = init_human).
Proof.
  intros Hph. destruct (zones_applyState_placing st s0 Hph) as (_ & Hc & Hi & Hwf).
  simpl. destruct (zones_run_frame ops (applyState st s0)) as [-> ->].
  split_and!; [by apply zones_run_wf|done|done].
Qed.

Lemma zones_moveCard_no_discard idx z s :
  zones_no_discard s → zoneExists true (Move idx z) →
  zones_no_discard (moveCard idx z s).
Proof.
  intros Hnd Hz k. rewrite zones_moveCard_assignments.
  case_bool_decide; [|apply Hnd].
  destruct z as [|r]; simpl in Hz.
  - destruct (decide (idx = k)) as [->|].
    + by rewrite lookup_delete_eq.
    + rewrite lookup_delete_ne by done. apply Hnd.
  - destruct (decide (idx = k)) as [->|].
    + rewrite lookup_insert_eq. intros [= ->].
      unfold rowNames in Hz. rewrite !elem_of_cons, elem_of_nil in Hz.
      destruct Hz as [?|[?|[?|[]]]]; discriminate.
    + rewrite lookup_insert_ne by done. apply Hnd.
Qed.

Lemma zones_run_no_discard ops s :
  zones_no_discard s → Forall (zoneExists true) ops →
  zones_no_discard (run ops s).
Proof.
  revert s. induction ops as [|[idx z] ops IH]; intros s Hnd Hops; [done|].
  apply Forall_cons in Hops as [Hz Hops]. simpl.
  by apply IH; [apply zones_moveCard_no_discard|].
Qed.

End zones.

(** * Properties of the row script *)

Section rows.
Import Rows.
Implicit Types (s : state) (idx k : nat) (r : Row) (bp : BoardPlacements).

Lemma rows_updateConfirmButton_vars s :
  let s' := updateConfirmButton s in
  boardPlacements s' = boardPlacements s ∧ currentCards s' = currentCards s
  ∧ currentServerBoard s' = currentServerBoard s ∧ isInitial s' = isInitial s
  ∧ isActionMode s' = isActionMode s.
Proof.
  unfold updateConfirmButton. simpl. repeat case_match; simpl; done.
Qed.

(** What enables the confirm button. *)
Lemma rows_isSubmittable_spec s :
  isSubmittable s = true ↔ isActionMode s = true ∧ totalPlaced s = required s.
Proof.
  unfold isSubmittable, updateConfirmButton.
  destruct (isActionMode s); simpl; [|by split; [|intros [? _]]].
  assert (negb (bool_decide (totalPlaced s ≠ required s)) = true
          ↔ true = true ∧ totalPlaced s = required s) as Hiff.
  { rewrite negb_true_iff, bool_decide_eq_false. split.
    - intros Hnn. split; [done|]. by apply dec_stable.
    - intros [_ Heq] Hne. by apply Hne. }
  repeat (case_match; simpl); exact Hiff.
Qed.

Lemma rows_isSubmittable_ext s s' :
  boardPlacements s = boardPlacements s' → currentCards s = currentCards s' →
  isInitial s = isInitial s' → isActionMode s = isActionMode s' →
  isSubmittable s = isSubmittable s'.
Proof.
  intros Hb Hc Hi Ha. apply eq_true_iff_eq. rewrite !rows_isSubmittable_spec.
  unfold totalPlaced, required. by rewrite Hb, Hc, Hi, Ha.
Qed.

Lemma rows_isSubmittable_updateConfirmButton s :
  confirmDisabled (updateConfirmButton s) = negb (isSubmittable s).
Proof. unfold isSubmittable. by rewrite negb_involutive. Qed.

Lemma rows_refreshUI_vars s :
  let s' := after (refreshUI s) in
  boardPlacements s' = boardPlacements s ∧ currentCards s' = currentCards s
  ∧ currentServerBoard s' = currentServerBoard s ∧ isInitial s' = isInitial s
  ∧ isActionMode s' = isActionMode s.
Proof.
  unfold refreshUI, renderPlayerBoard. case_bool_decide; simpl; [|done].
  apply rows_updateConfirmButton_vars.
Qed.

(** Rendering succeeds when the board is known and every placed index
    has a card. *)
Lemma rows_refreshUI_Normal s :
  is_Some (currentServerBoard s) →
  (∀ k, k ∈ bp_all (boardPlacements s) → k < length (currentCards s)) →
  refreshUI s = Normal (updateConfirmButton s).
Proof.
  intros Hb Hlt. unfold refreshUI, renderPlayerBoard.
  rewrite bool_decide_eq_true_2; [done|].
  split; [done|]. by apply Forall_forall.
Qed.

Lemma bp_get_push r idx bp r' :
  bp_get (bp_push r idx bp) r' =
    if decide (r = r') then (λ l, l ++ [idx]) <$> bp_get bp r' else bp_get bp r'.
Proof. destruct r, r'; done. Qed.

Lemma bp_all_push r idx bp :
  r ≠ discard → bp_all (bp_push r idx bp) ≡ₚ idx :: bp_all bp.
Proof.
  intros Hr. unfold bp_all. destruct r; simpl; [| | |done].
  - rewrite <-app_assoc. simpl. symmetry. apply Permutation_middle.
  - rewrite <-app_assoc. simpl.
    rewrite !(app_assoc (bp_front bp)), app_comm_cons.
    symmetry. apply Permutation_middle.
  - rewrite !app_assoc. symmetry. apply Permutation_cons_append.
Qed.

Lemma bp_get_remove idx s r :
  bp_get (boardPlacements (removeFromPlacements idx s)) r
  = filter (λ i, i ≠ idx) <$> bp_get (boardPlacements s) r.
Proof. by destruct r. Qed.

Lemma bp_all_remove idx s :
  bp_all (boardPlacements (removeFromPlacements idx s))
  = filter (λ i, i ≠ idx) (bp_all (boardPlacements s)).
Proof. unfold bp_all. simpl. by rewrite !filter_app. Qed.

(** The placements after a drop on a row, and after a return to the pool. *)
Lemma placeCardOnRow_placements idx r s :
  boardPlacements (after (placeCardOnRow idx r s)) =
    match currentServerBoard s, bp_get (boardPlacements s) r with
    | Some b, Some current =>
        if bool_decide (rowMax r ≤ length (board_row b r) + length current)
        then boardPlacements s
        else bp_push r idx (boardPlacements (removeFromPlacements idx s))
    | _, _ => boardPlacements s
    end.
Proof.
  unfold placeCardOnRow.
  destruct (currentServerBoard s) as [b|]; [|done].
  destruct (bp_get (boardPlacements s) r) as [cur|]; [|done].
  case_bool_decide; [done|].
  match goal with |- context [refreshUI ?x] =>
    by destruct (rows_refreshUI_vars x) as (-> & _) end.
Qed.

Lemma placeCardOnRow_vars idx r s :
  let s' := after (placeCardOnRow idx r s) in
  currentCards s' = currentCards s ∧ currentServerBoard s' = currentServerBoard s
  ∧ isInitial s' = isInitial s ∧ isActionMode s' = isActionMode s.
Proof.
  unfold placeCardOnRow.
  destruct (currentServerBoard s) as [b|] eqn:Hb; [|done].
  destruct (bp_get (boardPlacements s) r) as [cur|]; [|done].
  case_bool_decide; [simpl; by split_and!|].
  match goal with |- context [refreshUI ?x] =>
    destruct (rows_refreshUI_vars x) as (_ & -> & -> & -> & ->) end.
  simpl. by split_and!.
Qed.

Lemma returnCardToHand_placements idx s :
  boardPlacements (after (returnCardToHand idx s))
  = boardPlacements (removeFromPlacements idx s).
Proof.
  unfold returnCardToHand.
  by destruct (rows_refreshUI_vars (removeFromPlacements idx s)) as (-> & _).
Qed.

Lemma returnCardToHand_vars idx s :
  let s' := after (returnCardToHand idx s) in
  currentCards s' = currentCards s ∧ currentServerBoard s' = currentServerBoard s
  ∧ isInitial s' = isInitial s ∧ isActionMode s' = isActionMode s.
Proof.
  unfold returnCardToHand.
  by destruct (rows_refreshUI_vars (removeFromPlacements idx s)) as (_ & -> & -> & -> & ->).
Qed.

Lemma rows_step_vars s o :
  let s' := step s o in
  currentCards s' = currentCards s ∧ currentServerBoard s' = currentServerBoard s
  ∧ isInitial s' = isInitial s ∧ isActionMode s' = isActionMode s.
Proof.
  destruct o; [apply placeCardOnRow_vars|apply returnCardToHand_vars].
Qed.

Lemma rows_run_vars ops s :
  let s' := run ops s in
  currentCards s' = currentCards s ∧ currentServerBoard s' = currentServerBoard s
  ∧ isInitial s' = isInitial s ∧ isActionMode s' = isActionMode s.
Proof.
  revert s. induction ops as [|o ops IH]; intros s; [done|].
  simpl. destruct (IH (step s o)) as (-> & -> & -> & ->).
  apply rows_step_vars.
Qed.

Lemma elem_of_push_remove r idx s k :
  r ≠ discard →
  k ∈ bp_all (bp_push r idx (boardPlacements (removeFromPlacements idx s))) ↔
  k = idx ∨ (k ≠ idx ∧ k ∈ bp_all (boardPlacements s)).
Proof.
  intros Hr. rewrite bp_all_push by done. rewrite bp_all_remove.
  by rewrite elem_of_cons, list_elem_of_filter.
Qed.

Lemma NoDup_push_remove r idx s :
  r ≠ discard → NoDup (bp_all (boardPlacements s)) →
  NoDup (bp_all (bp_push r idx (boardPlacements (removeFromPlacements idx s)))).
Proof.
  intros Hr Hnd. rewrite bp_all_push by done. rewrite bp_all_remove.
  apply NoDup_cons. split; [|by apply NoDup_filter].
  rewrite list_elem_of_filter. by intros [? _].
Qed.

Lemma rows_wf_setHint msg s : rows_wf s → rows_wf (setHint msg s).
Proof.
  intros (Hnd & Hlt & Hb & Ha & Hbtn). split_and!; try done.
  simpl. rewrite Hbtn. f_equal. by apply rows_isSubmittable_ext.
Qed.

Lemma rows_wf_updateConfirmButton s :
  NoDup (bp_all (boardPlacements s)) →
  (∀ k, k ∈ bp_all (boardPlacements s) → k < length (currentCards s)) →
  is_Some (currentServerBoard s) → isActionMode s = true →
  rows_wf (updateConfirmButton s).
Proof.
  intros Hnd Hlt Hb Ha.
  destruct (rows_updateConfirmButton_vars s) as (Hp & Hc & Hsb & Hi & Ham).
  unfold rows_wf. rewrite Hp, Hc, Hsb, Ham. split_and!; try done.
  rewrite rows_isSubmittable_updateConfirmButton. f_equal.
  by apply rows_isSubmittable_ext.
Qed.

(** The three ways a drop on a row can end. *)
Lemma rows_placeCardOnRow_cases idx r s :
  rows_wf s → idx < length (currentCards s) →
  (r = discard ∧ placeCardOnRow idx r s = Throw typeError s)
  ∨ (r ≠ discard
     ∧ rowMax r ≤ committed s r + pending s r
     ∧ placeCardOnRow idx r s
       = Normal (setHint (capitalize (rowString r) +:+ " row is full.") s))
  ∨ (r ≠ discard
     ∧ committed s r + pending s r < rowMax r
     ∧ placeCardOnRow idx r s
       = Normal (updateConfirmButton
           (setBoardPlacements
              (bp_push r idx (boardPlacements (removeFromPlacements idx s)))
              (removeFromPlacements idx s)))).
Proof.
  intros (Hnd & Hlt & [b Hb] & Ha & Hbtn) Hidx.
  unfold placeCardOnRow, committed, pending, onRow. rewrite Hb.
  destruct (bp_get (boardPlacements s) r) as [cur|] eqn:Hcur.
  - assert (r ≠ discard) as Hr by (by intros ->).
    simpl. case_bool_decide as Hfull.
    + right; left. done.
    + right; right. split_and!; [done|lia|].
      apply rows_refreshUI_Normal; [simpl; by rewrite Hb|].
      intros k Hk. apply elem_of_push_remove in Hk as [->|[_ Hk]]; [done| |done].
      by apply Hlt.
  - left. by destruct r.
Qed.

Lemma rows_returnCardToHand_Normal idx s :
  rows_wf s →
  returnCardToHand idx s = Normal (updateConfirmButton (removeFromPlacements idx s)).
Proof.
  intros (Hnd & Hlt & Hb & Ha & Hbtn). unfold returnCardToHand.
  apply rows_refreshUI_Normal; [done|].
  intros k Hk. rewrite bp_all_remove in Hk.
  apply list_elem_of_filter in Hk as [_ Hk]. by apply Hlt.
Qed.

Lemma rows_step_wf s o :
  rows_wf s → in_hand (length (currentCards s)) o → rows_wf (step s o).
Proof.
  intros Hwf Hin. pose proof Hwf as (Hnd & Hlt & Hb & Ha & Hbtn).
  destruct o as [idx r|idx]; simpl in *.
  - destruct (rows_placeCardOnRow_cases idx r s Hwf Hin)
      as [[_ ->]|[(_ & _ & ->)|(Hr & _ & ->)]]; simpl.
    + done.
    + by apply rows_wf_setHint.
    + apply rows_wf_updateConfirmButton; simpl; try done.
      * by apply NoDup_push_remove.
      * intros k Hk. apply elem_of_push_remove in Hk as [->|[_ Hk]]; [done| |done].
        by apply Hlt.
  - rewrite rows_returnCardToHand_Normal by done. simpl.
    apply rows_wf_updateConfirmButton; try done.
    + rewrite bp_all_remove. by apply NoDup_filter.
    + intros k. rewrite bp_all_remove.
      intros [_ Hk]%list_elem_of_filter. by apply Hlt.
Qed.

Lemma rows_run_wf ops s :
  rows_wf s → Forall (in_hand (length (currentCards s))) ops → rows_wf (run ops s).
Proof.
  revert s. induction ops as [|o ops IH]; intros s Hwf Hops; [done|].
  apply Forall_cons in Hops as [Ho Hops]. simpl. apply IH.
  - by apply rows_step_wf.
  - by destruct (rows_step_vars s o) as (-> & _).
Qed.

(** Capacity: a drop never takes a row beyond its maximum, whatever the
    index. *)
Lemma rows_step_within_max s o : rows_within_max s → rows_within_max (step s o).
Proof.
  intros Hmax r'. unfold pending, onRow, committed.
  destruct (rows_step_vars s o) as (_ & -> & _).
  specialize (Hmax r'). unfold pending, onRow, committed in Hmax.
  destruct o as [idx r|idx]; simpl.
  - rewrite placeCardOnRow_placements.
    destruct (currentServerBoard s) as [b|] eqn:Hb; [|done].
    destruct (bp_get (boardPlacements s) r) as [cur|] eqn:Hcur; [|done].
    case_bool_decide as Hfull; [done|].
    rewrite bp_get_push, bp_get_remove.
    destruct (decide (r = r')) as [<-|Hne].
    + rewrite Hcur. simpl. rewrite length_app. simpl.
      pose proof (length_filter (λ i, i ≠ idx) cur). right. lia.
    + destruct (bp_get (boardPlacements s) r') as [l|]; simpl in *; [|by left].
      pose proof (length_filter (λ i, i ≠ idx) l). lia.
  - rewrite returnCardToHand_placements, bp_get_remove.
    destruct (bp_get (boardPlacements s) r') as [l|]; simpl in *; [|by left].
    pose proof (length_filter (λ i, i ≠ idx) l). lia.
Qed.

Lemma rows_run_within_max ops s : rows_within_max s → rows_within_max (run ops s).
Proof.
  revert s. induction ops as [|o ops IH]; intros s Hmax; [done|].
  simpl. by apply IH, rows_step_within_max.
Qed.

(** A placing state from the server opens the turn with no placements. *)
Lemma rows_applyState_placing st s0 :
  placing st →
  let s := after (applyState st s0) in
  boardPlacements s = noPlacements ∧ currentCards s = cards st
  ∧ currentServerBoard s = Some (player_board st)
  ∧ isInitial s = bool_decide (phase st = init_human)
  ∧ rows_wf s ∧ rows_within_max s.
Proof.
  intros Hph. unfold applyState.
  assert (∀ s1 : state,
    boardPlacements s1 = noPlacements → currentCards s1 = cards st →
    currentServerBoard s1 = Some (player_board st) →
    isInitial s1 = bool_decide (phase st = init_human) →
    isActionMode s1 = true →
    let s := after (refreshUI s1 >>> λ s,
      Normal (enableBoardDrop
        (if isInitial s
         then setStatus (Some (if ai_goes_first st then "AI goes first this game."
                               else "You go first this game.")) s
         else setStatus None s))) in
    boardPlacements s = noPlacements ∧ currentCards s = cards st
    ∧ currentServerBoard s = Some (player_board st)
    ∧ isInitial s = bool_decide (phase st = init_human)
    ∧ rows_wf s ∧ rows_within_max s) as Hgen.
  { intros s1 Hp Hc Hb Hi Ha.
    rewrite rows_refreshUI_Normal; [|by rewrite Hb|].
    2:{ intros k. rewrite Hp. by intros ?%elem_of_nil. }
    destruct (rows_updateConfirmButton_vars s1) as (Hp' & Hc' & Hb' & Hi' & Ha').
    assert (rows_wf (updateConfirmButton s1)) as Hwf.
    { apply rows_wf_updateConfirmButton; rewrite ?Hp, ?Hb, ?Ha; try done.
      - apply NoDup_nil_2.
      - by intros k ?%elem_of_nil. }
    simpl.
    assert (∀ m, rows_wf (enableBoardDrop (setStatus m (updateConfirmButton s1)))) as Hwf'.
    { intros m. destruct Hwf as (? & ? & ? & ? & Hbtn). split_and!; try done.
      simpl. rewrite Hbtn. f_equal. by apply rows_isSubmittable_ext. }
    destruct (isInitial (updateConfirmButton s1)) eqn:Hini; simpl;
      rewrite ?Hp', ?Hc', ?Hb', ?Hi', ?Hp, ?Hc, ?Hb; rewrite <-?Hi, <-?Hi', ?Hini;
      (split_and!; try done; try apply Hwf');
      intros r; left; unfold pending, onRow; simpl; rewrite Hp', Hp; by destruct r. }
  destruct Hph as [Hph|Hph]; rewrite Hph in *; by apply Hgen.
Qed.

(** Every state met during a turn is well formed and within the maxima. *)
Lemma rows_turn_wf st s0 ops :
  placing st → Forall (in_hand (length (cards st))) ops →
  let s := run ops (after (applyState st s0)) in
  rows_wf s ∧ currentCards s = cards st
  ∧ isInitial s = bool_decide (phase st = init_human).
Proof.
  intros Hph Hops.
  destruct (rows_applyState_placing st s0 Hph) as (_ & Hc & _ & Hi & Hwf & _).
  simpl. destruct (rows_run_vars ops (after (applyState st s0))) as (-> & _ & -> & _).
  split_and!; [|done|done].
  apply rows_run_wf; [done|]. by rewrite Hc.
Qed.

Lemma rows_turn_within_max st s0 ops :
  placing st →
  let s := run ops (after (applyState st s0)) in
  rows_within_max s ∧ currentServerBoard s = Some (player_board st).
Proof.
  intros Hph.
  destruct (rows_applyState_placing st s0 Hph) as (_ & _ & Hb & _ & _ & Hmax).
  simpl. destruct (rows_run_vars ops (after (applyState st s0))) as (_ & -> & _).
  split; [by apply rows_run_within_max|done].
Qed.

End rows.

(** ** Sample runs of the row script *)

Example rows_fresh_draw_turn :
  let s := after (Rows.applyState drawDeal rowsPageLoad) in
  Rows.hint s = "Place 2 more cards." ∧ Rows.confirmDisabled s = true
  ∧ Rows.status s = None ∧ Rows.boardDrop s = true.
Proof. vm_compute. done. Qed.

Example rows_one_card_placed :
  let s := Rows.run [Rows.Place 0 middle] (after (Rows.applyState drawDeal rowsPageLoad)) in
  Rows.hint s = "Place 1 more card." ∧ Rows.confirmDisabled s = true.
Proof. vm_compute. done. Qed.

Example rows_fresh_opening_turn :
  let s := after (Rows.applyState openingDeal rowsPageLoad) in
  Rows.hint s = "Place 5 more cards." ∧ Rows.confirmDisabled s = true
  ∧ Rows.status s = Some "You go first this game.".
Proof. vm_compute. done. Qed.

(** An index without a card is pushed before the rendering throws. *)
Example rows_foreign_index :
  let s := after (Rows.applyState openingDeal rowsPageLoad) in
  ∃ s', Rows.placeCardOnRow 7 front s = Throw typeError s'
        ∧ Rows.bp_front (Rows.boardPlacements s') = [7]
        ∧ Rows.hint s' = Rows.hint s.
Proof. vm_compute. by eexists. Qed.

(** Before the first server state the board is [null]. *)
Example rows_drop_before_first_state :
  Rows.placeCardOnRow 0 front rowsPageLoad = Throw typeError rowsPageLoad.
Proof. reflexivity. Qed.

(** * Properties of the button script *)

Section buttons.
Import Buttons.
Implicit Types (s : state) (idx k : nat) (r : Row).

Lemma buttons_updateConfirmButton_frame s :
  let s' := updateConfirmButton s in
  assignments s' = assignments s ∧ currentCards s' = currentCards s
  ∧ isInitialTurn s' = isInitialTurn s ∧ cardGroups s' = cardGroups s.
Proof.
  unfold updateConfirmButton. simpl. repeat case_match; simpl; done.
Qed.

(** A click always writes the mapping, also when the highlighting
    throws afterwards. *)
Lemma assignCard_assignments idx r s :
  assignments (after (assignCard idx r s)) = <[idx := r]> (assignments s).
Proof.
  unfold assignCard. case_bool_decide; simpl; [|done].
  match goal with |- context [updateConfirmButton ?x] =>
    by destruct (buttons_updateConfirmButton_frame x) as (-> & _) end.
Qed.

Lemma buttons_validateAssignments_spec s :
  (validateAssignments s).1 = true ↔
    length (currentCards s) ≤ size (assignments s)
    ∧ (if isInitialTurn s then countFor (assignments s) front ≤ 3
       else countFor (assignments s) discard = 1).
Proof.
  unfold validateAssignments.
  rewrite !tally_values, length_keys.
  destruct (isInitialTurn s); simpl;
    repeat case_bool_decide; simpl; split; try done; try lia;
    intros [? ?]; done || lia.
Qed.

Lemma buttons_isSubmittable_spec s :
  isSubmittable s = true ↔
    size (assignments s) = length (currentCards s)
    ∧ (if isInitialTurn s then countFor (assignments s) front ≤ 3
       else countFor (assignments s) discard = 1).
Proof.
  unfold isSubmittable, updateConfirmButton.
  rewrite !tally_values, length_keys.
  destruct (isInitialTurn s); simpl;
    repeat case_bool_decide; simpl; split; try done; try lia;
    intros [? ?]; done || lia.
Qed.

End buttons.

(** * The placement rules, claim by claim *)

Section frame.
Import Rows.

Lemma rowOf_ext (s s' : state) j :
  (∀ r, j ∈ onRow s' r ↔ j ∈ onRow s r) → rowOf s' j = rowOf s j.
Proof.
  intros Hiff. unfold rowOf.
  pose proof (Hiff front) as Hf. pose proof (Hiff middle) as Hm.
  pose proof (Hiff back) as Hb. unfold onRow in Hf, Hm, Hb. simpl in *.
  repeat case_bool_decide; tauto.
Qed.

Lemma onRow_place_other i j r r' (s : state) :
  i ≠ j → j ∈ onRow (after (placeCardOnRow i r s)) r' ↔ j ∈ onRow s r'.
Proof.
  intros Hij. unfold onRow. rewrite placeCardOnRow_placements.
  destruct (currentServerBoard s) as [b|]; [|done].
  destruct (bp_get (boardPlacements s) r) as [cur|] eqn:Hcur; [|done].
  case_bool_decide; [done|].
  rewrite bp_get_push, bp_get_remove.
  destruct (bp_get (boardPlacements s) r') as [l|]; case_decide; simpl;
    rewrite ?elem_of_app, ?list_elem_of_filter, ?list_elem_of_singleton;
    intuition congruence.
Qed.

Lemma onRow_return_other i j r' (s : state) :
  i ≠ j → j ∈ onRow (after (returnCardToHand i s)) r' ↔ j ∈ onRow s r'.
Proof.
  intros Hij. unfold onRow. rewrite returnCardToHand_placements, bp_get_remove.
  destruct (bp_get (boardPlacements s) r') as [l|]; simpl;
    rewrite ?list_elem_of_filter; intuition congruence.
Qed.

End frame.

(** C10. Every mutation is local to its card index: dropping card [i] on a
    zone or back on the pool ([moveCard]), clicking a row button of card
    [i] ([assignCard]), dropping card [i] on a board row
    ([placeCardOnRow]) or returning it to the hand ([returnCardToHand])
    leaves the entry of every other card [j], or its absence, as it was. *)
Theorem C10_mutation_is_local (i j : nat) :
  i ≠ j →
  (∀ s z, Zones.assignments (Zones.moveCard i z s) !! j = Zones.assignments s !! j)
  ∧ (∀ s r, Buttons.assignments (after (Buttons.assignCard i r s)) !! j
            = Buttons.assignments s !! j)
  ∧ (∀ s r, let s' := after (Rows.placeCardOnRow i r s) in
            Rows.rowOf s' j = Rows.rowOf s j
            ∧ ∀ r', j ∈ Rows.onRow s' r' ↔ j ∈ Rows.onRow s r')
  ∧ (∀ s, let s' := after (Rows.returnCardToHand i s) in
          Rows.rowOf s' j = Rows.rowOf s j
          ∧ ∀ r', j ∈ Rows.onRow s' r' ↔ j ∈ Rows.onRow s r').
Proof.
  intros Hij. split_and!.
  - intros s z. rewrite zones_moveCard_assignments.
    case_bool_decide; [|done]. destruct z.
    + by rewrite lookup_delete_ne.
    + by rewrite lookup_insert_ne.
  - intros s r. rewrite assignCard_assignments. by rewrite lookup_insert_ne.
  - intros s r. simpl. split.
    + apply rowOf_ext. intros r'. by apply onRow_place_other.
    + intros r'. by apply onRow_place_other.
  - intros s. simpl. split.
    + apply rowOf_ext. intros r'. by apply onRow_return_other.
    + intros r'. by apply onRow_return_other.
Qed.

Lemma C10_mutation_is_local_witness :
  0 ≠ 1
  ∧ Zones.assignments
      (Zones.moveCard 0 (Zones.zone front) (Zones.applyState openingDeal zonesPageLoad)) !! 1
    = Zones.assignments (Zones.applyState openingDeal zonesPageLoad) !! 1.
Proof.
  split; [discriminate|].
  apply (C10_mutation_is_local 0 1). discriminate.
Defined.

(** C1, as the code has it. Only the row script checks capacity when a card
    is assigned: when the cards the server committed to a board row plus
    the cards pending on it reach the row's maximum (3 for front, 5 for
    middle and back), [placeCardOnRow] leaves the placements as they are
    and sets the hint to the capitalised row name followed by
    " row is full.". The zone and button scripts have no such check:
    [moveCard] on a card of the hand and [assignCard] always write the
    mapping. *)
Theorem C1_full_row_rejects_drop (idx : nat) (r : Row) :
  (∀ s : Rows.state,
     r ≠ discard → is_Some (Rows.currentServerBoard s) →
     Rows.rowMax r ≤ Rows.committed s r + Rows.pending s r →
     ∃ s', Rows.placeCardOnRow idx r s = Normal s'
           ∧ Rows.boardPlacements s' = Rows.boardPlacements s
           ∧ Rows.hint s' = capitalize (rowString r) +:+ " row is full.")
  ∧ (∀ s : Zones.state,
       idx ∈ Zones.handCards s →
       Zones.assignments (Zones.moveCard idx (Zones.zone r) s)
       = <[idx := r]> (Zones.assignments s))
  ∧ (∀ s : Buttons.state,
       Buttons.assignments (after (Buttons.assignCard idx r s))
       = <[idx := r]> (Buttons.assignments s)).
Proof.
  split_and!.
  - intros s Hr [b Hb] Hfull.
    exists (Rows.setHint (capitalize (rowString r) +:+ " row is full.") s).
    split_and!; [|done|done].
    unfold Rows.placeCardOnRow, Rows.committed, Rows.pending, Rows.onRow in *.
    rewrite Hb in *.
    destruct (Rows.bp_get (Rows.boardPlacements s) r) as [cur|] eqn:Hcur;
      [|by destruct r].
    simpl in Hfull. by rewrite bool_decide_eq_true_2.
  - intros s Hin. rewrite zones_moveCard_assignments.
    by rewrite bool_decide_eq_true_2.
  - intros s. apply assignCard_assignments.
Qed.

(** The opening turn of the row script with cards 0, 1 and 2 on the front
    row: a fourth card dropped there is refused with "Front row is full.". *)
Lemma C1_full_row_rejects_drop_witness :
  let s := Rows.run [Rows.Place 0 front; Rows.Place 1 front; Rows.Place 2 front]
             (after (Rows.applyState openingDeal rowsPageLoad)) in
  ∃ s', Rows.placeCardOnRow 3 front s = Normal s'
        ∧ Rows.boardPlacements s' = Rows.boardPlacements s
        ∧ Rows.hint s' = "Front row is full.".
Proof.
  apply (C1_full_row_rejects_drop 3 front).
  - discriminate.
  - by eexists.
  - vm_compute. lia.
Defined.

(** C1 fails in the zone script: with cards 0, 1 and 2 in the front zone
    (its capacity of 3 reached), dropping card 3 there sets the mapping. *)
Lemma C1_zone_script_accepts_fourth_front_card :
  let s := Zones.run [Zones.Move 0 (Zones.zone front); Zones.Move 1 (Zones.zone front);
                      Zones.Move 2 (Zones.zone front)]
             (Zones.applyState openingDeal zonesPageLoad) in
  countFor (Zones.assignments s) front = 3
  ∧ Zones.assignments s !! 3 = None
  ∧ Zones.assignments (Zones.moveCard 3 (Zones.zone front) s) !! 3 = Some front
  ∧ Zones.assignments (Zones.moveCard 3 (Zones.zone front) s) ≠ Zones.assignments s.
Proof.
  vm_compute. split_and!; try reflexivity. discriminate.
Qed.

Section capacity.
Import Rows.

Lemma rowPlacements_no_discard (s : state) :
  filter (λ p, row p = discard) (rowPlacements s) = [].
Proof.
  unfold rowPlacements. rewrite !filter_app.
  assert (∀ (r : Row) (l : list nat), r ≠ discard →
    filter (λ p, row p = discard) ((λ idx, {| card_idx := idx; row := r |}) <$> l) = [])
    as Hnone.
  { intros r l Hr. induction l as [|x l IH]; [done|].
    rewrite fmap_cons, filter_cons. simpl. by rewrite decide_False. }
  by rewrite !Hnone.
Qed.

Lemma buildPlacements_discards (s : state) :
  length (filter (λ p, row p = discard) (buildPlacements s)) ≤ 1.
Proof.
  unfold buildPlacements.
  destruct (isInitial s); cbn [negb].
  { rewrite rowPlacements_no_discard. simpl. lia. }
  destruct (firstUnplaced s).
  - rewrite filter_app, rowPlacements_no_discard. simpl. lia.
  - rewrite rowPlacements_no_discard. simpl. lia.
Qed.

End capacity.

(** C2, as the code has it. In the row script, when the server board holds
    no more than a row's maximum of cards, then after any sequence of drops
    on rows and returns to the hand that starts from a fresh turn, the
    cards committed to the row plus the cards pending on it never exceed
    the maximum (front 3, middle 5, back 5), and the submission built from
    the state holds at most one discard. The zone and button scripts do not
    bound the number of cards per destination while cards are assigned. *)
Theorem C2_rows_stay_within_capacity
    (st : response) (s0 : Rows.state) (ops : list Rows.op) (r : Row) :
  placing st →
  length (board_row (player_board st) r) ≤ Rows.rowMax r →
  let s := Rows.run ops (after (Rows.applyState st s0)) in
  Rows.committed s r + Rows.pending s r ≤ Rows.rowMax r
  ∧ length (filter (λ p, row p = discard) (Rows.buildPlacements s)) ≤ 1.
Proof.
  intros Hph Hboard. cbv zeta.
  destruct (rows_turn_within_max st s0 ops Hph) as [Hmax Hb].
  split; [|apply buildPlacements_discards].
  destruct (Hmax r) as [Hzero|Hle]; [|done].
  rewrite Hzero. unfold Rows.committed. rewrite Hb. lia.
Qed.

Lemma C2_rows_stay_within_capacity_witness :
  let s := Rows.run [Rows.Place 0 front; Rows.Place 1 front; Rows.Place 2 front;
                     Rows.Place 3 front; Rows.Place 4 front]
             (after (Rows.applyState openingDeal rowsPageLoad)) in
  Rows.committed s front + Rows.pending s front ≤ Rows.rowMax front
  ∧ length (filter (λ p, row p = discard) (Rows.buildPlacements s)) ≤ 1.
Proof.
  apply (C2_rows_stay_within_capacity openingDeal rowsPageLoad _ front).
  - by left.
  - vm_compute. lia.
Defined.

(** C2 fails in the zone script: on an opening turn with an empty board,
    four cards dropped on the front zone leave four entries for front,
    above its capacity of 3. *)
Lemma C2_zone_script_overfills_front :
  let s := Zones.run [Zones.Move 0 (Zones.zone front); Zones.Move 1 (Zones.zone front);
                      Zones.Move 2 (Zones.zone front); Zones.Move 3 (Zones.zone front)]
             (Zones.applyState openingDeal zonesPageLoad) in
  countFor (Zones.assignments s) front = 4
  ∧ ¬ (countFor (Zones.assignments s) front
       + length (board_row (player_board openingDeal) front) ≤ 3).
Proof.
  vm_compute. split; [reflexivity|lia].
Qed.

Section moves.
Import Rows.

Lemma length_filter_ne (i : nat) (l : list nat) :
  NoDup l →
  length (filter (λ k, k ≠ i) l) + (if decide (i ∈ l) then 1 else 0) = length l.
Proof.
  induction 1 as [|x l Hx Hnd IH]; [done|].
  rewrite filter_cons. destruct (decide (x ≠ i)) as [Hne|Heq].
  - simpl. rewrite <-IH.
    destruct (decide (i ∈ x :: l)) as [Hin|Hnin], (decide (i ∈ l)) as [Hin'|Hnin'];
      try lia.
    + apply elem_of_cons in Hin as [->|?]; done.
    + exfalso. apply Hnin. by right.
  - apply dec_stable in Heq as ->.
    rewrite decide_True by left. simpl.
    rewrite <-IH. rewrite decide_False by done. lia.
Qed.

(** With no index on two rows, [rowOf] finds the one row an index is on. *)
Lemma rowOf_Some_iff (s : state) i r :
  NoDup (bp_all (boardPlacements s)) →
  rowOf s i = Some r ↔ i ∈ onRow s r.
Proof.
  unfold bp_all, rowOf, onRow.
  intros (_ & Hfm & (_ & Hmb & _)%NoDup_app)%NoDup_app.
  pose proof (Hfm i) as Hfm'. pose proof (Hmb i) as Hmb'.
  rewrite elem_of_app in Hfm'.
  destruct r; simpl; repeat case_bool_decide;
    rewrite ?elem_of_nil; split; try done; try tauto; intros; exfalso; tauto.
Qed.

Lemma rowOf_unique (s : state) i r :
  r ≠ discard → (∀ r', i ∈ onRow s r' ↔ r' = r) → rowOf s i = Some r.
Proof.
  intros Hr Hiff. unfold rowOf.
  pose proof (Hiff front) as Hf. pose proof (Hiff middle) as Hm.
  pose proof (Hiff back) as Hb. unfold onRow in Hf, Hm, Hb. simpl in *.
  destruct r; repeat case_bool_decide; try done;
    try (exfalso; intuition congruence).
Qed.

(** The rows after a drop that is accepted. *)
Lemma onRow_place_accepted (s : state) i r r' :
  r ≠ discard → is_Some (currentServerBoard s) →
  committed s r + pending s r < rowMax r →
  onRow (after (placeCardOnRow i r s)) r'
  = filter (λ k, k ≠ i) (onRow s r') ++ (if decide (r = r') then [i] else []).
Proof.
  intros Hr [b Hb] Hroom. unfold onRow, committed, pending, onRow in *.
  rewrite placeCardOnRow_placements. rewrite Hb in *.
  destruct (bp_get (boardPlacements s) r) as [cur|] eqn:Hcur; [|by destruct r].
  simpl in Hroom. rewrite bool_decide_eq_false_2 by lia.
  rewrite bp_get_push, bp_get_remove.
  destruct (decide (r = r')) as [<-|Hne].
  - by rewrite Hcur.
  - destruct (bp_get (boardPlacements s) r'); simpl; by rewrite ?app_nil_r.
Qed.

End moves.

(** C5. Starting from the empty ledger of a fresh turn, after any sequence
    of assignments and unassignments the keys of the ledger are indices of
    the hand and no index has two destinations; assigning an index again
    gives it the new destination only: the old destination's count loses
    the card and the new one's gains it. In the zone script [moveCard]
    itself refuses an index that is no card of the hand; in the row script
    the gestures carry indices of the hand and the drop is one that the
    capacity check accepts. *)
Theorem C5_one_destination_per_index (st : response) :
  placing st →
  (∀ (s0 : Zones.state) (ops : list Zones.op),
     let s := Zones.run ops (Zones.applyState st s0) in
     (∀ k, k ∈ keys (Zones.assignments s) → k < length (Zones.currentCards s))
     ∧ NoDup (keys (Zones.assignments s))
     ∧ ∀ i r, i < length (Zones.currentCards s) →
         let s' := Zones.moveCard i (Zones.zone r) s in
         Zones.assignments s' !! i = Some r
         ∧ ∀ r', countFor (Zones.assignments s') r'
                 + (if decide (Zones.assignments s !! i = Some r') then 1 else 0)
                 = (if decide (r = r') then 1 else 0) + countFor (Zones.assignments s) r')
  ∧ (∀ (s0 : Rows.state) (ops : list Rows.op),
     Forall (in_hand (length (cards st))) ops →
     let s := Rows.run ops (after (Rows.applyState st s0)) in
     (∀ k, k ∈ Rows.bp_all (Rows.boardPlacements s) → k < length (Rows.currentCards s))
     ∧ NoDup (Rows.bp_all (Rows.boardPlacements s))
     ∧ ∀ i r, r ≠ discard → Rows.committed s r + Rows.pending s r < Rows.rowMax r →
         let s' := after (Rows.placeCardOnRow i r s) in
         Rows.rowOf s' i = Some r
         ∧ (∀ r', i ∈ Rows.onRow s' r' ↔ r' = r)
         ∧ ∀ r', Rows.pending s' r'
                 + (if decide (Rows.rowOf s i = Some r') then 1 else 0)
                 = (if decide (r = r') then 1 else 0) + Rows.pending s r').
Proof.
  intros Hph. split.
  - intros s0 ops. cbv zeta.
    destruct (zones_turn_wf st s0 ops Hph) as ((Hcards & Hkeys & _) & _ & _).
    split_and!.
    + intros k Hk. by apply Hkeys, elem_of_keys.
    + apply NoDup_keys.
    + intros i r Hi. rewrite zones_moveCard_assignments.
      rewrite bool_decide_eq_true_2 by (rewrite Hcards, elem_of_seq; lia).
      split; [apply lookup_insert_eq|]. intros r'. apply countFor_insert.
  - intros s0 ops Hops. cbv zeta.
    destruct (rows_turn_wf st s0 ops Hph Hops) as ((Hnd & Hlt & Hb & _) & _ & _).
    split_and!; [done|done|].
    intros i r Hr Hroom.
    assert (∀ r', i ∈ Rows.onRow
        (after (Rows.placeCardOnRow i r (Rows.run ops (after (Rows.applyState st s0))))) r'
        ↔ r' = r) as Hiff.
    { intros r'. rewrite onRow_place_accepted by done.
      rewrite elem_of_app, list_elem_of_filter.
      case_decide; [rewrite list_elem_of_singleton|rewrite elem_of_nil];
        intuition congruence. }
    split_and!; [by apply rowOf_unique|done|].
    intros r'. unfold Rows.pending at 1.
    rewrite onRow_place_accepted by done. rewrite length_app.
    assert (NoDup (Rows.onRow (Rows.run ops (after (Rows.applyState st s0))) r')) as Hnd'.
    { unfold Rows.bp_all in Hnd.
      apply NoDup_app in Hnd as (Hf & _ & (Hm & _ & Hbk)%NoDup_app).
      destruct r'; try done. apply NoDup_nil_2. }
    pose proof (length_filter_ne i _ Hnd') as Hlen. unfold Rows.pending.
    destruct (decide (Rows.rowOf _ i = Some r')) as [Hrow|Hrow];
      rewrite rowOf_Some_iff in Hrow by done;
      [rewrite decide_True in Hlen by done|rewrite decide_False in Hlen by done];
      case_decide; simpl; lia.
Qed.

(** Card 0 is assigned to front and then to back, in both scripts. *)
Lemma C5_one_destination_per_index_witness :
  let zs := Zones.run [Zones.Move 0 (Zones.zone front); Zones.Move 0 (Zones.zone back)]
              (Zones.applyState openingDeal zonesPageLoad) in
  let rs := Rows.run [Rows.Place 0 front; Rows.Place 0 back]
              (after (Rows.applyState openingDeal rowsPageLoad)) in
  placing openingDeal
  ∧ Forall (in_hand (length (cards openingDeal))) [Rows.Place 0 front; Rows.Place 0 back]
  ∧ ((∀ k, k ∈ keys (Zones.assignments zs) → k < length (Zones.currentCards zs))
     ∧ NoDup (keys (Zones.assignments zs)))
  ∧ ((∀ k, k ∈ Rows.bp_all (Rows.boardPlacements rs) → k < length (Rows.currentCards rs))
     ∧ NoDup (Rows.bp_all (Rows.boardPlacements rs))).
Proof.
  assert (placing openingDeal) as Hph by (by left).
  assert (Forall (in_hand (length (cards openingDeal)))
            [Rows.Place 0 front; Rows.Place 0 back]) as Hops.
  { repeat constructor; simpl; lia. }
  destruct (C5_one_destination_per_index openingDeal Hph) as [HZ HR].
  split; [done|]. split; [done|]. split.
  - split; apply (HZ zonesPageLoad).
  - split; apply (HR rowsPageLoad _ Hops).
Defined.

Section complete.
Import Rows.

Lemma totalPlaced_length (s : state) :
  totalPlaced s = Z.of_nat (length (bp_all (boardPlacements s))).
Proof. unfold totalPlaced, bp_all. rewrite !length_app. lia. Qed.

Lemma elem_of_bp_all (s : state) k :
  k ∈ bp_all (boardPlacements s) ↔ ∃ r, k ∈ onRow s r.
Proof.
  unfold bp_all, onRow. rewrite !elem_of_app. split.
  - intros [?|[?|?]]; [by exists front|by exists middle|by exists back].
  - intros [[] Hr]; simpl in Hr; try tauto. by apply elem_of_nil in Hr.
Qed.

(** In a well-formed state all cards of the hand are placed exactly when
    the rows hold as many indices as the hand has cards. *)
Lemma rows_all_placed_iff (s : state) :
  rows_wf s →
  length (bp_all (boardPlacements s)) = length (currentCards s)
  ↔ ∀ i, i < length (currentCards s) → ∃ r, rowOf s i = Some r.
Proof.
  intros (Hnd & Hlt & _). split.
  - intros Hlen i Hi.
    assert (i ∈ bp_all (boardPlacements s)) as Hin.
    { rewrite (Permutation_seq _ (length (currentCards s))); [|done|done|lia].
      apply elem_of_seq. lia. }
    apply elem_of_bp_all in Hin as [r Hr]. exists r. by apply rowOf_Some_iff.
  - intros Hall. apply (anti_symm (≤)); [by apply length_le_bound|].
    transitivity (length (seq 0 (length (currentCards s)))); [by rewrite length_seq|].
    apply submseteq_length, NoDup_submseteq; [apply NoDup_seq|].
    intros i [_ Hi]%elem_of_seq. destruct (Hall i) as [r Hr]; [lia|].
    apply elem_of_bp_all. exists r. by apply rowOf_Some_iff.
Qed.

Lemma rowOf_board_row (s : state) i r :
  rowOf s i = Some r → r ∈ [front; middle; back].
Proof.
  unfold rowOf. repeat case_bool_decide; intros [= <-];
    rewrite !elem_of_cons; tauto.
Qed.

End complete.

(** C4. On the opening turn with a hand of five cards, the confirm button
    is enabled (and, in the zone script, [validateAssignments] passes)
    exactly when each of the five indices is mapped to front, middle or
    back and at most three of them to front. The states are those of a
    turn: in the zone script the drops land on the zones of the opening
    turn, in the row script the gestures carry indices of the hand. *)
Theorem C4_opening_submittable (st : response) :
  phase st = init_human → length (cards st) = 5 →
  (∀ (s0 : Zones.state) (ops : list Zones.op),
     Forall (Zones.zoneExists true) ops →
     let s := Zones.run ops (Zones.applyState st s0) in
     let complete :=
       (∀ i, i < 5 → ∃ r, Zones.assignments s !! i = Some r ∧ r ∈ [front; middle; back])
       ∧ countFor (Zones.assignments s) front ≤ 3 in
     (Zones.confirmDisabled s = false ↔ complete)
     ∧ (Zones.isSubmittable s = true ↔ complete)
     ∧ ((Zones.validateAssignments s).1 = true ↔ complete))
  ∧ (∀ (s0 : Rows.state) (ops : list Rows.op),
     Forall (in_hand 5) ops →
     let s := Rows.run ops (after (Rows.applyState st s0)) in
     let complete :=
       (∀ i, i < 5 → ∃ r, Rows.rowOf s i = Some r ∧ r ∈ [front; middle; back])
       ∧ Rows.pending s front ≤ 3 in
     (Rows.confirmDisabled s = false ↔ complete)
     ∧ (Rows.isSubmittable s = true ↔ complete)).
Proof.
  intros Hph Hfive.
  assert (placing st) as Hpl by (by left). split.
  - intros s0 ops Hops. cbv zeta.
    destruct (zones_turn_wf st s0 ops Hpl) as ((Hcards & Hkeys & Hbtn) & Hc & Hi).
    rewrite Hph, bool_decide_eq_true_2 in Hi by done.
    rewrite Hc, Hfive in Hkeys.
    assert (zones_no_discard (Zones.run ops (Zones.applyState st s0))) as Hnd.
    { apply zones_run_no_discard; [|done].
      destruct (zones_applyState_placing st s0 Hpl) as (Ha & _).
      intros k. by rewrite Ha, lookup_empty. }
    set (s := Zones.run ops (Zones.applyState st s0)) in *.
    assert (Zones.isSubmittable s = true ↔
      (∀ i, i < 5 → ∃ r, Zones.assignments s !! i = Some r ∧ r ∈ [front; middle; back])
      ∧ countFor (Zones.assignments s) front ≤ 3) as Hiff.
    { rewrite zones_isSubmittable_spec, Hi, Hc, Hfive. split.
      - intros [Hsize Hfront]. split; [|done]. intros i Hlt.
        destruct (full_of_size _ 5 Hkeys ltac:(lia) i Hlt) as [r Hr].
        exists r. split; [done|]. specialize (Hnd i).
        destruct r; rewrite ?elem_of_cons; tauto.
      - intros [Hall Hfront]. split; [|done].
        apply size_of_full; [done|]. intros k Hk.
        destruct (Hall k Hk) as (r & Hr & _). by exists r. }
    split_and!.
    + rewrite Hbtn, negb_false_iff. apply Hiff.
    + apply Hiff.
    + rewrite zones_validateAssignments_spec, <-Hiff, zones_isSubmittable_spec.
      rewrite Hc, Hfive. pose proof (size_le_bound _ 5 Hkeys). intuition lia.
  - intros s0 ops Hops. cbv zeta. rewrite <-Hfive in Hops.
    destruct (rows_turn_wf st s0 ops Hpl Hops) as (Hwf & Hc & Hi).
    destruct (rows_turn_within_max st s0 ops Hpl) as [Hmax _].
    rewrite Hph, bool_decide_eq_true_2 in Hi by done.
    set (s := Rows.run ops (after (Rows.applyState st s0))) in *.
    assert (Rows.isSubmittable s = true ↔
      (∀ i, i < 5 → ∃ r, Rows.rowOf s i = Some r ∧ r ∈ [front; middle; back])
      ∧ Rows.pending s front ≤ 3) as Hiff.
    { rewrite rows_isSubmittable_spec, totalPlaced_length.
      unfold Rows.required. rewrite Hi.
      pose proof (rows_all_placed_iff s Hwf) as Hall. rewrite Hc, Hfive in *.
      destruct Hwf as (_ & _ & _ & Ha & _). split.
      - intros [_ Hlen]. split.
        + intros i Hlt. destruct (proj1 Hall ltac:(lia) i Hlt) as [r Hr].
          exists r. split; [done|]. by eapply rowOf_board_row.
        + destruct (Hmax front) as [Hz|Hle]; [lia|].
          unfold Rows.rowMax in Hle. rewrite decide_True in Hle by done. lia.
      - intros [Hrows _]. split; [done|].
        rewrite (proj2 Hall); [done|].
        intros i Hlt. destruct (Hrows i Hlt) as (r & Hr & _). by exists r. }
    split; [|done].
    destruct Hwf as (_ & _ & _ & _ & Hbtn). rewrite Hbtn, negb_false_iff. apply Hiff.
Qed.

(** The mapping 0, 1, 2 to front, 3 to middle, 4 to back enables the
    confirm button in both scripts. *)
Lemma C4_opening_submittable_witness :
  let zops := [Zones.Move 0 (Zones.zone front); Zones.Move 1 (Zones.zone front);
               Zones.Move 2 (Zones.zone front); Zones.Move 3 (Zones.zone middle);
               Zones.Move 4 (Zones.zone back)] in
  let rops := [Rows.Place 0 front; Rows.Place 1 front; Rows.Place 2 front;
               Rows.Place 3 middle; Rows.Place 4 back] in
  let zs := Zones.run zops (Zones.applyState openingDeal zonesPageLoad) in
  let rs := Rows.run rops (after (Rows.applyState openingDeal rowsPageLoad)) in
  (phase openingDeal = init_human ∧ length (cards openingDeal) = 5
   ∧ Forall (Zones.zoneExists true) zops ∧ Forall (in_hand 5) rops)
  ∧ ((∀ i, i < 5 → ∃ r, Zones.assignments zs !! i = Some r ∧ r ∈ [front; middle; back])
     ∧ countFor (Zones.assignments zs) front ≤ 3)
  ∧ ((∀ i, i < 5 → ∃ r, Rows.rowOf rs i = Some r ∧ r ∈ [front; middle; back])
     ∧ Rows.pending rs front ≤ 3).
Proof.
  intros zops rops zs rs.
  assert (Forall (Zones.zoneExists true) zops) as Hz.
  { repeat constructor. }
  assert (Forall (in_hand 5) rops) as Hr.
  { repeat constructor; simpl; lia. }
  destruct (C4_opening_submittable openingDeal eq_refl eq_refl) as [HZ HR].
  split; [done|]. split.
  - apply (HZ zonesPageLoad zops Hz). reflexivity.
  - apply (HR rowsPageLoad rops Hr). reflexivity.
Defined.

Section auto_discard.
Import Rows.

Lemma filter_none (P : nat → Prop) `{!∀ k, Decision (P k)} (l : list nat) :
  (∀ k, k ∈ l → ¬ P k) → filter P l = [].
Proof.
  induction l as [|x l IH]; intros HP; [done|].
  rewrite filter_cons, decide_False by (apply HP; left).
  apply IH. intros k Hk. apply HP. by right.
Qed.

Lemma filter_only (P : nat → Prop) `{!∀ k, Decision (P k)} (i : nat) (l : list nat) :
  NoDup l → (∀ k, k ∈ l → P k ↔ k = i) → i ∈ l → filter P l = [i].
Proof.
  induction 1 as [|x l Hx Hnd IH]; intros HP Hin; [by apply elem_of_nil in Hin|].
  rewrite filter_cons.
  assert (∀ k, k ∈ l → P k ↔ k = i) as HP' by (intros k Hk; apply HP; by right).
  destruct (decide (x = i)) as [->|Hne].
  - rewrite decide_True by (apply HP; [left|done]). f_equal.
    apply filter_none. intros k Hk HPk.
    apply HP' in HPk as ->; done.
  - rewrite decide_False by (rewrite HP; [done|left]).
    apply IH; [done|]. by apply elem_of_cons in Hin as [->|?].
Qed.

(** The hand index that is on no row, when there is exactly one. *)
Lemma firstUnplaced_only (s : state) i :
  (∀ j, j ∈ bp_all (boardPlacements s) ↔ j < length (currentCards s) ∧ j ≠ i) →
  i < length (currentCards s) →
  firstUnplaced s = Some i.
Proof.
  intros Hplaced Hi. unfold firstUnplaced, getAllPlacedIndices.
  rewrite (filter_only _ i); [done|apply NoDup_seq| |apply elem_of_seq; lia].
  intros k [_ Hk]%elem_of_seq. rewrite elem_of_list_to_set, Hplaced.
  destruct (decide (k = i)); intuition lia.
Qed.

Lemma length_all_but_one (l : list nat) n i :
  NoDup l → (∀ j, j ∈ l ↔ j < n ∧ j ≠ i) → i < n → length l + 1 = n.
Proof.
  intros Hnd Hl Hi.
  assert (l ≡ₚ filter (λ k, k ≠ i) (seq 0 n)) as ->.
  { apply NoDup_Permutation; [done|apply NoDup_filter, NoDup_seq|].
    intros k. rewrite Hl, list_elem_of_filter, elem_of_seq. intuition lia. }
  pose proof (length_filter_ne i (seq 0 n) (NoDup_seq 0 n)) as Hlen.
  rewrite decide_True in Hlen by (apply elem_of_seq; lia).
  by rewrite length_seq in Hlen.
Qed.

End auto_discard.

(** C3, as the code has it. The row script discards automatically: on a
    draw turn, a state in which exactly one hand index is on no row and all
    the others are each on one row enables the confirm button, and the
    submission lists the row placements followed by the unplaced index as
    its discard. The zone script, which offers a discard zone, does not
    accept such a state: while fewer indices are assigned than the hand has
    cards the button stays disabled and [validateAssignments] fails with
    "Place all cards before confirming.". *)
Theorem C3_last_card_is_discarded :
  (∀ (s : Rows.state) (i : nat),
     Rows.isInitial s = false → Rows.isActionMode s = true →
     NoDup (Rows.bp_all (Rows.boardPlacements s)) →
     (∀ j, j ∈ Rows.bp_all (Rows.boardPlacements s)
           ↔ j < length (Rows.currentCards s) ∧ j ≠ i) →
     i < length (Rows.currentCards s) →
     Rows.isSubmittable s = true
     ∧ Rows.buildPlacements s
       = Rows.rowPlacements s ++ [{| card_idx := i; row := discard |}])
  ∧ (∀ s : Zones.state,
       size (Zones.assignments s) < length (Zones.currentCards s) →
       Zones.isSubmittable s = false
       ∧ Zones.validateAssignments s
         = (false, Zones.setHint "Place all cards before confirming." s)).
Proof.
  split.
  - intros s i Hdraw Hmode Hnd Hplaced Hi. split.
    + apply rows_isSubmittable_spec. split; [done|].
      rewrite totalPlaced_length. unfold Rows.required. rewrite Hdraw.
      pose proof (length_all_but_one _ _ i Hnd Hplaced Hi). lia.
    + unfold Rows.buildPlacements. rewrite Hdraw. cbn [negb].
      by rewrite (firstUnplaced_only s i).
  - intros s Hsize. split.
    + apply not_true_is_false. rewrite zones_isSubmittable_spec. lia.
    + unfold Zones.validateAssignments.
      by rewrite length_keys, bool_decide_eq_true_2.
Qed.

(** Draw turn, hand of three: card 0 on middle, card 1 on back, card 2 left
    in the hand. *)
Lemma C3_last_card_is_discarded_witness :
  let s := Rows.run [Rows.Place 0 middle; Rows.Place 1 back]
             (after (Rows.applyState drawDeal rowsPageLoad)) in
  Rows.isSubmittable s = true
  ∧ Rows.buildPlacements s
    = [ {| card_idx := 0; row := middle |}; {| card_idx := 1; row := back |};
        {| card_idx := 2; row := discard |} ].
Proof.
  intros s.
  change (Rows.isSubmittable s = true
          ∧ Rows.buildPlacements s
            = Rows.rowPlacements s ++ [{| card_idx := 2; row := discard |}]).
  apply (proj1 C3_last_card_is_discarded s 2).
  - reflexivity.
  - reflexivity.
  - apply NoDup_cons. split; [|apply NoDup_singleton].
    intros ?%list_elem_of_singleton. discriminate.
  - intros j. change (j ∈ [0; 1] ↔ j < 3 ∧ j ≠ 2).
    rewrite !elem_of_cons, elem_of_nil. lia.
  - simpl. lia.
Defined.

(** C3 fails in the zone script: on a draw turn with card 0 on middle,
    card 1 on back and card 2 still in the pool, the confirm button is
    disabled, validation fails and [submitPlay] sends nothing. *)
Lemma C3_zone_script_requires_explicit_discard :
  let s := Zones.run [Zones.Move 0 (Zones.zone middle); Zones.Move 1 (Zones.zone back)]
             (Zones.applyState drawDeal zonesPageLoad) in
  Zones.assignments s !! 2 = None
  ∧ Zones.confirmDisabled s = true
  ∧ Zones.isSubmittable s = false
  ∧ (Zones.validateAssignments s).1 = false
  ∧ ∀ net, Zones.submitPlay net s = Zones.setHint "Place all cards before confirming." s.
Proof.
  vm_compute. split_and!; reflexivity.
Qed.

(** C6. In the zone and button scripts a draw-turn ledger passes
    [validateAssignments], and enables the confirm button, only when
    exactly one entry maps to discard. The full assignment of card 0 to
    discard, card 1 to front and card 2 to back passes, and the submission
    built from it is those three pairs. *)
Theorem C6_draw_needs_one_discard :
  (∀ s : Zones.state,
     Zones.isInitial s = false →
     (Zones.validateAssignments s).1 = true ∨ Zones.isSubmittable s = true →
     countFor (Zones.assignments s) discard = 1)
  ∧ (∀ s : Buttons.state,
       Buttons.isInitialTurn s = false →
       (Buttons.validateAssignments s).1 = true ∨ Buttons.isSubmittable s = true →
       countFor (Buttons.assignments s) discard = 1)
  ∧ (∀ s0 : Zones.state,
       let s := Zones.run [Zones.Move 0 (Zones.zone discard); Zones.Move 1 (Zones.zone front);
                           Zones.Move 2 (Zones.zone back)]
                  (Zones.applyState drawDeal s0) in
       (Zones.validateAssignments s).1 = true
       ∧ Zones.confirmDisabled s = false
       ∧ Zones.buildPlacements s
         = [ {| card_idx := 0; row := discard |}; {| card_idx := 1; row := front |};
             {| card_idx := 2; row := back |} ])
  ∧ (∀ s0 : Buttons.state,
       let s := Buttons.run [Buttons.Assign 0 discard; Buttons.Assign 1 front;
                             Buttons.Assign 2 back]
                  (Buttons.applyState drawDeal s0) in
       (Buttons.validateAssignments s).1 = true
       ∧ Buttons.confirmDisabled s = false
       ∧ Buttons.buildPlacements s
         = [ {| card_idx := 0; row := discard |}; {| card_idx := 1; row := front |};
             {| card_idx := 2; row := back |} ]).
Proof.
  split_and!.
  - intros s Hdraw [Hok|Hok].
    + apply zones_validateAssignments_spec in Hok as [_ Hone]. by rewrite Hdraw in Hone.
    + apply zones_isSubmittable_spec in Hok as [_ Hone]. by rewrite Hdraw in Hone.
  - intros s Hdraw [Hok|Hok].
    + apply buttons_validateAssignments_spec in Hok as [_ Hone]. by rewrite Hdraw in Hone.
    + apply buttons_isSubmittable_spec in Hok as [_ Hone]. by rewrite Hdraw in Hone.
  - intros s0. vm_compute. done.
  - intros s0. vm_compute. done.
Qed.

Lemma C6_draw_needs_one_discard_witness :
  let s := Zones.run [Zones.Move 0 (Zones.zone discard); Zones.Move 1 (Zones.zone front);
                      Zones.Move 2 (Zones.zone back)]
             (Zones.applyState drawDeal zonesPageLoad) in
  countFor (Zones.assignments s) discard = 1.
Proof.
  apply (proj1 C6_draw_needs_one_discard).
  - reflexivity.
  - left. reflexivity.
Defined.

(** C7. When the server answers a play with an object whose [error] is a
    non-empty message, [submitPlay] shows "Error: " followed by the
    message in the status bar, enables the confirm button again (and, in
    the row script, the action mode and the row drop targets), and leaves
    the hand and the pending placements as they were before the attempt. *)
Theorem C7_rejected_play_keeps_placements
    (net : request → fetch_result) (st : response) (msg : string) :
  error st = Some msg → msg ≠ "" →
  (∀ s : Zones.state,
     (Zones.validateAssignments s).1 = true →
     net {| req_game_id := Zones.gameId s; req_placements := Zones.buildPlacements s |}
     = Json st →
     let s' := Zones.submitPlay net s in
     Zones.assignments s' = Zones.assignments s
     ∧ Zones.currentCards s' = Zones.currentCards s
     ∧ Zones.handCards s' = Zones.handCards s
     ∧ Zones.confirmDisabled s' = false
     ∧ Zones.status s' = Some ("Error: " +:+ msg))
  ∧ (∀ s : Rows.state,
     net {| req_game_id := Rows.gameId s; req_placements := Rows.buildPlacements s |}
     = Json st →
     let s' := Rows.submitPlay net s in
     Rows.boardPlacements s' = Rows.boardPlacements s
     ∧ Rows.currentCards s' = Rows.currentCards s
     ∧ Rows.currentServerBoard s' = Rows.currentServerBoard s
     ∧ Rows.confirmDisabled s' = false
     ∧ Rows.isActionMode s' = true
     ∧ Rows.boardDrop s' = true
     ∧ Rows.status s' = Some ("Error: " +:+ msg)).
Proof.
  intros Herr Hmsg.
  assert (truthy (error st) = true) as Htruthy.
  { rewrite Herr. simpl. by apply bool_decide_eq_true_2. }
  split.
  - intros s Hok Hnet. cbv zeta. unfold Zones.submitPlay.
    destruct (zones_validateAssignments_frame s) as (Ha & Hc & Hi & Hh & Hs & Hg & Hb).
    destruct (Zones.validateAssignments s) as [ok s1] eqn:Hval.
    simpl in *. subst ok. simpl.
    assert (Zones.buildPlacements s1 = Zones.buildPlacements s) as ->.
    { unfold Zones.buildPlacements. by rewrite Ha. }
    rewrite Hg, Hnet, Htruthy, Herr. simpl.
    rewrite Ha, Hc, Hh. split_and!; try done.
  - intros s Hnet. cbv zeta. unfold Rows.submitPlay.
    rewrite Hnet, Htruthy, Herr. simpl.
    split_and!; try done.
Qed.

(** A valid draw-turn assignment is sent and refused by the server. *)
Lemma C7_rejected_play_keeps_placements_witness :
  let net := λ _ : request, Json (rejection "Invalid placement") in
  let s := Zones.run [Zones.Move 0 (Zones.zone discard); Zones.Move 1 (Zones.zone front);
                      Zones.Move 2 (Zones.zone back)]
             (Zones.applyState drawDeal zonesPageLoad) in
  let s' := Zones.submitPlay net s in
  Zones.assignments s' = Zones.assignments s
  ∧ Zones.currentCards s' = Zones.currentCards s
  ∧ Zones.handCards s' = Zones.handCards s
  ∧ Zones.confirmDisabled s' = false
  ∧ Zones.status s' = Some "Error: Invalid placement".
Proof.
  intros net s.
  apply (proj1 (C7_rejected_play_keeps_placements net (rejection "Invalid placement")
                  "Invalid placement" eq_refl ltac:(discriminate))).
  - reflexivity.
  - reflexivity.
Defined.

Section hints.
Import Rows.

Lemma placeMore_not_empty k : placeMore k ≠ "".
Proof. unfold placeMore. simpl. discriminate. Qed.

Lemma placeMore_not_notice k :
  placeMore k ≠ "The last card will be automatically discarded.".
Proof. unfold placeMore. simpl. discriminate. Qed.

(** The hint [updateConfirmButton] leaves during an open turn. *)
Lemma rows_hint_updateConfirmButton (s : state) :
  isActionMode s = true →
  hint (updateConfirmButton s) =
    let unplaced := (Z.of_nat (length (currentCards s)) - totalPlaced s)%Z in
    if isInitial s then
      if bool_decide (0 < unplaced)%Z then placeMore unplaced else ""
    else if bool_decide (1 < unplaced)%Z then placeMore (required s - totalPlaced s)
    else if bool_decide (unplaced = 1)%Z
         then "The last card will be automatically discarded."
    else "".
Proof.
  intros Ha. unfold updateConfirmButton. rewrite Ha. simpl.
  destruct (isInitial s); simpl; repeat case_bool_decide; done.
Qed.

End hints.

(** C8, as the code has it. Right after the confirm button is refreshed:
    in the row script on an opening turn the hint is empty exactly when
    the button is enabled; on a draw turn of the row script the button is
    enabled exactly when the hint is the notice "The last card will be
    automatically discarded."; in the zone and button scripts an enabled
    button comes with an empty hint. *)
Theorem C8_hint_after_refresh :
  (∀ (st : response) (s0 : Rows.state) (ops : list Rows.op),
     phase st = init_human → Forall (in_hand (length (cards st))) ops →
     let s := Rows.run ops (after (Rows.applyState st s0)) in
     Rows.hint (Rows.updateConfirmButton s) = "" ↔ Rows.isSubmittable s = true)
  ∧ (∀ s : Rows.state,
       Rows.isActionMode s = true → Rows.isInitial s = false →
       Rows.isSubmittable s = true
       ↔ Rows.hint (Rows.updateConfirmButton s)
         = "The last card will be automatically discarded.")
  ∧ (∀ s : Zones.state,
       Zones.isSubmittable s = true → Zones.hint (Zones.updateConfirmButton s) = "")
  ∧ (∀ s : Buttons.state,
       Buttons.isSubmittable s = true →
       Buttons.hint (Buttons.updateConfirmButton s) = "").
Proof.
  split_and!.
  - intros st s0 ops Hph Hops. cbv zeta.
    destruct (rows_turn_wf st s0 ops (or_introl Hph) Hops) as (Hwf & Hc & Hi).
    rewrite Hph, bool_decide_eq_true_2 in Hi by done.
    pose proof Hwf as (Hnd & Hlt & _ & Ha & _).
    pose proof (length_le_bound _ _ Hnd Hlt) as Hle.
    rewrite rows_hint_updateConfirmButton, rows_isSubmittable_spec by done.
    unfold Rows.required. rewrite Hi, totalPlaced_length. cbv zeta.
    case_bool_decide as Hun.
    + split; [by intros ?%placeMore_not_empty|]. intros [_ ?]. lia.
    + split; [|done]. intros _. split; [done|lia].
  - intros s Ha Hdraw.
    rewrite rows_hint_updateConfirmButton, rows_isSubmittable_spec by done.
    unfold Rows.required. rewrite Hdraw. cbv zeta.
    repeat case_bool_decide.
    + split; [intros [_ ?]; lia|by intros ?%placeMore_not_notice].
    + split; [done|]. intros _. split; [done|lia].
    + split; [intros [_ ?]; lia|discriminate].
  - intros s Hs. unfold Zones.isSubmittable, Zones.updateConfirmButton in *.
    repeat (case_match; simpl in *; try done).
  - intros s Hs. unfold Buttons.isSubmittable, Buttons.updateConfirmButton in *.
    repeat (case_match; simpl in *; try done).
Qed.

(** An opening turn of the row script with all five cards placed. *)
Lemma C8_hint_after_refresh_witness :
  let ops := [Rows.Place 0 front; Rows.Place 1 front; Rows.Place 2 front;
              Rows.Place 3 middle; Rows.Place 4 back] in
  let s := Rows.run ops (after (Rows.applyState openingDeal rowsPageLoad)) in
  (phase openingDeal = init_human ∧ Forall (in_hand (length (cards openingDeal))) ops)
  ∧ Rows.isSubmittable s = true.
Proof.
  intros ops s.
  assert (Forall (in_hand (length (cards openingDeal))) ops) as Hops.
  { repeat constructor; simpl; lia. }
  split; [done|].
  apply (proj1 C8_hint_after_refresh openingDeal rowsPageLoad ops eq_refl Hops).
  reflexivity.
Defined.

(** C8 fails in both directions. Row script, draw turn, card 0 on middle
    and card 1 on back: the button is enabled while the hint reads "The
    last card will be automatically discarded.". Zone script, draw turn,
    after a complete assignment card 0 goes back to the pool: the hint is
    still empty while the button is disabled. *)
Lemma C8_hint_and_button_disagree :
  (let s := Rows.run [Rows.Place 0 middle; Rows.Place 1 back]
              (after (Rows.applyState drawDeal rowsPageLoad)) in
   Rows.confirmDisabled s = false ∧ Rows.isSubmittable s = true
   ∧ Rows.hint s = "The last card will be automatically discarded."
   ∧ ¬ (Rows.hint s = "" ↔ Rows.isSubmittable s = true))
  ∧ (let s := Zones.run [Zones.Move 0 (Zones.zone discard); Zones.Move 1 (Zones.zone front);
                         Zones.Move 2 (Zones.zone back); Zones.Move 0 Zones.pool]
                (Zones.applyState drawDeal zonesPageLoad) in
     Zones.confirmDisabled s = true ∧ Zones.isSubmittable s = false
     ∧ Zones.hint s = ""
     ∧ ¬ (Zones.hint s = "" ↔ Zones.isSubmittable s = true)).
Proof.
  split; vm_compute; split_and!; try reflexivity.
  - intros [_ Hsub]. by specialize (Hsub eq_refl).
  - intros [Hhint _]. by specialize (Hhint eq_refl).
Qed.

Section coverage.

Lemma zones_placement_indices (s : Zones.state) :
  card_idx <$> Zones.buildPlacements s = keys (Zones.assignments s).
Proof.
  unfold Zones.buildPlacements, keys. by rewrite <-list_fmap_compose.
Qed.

Lemma rows_placement_indices (s : Rows.state) :
  card_idx <$> Rows.rowPlacements s = Rows.bp_all (Rows.boardPlacements s).
Proof.
  unfold Rows.rowPlacements, Rows.bp_all.
  rewrite !fmap_app, <-!list_fmap_compose.
  by rewrite !(list_fmap_ext _ id _ (λ _ _ _, eq_refl)), !list_fmap_id.
Qed.

(** While fewer indices are placed than the hand has cards, the loop of
    the automatic discard finds a hand index that is on no row. *)
Lemma firstUnplaced_Some (s : Rows.state) :
  NoDup (Rows.bp_all (Rows.boardPlacements s)) →
  length (Rows.bp_all (Rows.boardPlacements s)) < length (Rows.currentCards s) →
  ∃ i, Rows.firstUnplaced s = Some i
       ∧ i < length (Rows.currentCards s)
       ∧ i ∉ Rows.bp_all (Rows.boardPlacements s).
Proof.
  intros Hnd Hlen. unfold Rows.firstUnplaced, Rows.getAllPlacedIndices.
  destruct (head _) as [i|] eqn:Hhead.
  - exists i. split; [done|].
    apply head_Some_elem_of, list_elem_of_filter in Hhead as [Hi Hseq].
    rewrite elem_of_list_to_set in Hi. apply elem_of_seq in Hseq.
    split; [lia|done].
  - exfalso. apply head_None in Hhead.
    assert (length (seq 0 (length (Rows.currentCards s)))
            ≤ length (Rows.bp_all (Rows.boardPlacements s))) as Hle.
    { apply submseteq_length, NoDup_submseteq; [apply NoDup_seq|].
      intros k Hk. destruct (decide (k ∈ Rows.bp_all (Rows.boardPlacements s)));
        [done|].
      exfalso. eapply (filter_nil_not_elem_of _ _ k Hhead); [|done].
      by rewrite elem_of_list_to_set. }
    rewrite length_seq in Hle. lia.
Qed.

End coverage.

(** C9. Whenever a submission is built from a state that may be
    submitted (in the zone script [validateAssignments] passes, in the row
    script the confirm button is enabled), its placements name every index
    of the hand exactly once, on opening and on draw turns; on a draw turn
    of the row script the index that is left is among them as the
    discard. *)
Theorem C9_submission_covers_hand (st : response) :
  placing st →
  (∀ (s0 : Zones.state) (ops : list Zones.op),
     let s := Zones.run ops (Zones.applyState st s0) in
     (Zones.validateAssignments s).1 = true →
     card_idx <$> Zones.buildPlacements s ≡ₚ seq 0 (length (Zones.currentCards s)))
  ∧ (∀ (s0 : Rows.state) (ops : list Rows.op),
     Forall (in_hand (length (cards st))) ops →
     let s := Rows.run ops (after (Rows.applyState st s0)) in
     Rows.confirmDisabled s = false →
     card_idx <$> Rows.buildPlacements s ≡ₚ seq 0 (length (Rows.currentCards s))).
Proof.
  intros Hph. split.
  - intros s0 ops. cbv zeta. intros Hok.
    destruct (zones_turn_wf st s0 ops Hph) as ((_ & Hkeys & _) & _ & _).
    apply zones_validateAssignments_spec in Hok as [Hsize _].
    rewrite zones_placement_indices. apply Permutation_seq.
    + apply NoDup_keys.
    + intros k Hk. by apply Hkeys, elem_of_keys.
    + by rewrite length_keys.
  - intros s0 ops Hops. cbv zeta. intros Hbtn.
    destruct (rows_turn_wf st s0 ops Hph Hops) as (Hwf & _ & _).
    pose proof Hwf as (Hnd & Hlt & _ & _ & Hbtn').
    rewrite Hbtn' in Hbtn. apply negb_false_iff in Hbtn.
    apply rows_isSubmittable_spec in Hbtn as [_ Htotal].
    rewrite totalPlaced_length in Htotal.
    unfold Rows.required in Htotal. unfold Rows.buildPlacements.
    destruct (Rows.isInitial _); cbn [negb].
    + rewrite rows_placement_indices. apply Permutation_seq; [done|done|lia].
    + destruct (firstUnplaced_Some _ Hnd ltac:(lia)) as (i & -> & Hi & Hnin).
      rewrite fmap_app, rows_placement_indices. simpl.
      apply Permutation_seq.
      * apply NoDup_app. split_and!; [done| |apply NoDup_singleton].
        intros k Hk ->%list_elem_of_singleton. done.
      * intros k [Hk| ->%list_elem_of_singleton]%elem_of_app; [by apply Hlt|done].
      * rewrite length_app. simpl. lia.
Qed.

(** A draw turn in both scripts: the zone script with an explicit discard,
    the row script with the last card left in the hand. *)
Lemma C9_submission_covers_hand_witness :
  let zs := Zones.run [Zones.Move 0 (Zones.zone discard); Zones.Move 1 (Zones.zone front);
                       Zones.Move 2 (Zones.zone back)]
              (Zones.applyState drawDeal zonesPageLoad) in
  let rops := [Rows.Place 1 middle; Rows.Place 2 back] in
  let rs := Rows.run rops (after (Rows.applyState drawDeal rowsPageLoad)) in
  (placing drawDeal ∧ Forall (in_hand (length (cards drawDeal))) rops)
  ∧ card_idx <$> Zones.buildPlacements zs ≡ₚ [0; 1; 2]
  ∧ card_idx <$> Rows.buildPlacements rs ≡ₚ [0; 1; 2].
Proof.
  intros zs rops rs.
  assert (placing drawDeal) as Hph by (by right).
  assert (Forall (in_hand (length (cards drawDeal))) rops) as Hops.
  { repeat constructor; simpl; lia. }
  destruct (C9_submission_covers_hand drawDeal Hph) as [HZ HR].
  split; [done|]. split.
  - apply (HZ zonesPageLoad). reflexivity.
  - apply (HR rowsPageLoad rops Hops). reflexivity.
Defined.

(** * Further properties of the scripts *)

Section buttons_turn.
Import Buttons.
Implicit Types (s : state) (idx k : nat) (r : Row).

Lemma buttons_isSubmittable_ext s s' :
  assignments s = assignments s' → currentCards s = currentCards s' →
  isInitialTurn s = isInitialTurn s' → isSubmittable s = isSubmittable s'.
Proof.
  intros Ha Hc Hi. unfold isSubmittable, updateConfirmButton.
  rewrite Ha, Hc, Hi. repeat (case_match; simpl; try done).
Qed.

Lemma buttons_isSubmittable_updateConfirmButton s :
  confirmDisabled (updateConfirmButton s) = negb (isSubmittable (updateConfirmButton s)).
Proof.
  unfold isSubmittable, updateConfirmButton. simpl.
  repeat (case_match; simpl; try done).
Qed.

Lemma buttons_assignCard_vars idx r s :
  let s' := after (assignCard idx r s) in
  currentCards s' = currentCards s ∧ isInitialTurn s' = isInitialTurn s
  ∧ cardGroups s' = cardGroups s.
Proof.
  unfold assignCard. case_bool_decide; simpl; [|done].
  match goal with |- context [updateConfirmButton ?x] =>
    by destruct (buttons_updateConfirmButton_frame x) as (_ & -> & -> & ->) end.
Qed.

Lemma buttons_assignCard_wf idx r s :
  buttons_wf s → idx < length (currentCards s) → buttons_wf (after (assignCard idx r s)).
Proof.
  intros (Hgroups & Hkeys & Hbtn) Hidx.
  destruct (buttons_assignCard_vars idx r s) as (Hc & Hi & Hg).
  split_and!.
  - by rewrite Hg, Hc.
  - intros k. rewrite Hc, assignCard_assignments.
    destruct (decide (idx = k)) as [->|]; [done|].
    rewrite lookup_insert_ne by done. apply Hkeys.
  - unfold assignCard.
    rewrite bool_decide_eq_true_2 by (rewrite Hgroups, elem_of_seq; lia).
    apply buttons_isSubmittable_updateConfirmButton.
Qed.

Lemma buttons_run_wf initial ops s :
  buttons_wf s → Forall (buttonExists initial (length (currentCards s))) ops →
  buttons_wf (run ops s) ∧ currentCards (run ops s) = currentCards s
  ∧ isInitialTurn (run ops s) = isInitialTurn s.
Proof.
  revert s. induction ops as [|[idx r] ops IH]; intros s Hwf Hops; [done|].
  apply Forall_cons in Hops as [[Hidx _] Hops]. simpl.
  destruct (buttons_assignCard_vars idx r s) as (Hc & Hi & _).
  destruct (IH (after (assignCard idx r s))) as (Hwf' & -> & ->).
  - by apply buttons_assignCard_wf.
  - by rewrite Hc.
  - done.
Qed.

(** A placing state from the server opens the turn with an empty ledger. *)
Lemma buttons_applyState_placing st s :
  placing st →
  let s' := applyState st s in
  assignments s' = ∅ ∧ currentCards s' = cards st
  ∧ isInitialTurn s' = bool_decide (phase st = init_human)
  ∧ gameId s' = Some (game_id st) ∧ buttons_wf s'.
Proof.
  intros Hph. unfold applyState.
  assert (∀ s1 : state,
    assignments s1 = ∅ → currentCards s1 = cards st →
    isInitialTurn s1 = bool_decide (phase st = init_human) →
    gameId s1 = Some (game_id st) →
    let s' := setStatus (Some (if isInitialTurn (renderHandArea (currentCards s1) s1)
        then "Opening hand: place 3 cards in Front and 2 in Middle/Back."
        else "Draw: place 2 cards and discard 1."))
        (renderHandArea (currentCards s1) s1) in
    assignments s' = ∅ ∧ currentCards s' = cards st
    ∧ isInitialTurn s' = bool_decide (phase st = init_human)
    ∧ gameId s' = Some (game_id st) ∧ buttons_wf s') as Hgen.
  { intros s1 Ha Hc Hi Hg. unfold renderHandArea.
    match goal with |- context [updateConfirmButton ?x] => set (s2 := x) end.
    destruct (buttons_updateConfirmButton_frame s2) as (Ha' & Hc' & Hi' & Hh').
    assert (gameId (updateConfirmButton s2) = gameId s2) as Hg'.
    { unfold updateConfirmButton. repeat case_match; done. }
    simpl. split_and!.
    - by rewrite Ha'.
    - by rewrite Hc'.
    - by rewrite Hi'.
    - by rewrite Hg'.
    - unfold buttons_wf. simpl. rewrite Hh', Hc', Ha'. simpl. split_and!.
      + done.
      + intros k. rewrite Ha, lookup_empty. by intros [? ?].
      + rewrite buttons_isSubmittable_updateConfirmButton. f_equal.
        by apply buttons_isSubmittable_ext. }
  destruct Hph as [Hph|Hph]; rewrite Hph in *; by apply Hgen.
Qed.

Lemma buttons_turn_wf st s0 ops :
  placing st →
  Forall (buttonExists (bool_decide (phase st = init_human)) (length (cards st))) ops →
  let s := run ops (applyState st s0) in
  buttons_wf s ∧ currentCards s = cards st
  ∧ isInitialTurn s = bool_decide (phase st = init_human).
Proof.
  intros Hph Hops.
  destruct (buttons_applyState_placing st s0 Hph) as (_ & Hc & Hi & _ & Hwf).
  simpl. rewrite <-Hc in Hops.
  destruct (buttons_run_wf _ ops _ Hwf Hops) as (Hwf' & -> & ->). done.
Qed.

End buttons_turn.

Section new_turn.

Lemma rows_applyState_placing_Normal st (s0 : Rows.state) :
  placing st → Rows.applyState st s0 = Normal (after (Rows.applyState st s0)).
Proof.
  intros Hph. unfold Rows.applyState.
  destruct Hph as [Hph|Hph]; rewrite Hph;
    (rewrite rows_refreshUI_Normal; [done|by eexists|by intros k ?%elem_of_nil]).
Qed.

(** The state a placing answer leaves, spelled out. *)
Lemma rows_applyState_placing_eq st (s0 : Rows.state) :
  placing st →
  ∃ m s1,
    after (Rows.applyState st s0)
    = Rows.enableBoardDrop (Rows.setStatus m (Rows.updateConfirmButton s1))
    ∧ Rows.boardPlacements s1 = Rows.noPlacements ∧ Rows.currentCards s1 = cards st
    ∧ Rows.isActionMode s1 = true
    ∧ Rows.isInitial s1 = bool_decide (phase st = init_human)
    ∧ Rows.currentServerBoard s1 = Some (player_board st)
    ∧ Rows.gameId s1 = Some (game_id st)
    ∧ Rows.hint s1 = Rows.hint s0.
Proof.
  intros Hph. unfold Rows.applyState.
  destruct Hph as [Hph|Hph]; rewrite Hph;
    (rewrite rows_refreshUI_Normal; [|by eexists|by intros k ?%elem_of_nil]);
    simpl; case_match; by eexists _, _.
Qed.

Lemma rows_fresh_hint (s : Rows.state) :
  Rows.isActionMode s = true → Rows.boardPlacements s = Rows.noPlacements →
  2 ≤ length (Rows.currentCards s) →
  Rows.hint (Rows.updateConfirmButton s) = Rows.placeMore (Rows.required s)
  ∧ Rows.isSubmittable s = false.
Proof.
  intros Ha Hp Hn. split.
  - rewrite rows_hint_updateConfirmButton by done.
    unfold Rows.required, Rows.totalPlaced. rewrite Hp. simpl.
    destruct (Rows.isInitial s); simpl.
    + rewrite bool_decide_eq_true_2 by lia. f_equal. lia.
    + rewrite bool_decide_eq_true_2 by lia. f_equal. lia.
  - apply not_true_is_false. rewrite rows_isSubmittable_spec.
    unfold Rows.required, Rows.totalPlaced. rewrite Hp. simpl.
    intros [_ Heq]. destruct (Rows.isInitial s); lia.
Qed.

End new_turn.

Section fresh.

Lemma rows_fresh_turn (st : response) (s0 : Rows.state) :
  placing st → 2 ≤ length (cards st) →
  let s := after (Rows.applyState st s0) in
  Rows.boardPlacements s = Rows.noPlacements
  ∧ Rows.currentCards s = cards st
  ∧ Rows.currentServerBoard s = Some (player_board st)
  ∧ Rows.isActionMode s = true ∧ Rows.boardDrop s = true
  ∧ Rows.confirmDisabled s = true
  ∧ Rows.hint s = Rows.placeMore (Rows.required s).
Proof.
  intros Hph Hn. cbv zeta.
  destruct (rows_applyState_placing_eq st s0 Hph)
    as (m & s1 & -> & Hp & Hc & Ha & Hi & Hb & _).
  destruct (rows_updateConfirmButton_vars s1) as (Hp' & Hc' & Hb' & Hi' & Ha').
  destruct (rows_fresh_hint s1 Ha Hp ltac:(by rewrite Hc)) as [Hhint Hsub].
  simpl. rewrite Hp', Hc', Hb', Ha'. split_and!; try done.
  - by rewrite rows_isSubmittable_updateConfirmButton, Hsub.
  - rewrite Hhint. unfold Rows.required. simpl. by rewrite Hi', Hc'.
Qed.

Lemma zones_fresh_turn (st : response) (s0 : Zones.state) :
  placing st → 2 ≤ length (cards st) →
  let s := Zones.applyState st s0 in
  Zones.assignments s = ∅ ∧ Zones.currentCards s = cards st
  ∧ Zones.handCards s = seq 0 (length (cards st))
  ∧ Zones.confirmDisabled s = true
  ∧ Zones.hint s = Zones.hint s0.
Proof.
  intros Hph Hn. cbv zeta.
  destruct (zones_applyState_placing st s0 Hph) as (Ha & Hc & Hi & Hwf).
  pose proof Hwf as (Hh & _ & Hbtn).
  split_and!; try done.
  - by rewrite Hh, Hc.
  - rewrite Hbtn. apply negb_true_iff, not_true_is_false.
    rewrite zones_isSubmittable_spec, Ha, Hc, map_size_empty. lia.
  - unfold Zones.applyState, Zones.buildDragDropUI, Zones.updateConfirmButton.
    destruct Hph as [Hph|Hph]; rewrite Hph; simpl;
      rewrite bool_decide_eq_false_2; try done;
      rewrite length_keys, map_size_empty; lia.
Qed.

Lemma buttons_fresh_turn (st : response) (s0 : Buttons.state) :
  placing st → 2 ≤ length (cards st) →
  let s := Buttons.applyState st s0 in
  Buttons.assignments s = ∅ ∧ Buttons.currentCards s = cards st
  ∧ Buttons.cardGroups s = seq 0 (length (cards st))
  ∧ Buttons.confirmDisabled s = true
  ∧ Buttons.hint s = Buttons.hint s0.
Proof.
  intros Hph Hn. cbv zeta.
  destruct (buttons_applyState_placing st s0 Hph) as (Ha & Hc & Hi & _ & Hwf).
  pose proof Hwf as (Hh & _ & Hbtn).
  split_and!; try done.
  - by rewrite Hh, Hc.
  - rewrite Hbtn. apply negb_true_iff, not_true_is_false.
    rewrite buttons_isSubmittable_spec, Ha, Hc, map_size_empty. lia.
  - unfold Buttons.applyState, Buttons.renderHandArea, Buttons.updateConfirmButton.
    destruct Hph as [Hph|Hph]; rewrite Hph; simpl;
      rewrite bool_decide_eq_false_2; try done;
      rewrite length_keys, map_size_empty; lia.
Qed.

End fresh.

(** A server state that opens a turn ([init_human] or [human_turn]) with a
    hand of at least two cards, applied by [newGame] to any earlier state,
    starts the turn from nothing: no pending placement or assignment, the
    new hand, the confirm button disabled. The row script also takes the
    server board, opens the rows for drops and asks for the number of cards
    the turn needs; the zone and button scripts leave the hint of the
    earlier state on screen. *)
Theorem new_turn_starts_empty (st : response) :
  placing st → 2 ≤ length (cards st) →
  (∀ s0 : Rows.state,
     let s := Rows.newGame (Json st) s0 in
     Rows.boardPlacements s = Rows.noPlacements
     ∧ Rows.currentCards s = cards st
     ∧ Rows.currentServerBoard s = Some (player_board st)
     ∧ Rows.isActionMode s = true ∧ Rows.boardDrop s = true
     ∧ Rows.confirmDisabled s = true
     ∧ Rows.hint s = Rows.placeMore (Rows.required s))
  ∧ (∀ s0 : Zones.state,
       let s := Zones.newGame (Json st) s0 in
       Zones.assignments s = ∅ ∧ Zones.currentCards s = cards st
       ∧ Zones.handCards s = seq 0 (length (cards st))
       ∧ Zones.confirmDisabled s = true
       ∧ Zones.hint s = Zones.hint s0)
  ∧ (∀ s0 : Buttons.state,
       let s := Buttons.newGame (Json st) s0 in
       Buttons.assignments s = ∅ ∧ Buttons.currentCards s = cards st
       ∧ Buttons.cardGroups s = seq 0 (length (cards st))
       ∧ Buttons.confirmDisabled s = true
       ∧ Buttons.hint s = Buttons.hint s0).
Proof.
  intros Hph Hn. split_and!.
  - intros s0. unfold Rows.newGame.
    rewrite rows_applyState_placing_Normal by done. by apply rows_fresh_turn.
  - intros s0. by apply zones_fresh_turn.
  - intros s0. by apply buttons_fresh_turn.
Qed.

Lemma new_turn_starts_empty_witness :
  let s := Rows.newGame (Json openingDeal) rowsPageLoad in
  (placing openingDeal ∧ 2 ≤ length (cards openingDeal))
  ∧ Rows.boardPlacements s = Rows.noPlacements
  ∧ Rows.currentCards s = cards openingDeal
  ∧ Rows.currentServerBoard s = Some (player_board openingDeal)
  ∧ Rows.isActionMode s = true ∧ Rows.boardDrop s = true
  ∧ Rows.confirmDisabled s = true
  ∧ Rows.hint s = "Place 5 more cards.".
Proof.
  assert (placing openingDeal) as Hph by (by left).
  assert (2 ≤ length (cards openingDeal)) as Hn by (simpl; lia).
  split; [done|].
  apply (proj1 (new_turn_starts_empty openingDeal Hph Hn) rowsPageLoad).
Defined.

Section submit.

(** A ledger that passes validation leaves it with an empty hint. *)
Lemma zones_validateAssignments_true (s : Zones.state) :
  (Zones.validateAssignments s).1 = true →
  Zones.validateAssignments s = (true, Zones.setHint "" s).
Proof.
  unfold Zones.validateAssignments. repeat case_match; simpl; done.
Qed.

Lemma buttons_validateAssignments_true (s : Buttons.state) :
  (Buttons.validateAssignments s).1 = true →
  Buttons.validateAssignments s = (true, Buttons.setHint "" s).
Proof.
  unfold Buttons.validateAssignments. repeat case_match; simpl; done.
Qed.

(** A ledger that fails validation gets one of the three complaints. *)
Lemma zones_validateAssignments_false (s : Zones.state) :
  (Zones.validateAssignments s).1 = false →
  ∃ msg, Zones.validateAssignments s = (false, Zones.setHint msg s)
         ∧ msg ∈ ["Place all cards before confirming."; "Front takes at most 3 cards.";
                  "Discard exactly 1 card."].
Proof.
  unfold Zones.validateAssignments. repeat case_match; simpl; try done;
    intros _; eexists; (split; [done|]); rewrite !elem_of_cons; tauto.
Qed.

Lemma buttons_validateAssignments_false (s : Buttons.state) :
  (Buttons.validateAssignments s).1 = false →
  ∃ msg, Buttons.validateAssignments s = (false, Buttons.setHint msg s)
         ∧ msg ∈ ["Assign all cards before confirming."; "Front can hold at most 3 cards.";
                  "You must discard exactly 1 card."].
Proof.
  unfold Buttons.validateAssignments. repeat case_match; simpl; try done;
    intros _; eexists; (split; [done|]); rewrite !elem_of_cons; tauto.
Qed.

End submit.

Section transit.

Lemma rows_submitPlay_Rejected (s : Rows.state) net message :
  net {| req_game_id := Rows.gameId s; req_placements := Rows.buildPlacements s |}
  = Rejected message →
  Rows.submitPlay net s
  = Rows.enableBoardDrop (Rows.setActionMode true (Rows.setConfirmDisabled false
      (Rows.setStatus (Some ("Network error: " +:+ message)) s))).
Proof. intros Hnet. unfold Rows.submitPlay. rewrite Hnet. by destruct s. Qed.

Lemma zones_submitPlay_Rejected (s : Zones.state) net message :
  (Zones.validateAssignments s).1 = true →
  net {| req_game_id := Zones.gameId s; req_placements := Zones.buildPlacements s |}
  = Rejected message →
  Zones.submitPlay net s
  = Zones.setConfirmDisabled false
      (Zones.setStatus (Some ("Network error: " +:+ message)) (Zones.setHint "" s)).
Proof.
  intros Hok Hnet. unfold Zones.submitPlay.
  rewrite (zones_validateAssignments_true s Hok). simpl.
  unfold Zones.buildPlacements in *. simpl. rewrite Hnet. by destruct s.
Qed.

Lemma buttons_submitPlay_Rejected (s : Buttons.state) net message :
  (Buttons.validateAssignments s).1 = true →
  net {| req_game_id := Buttons.gameId s; req_placements := Buttons.buildPlacements s |}
  = Rejected message →
  Buttons.submitPlay net s
  = Buttons.setConfirmDisabled false
      (Buttons.setStatus (Some ("Network error: " +:+ message)) (Buttons.setHint "" s)).
Proof.
  intros Hok Hnet. unfold Buttons.submitPlay.
  rewrite (buttons_validateAssignments_true s Hok). simpl.
  unfold Buttons.buildPlacements in *. simpl. rewrite Hnet. by destruct s.
Qed.

Lemma zones_validateAssignments_ext (s s' : Zones.state) :
  Zones.assignments s = Zones.assignments s' →
  Zones.currentCards s = Zones.currentCards s' →
  Zones.isInitial s = Zones.isInitial s' →
  (Zones.validateAssignments s).1 = (Zones.validateAssignments s').1.
Proof.
  intros Ha Hc Hi. unfold Zones.validateAssignments. rewrite Ha, Hc, Hi.
  repeat case_match; done.
Qed.

Lemma buttons_validateAssignments_ext (s s' : Buttons.state) :
  Buttons.assignments s = Buttons.assignments s' →
  Buttons.currentCards s = Buttons.currentCards s' →
  Buttons.isInitialTurn s = Buttons.isInitialTurn s' →
  (Buttons.validateAssignments s).1 = (Buttons.validateAssignments s').1.
Proof.
  intros Ha Hc Hi. unfold Buttons.validateAssignments. rewrite Ha, Hc, Hi.
  repeat case_match; done.
Qed.

End transit.

(** When the play request fails in transit (the promise is rejected with a
    message), [submitPlay] shows "Network error: " and the message, enables
    the confirm button again (in the row script also the action mode and
    the row drops) and keeps the hand and the pending placements, so that
    the ledger still passes and a second click sends the very same request.
    A [newGame] that fails in transit shows "Error starting game: " and the
    message and keeps the turn that was on screen. *)
Theorem failed_request_keeps_turn (message : string) :
  (∀ (s : Rows.state) net,
     net {| req_game_id := Rows.gameId s; req_placements := Rows.buildPlacements s |}
     = Rejected message →
     let s' := Rows.submitPlay net s in
     Rows.boardPlacements s' = Rows.boardPlacements s
     ∧ Rows.currentCards s' = Rows.currentCards s
     ∧ Rows.hint s' = Rows.hint s
     ∧ Rows.confirmDisabled s' = false
     ∧ Rows.isActionMode s' = true ∧ Rows.boardDrop s' = true
     ∧ Rows.status s' = Some ("Network error: " +:+ message)
     ∧ Rows.gameId s' = Rows.gameId s
     ∧ Rows.buildPlacements s' = Rows.buildPlacements s)
  ∧ (∀ (s : Zones.state) net,
       (Zones.validateAssignments s).1 = true →
       net {| req_game_id := Zones.gameId s; req_placements := Zones.buildPlacements s |}
       = Rejected message →
       let s' := Zones.submitPlay net s in
       Zones.assignments s' = Zones.assignments s
       ∧ Zones.currentCards s' = Zones.currentCards s
       ∧ Zones.confirmDisabled s' = false
       ∧ Zones.status s' = Some ("Network error: " +:+ message)
       ∧ (Zones.validateAssignments s').1 = true
       ∧ Zones.gameId s' = Zones.gameId s
       ∧ Zones.buildPlacements s' = Zones.buildPlacements s)
  ∧ (∀ (s : Buttons.state) net,
       (Buttons.validateAssignments s).1 = true →
       net {| req_game_id := Buttons.gameId s; req_placements := Buttons.buildPlacements s |}
       = Rejected message →
       let s' := Buttons.submitPlay net s in
       Buttons.assignments s' = Buttons.assignments s
       ∧ Buttons.currentCards s' = Buttons.currentCards s
       ∧ Buttons.confirmDisabled s' = false
       ∧ Buttons.status s' = Some ("Network error: " +:+ message)
       ∧ (Buttons.validateAssignments s').1 = true
       ∧ Buttons.gameId s' = Buttons.gameId s
       ∧ Buttons.buildPlacements s' = Buttons.buildPlacements s)
  ∧ (∀ s : Rows.state,
       let s' := Rows.newGame (Rejected message) s in
       Rows.boardPlacements s' = Rows.boardPlacements s
       ∧ Rows.currentCards s' = Rows.currentCards s
       ∧ Rows.confirmDisabled s' = Rows.confirmDisabled s
       ∧ Rows.status s' = Some ("Error starting game: " +:+ message))
  ∧ (∀ s : Zones.state,
       let s' := Zones.newGame (Rejected message) s in
       Zones.assignments s' = Zones.assignments s
       ∧ Zones.currentCards s' = Zones.currentCards s
       ∧ Zones.confirmDisabled s' = Zones.confirmDisabled s
       ∧ Zones.status s' = Some ("Error starting game: " +:+ message)).
Proof.
  split_and!.
  - intros s net Hnet. cbv zeta. rewrite (rows_submitPlay_Rejected s net message Hnet).
    split_and!; done.
  - intros s net Hok Hnet. cbv zeta. rewrite (zones_submitPlay_Rejected s net message Hok Hnet).
    split_and!; try done.
    rewrite <-Hok. by apply zones_validateAssignments_ext.
  - intros s net Hok Hnet. cbv zeta. rewrite (buttons_submitPlay_Rejected s net message Hok Hnet).
    split_and!; try done.
    rewrite <-Hok. by apply buttons_validateAssignments_ext.
  - intros s. cbv zeta. split_and!; done.
  - intros s. cbv zeta. split_and!; done.
Qed.

(** The zone script on a draw turn with a full assignment, the network
    down. *)
Lemma failed_request_keeps_turn_witness :
  let net := λ _ : request, Rejected "Failed to fetch" in
  let s := Zones.run [Zones.Move 0 (Zones.zone discard); Zones.Move 1 (Zones.zone front);
                      Zones.Move 2 (Zones.zone back)]
             (Zones.applyState drawDeal zonesPageLoad) in
  let s' := Zones.submitPlay net s in
  Zones.assignments s' = Zones.assignments s
  ∧ Zones.currentCards s' = Zones.currentCards s
  ∧ Zones.confirmDisabled s' = false
  ∧ Zones.status s' = Some "Network error: Failed to fetch"
  ∧ (Zones.validateAssignments s').1 = true
  ∧ Zones.gameId s' = Zones.gameId s
  ∧ Zones.buildPlacements s' = Zones.buildPlacements s.
Proof.
  intros net s.
  apply (proj1 (proj2 (failed_request_keeps_turn "Failed to fetch"))).
  - reflexivity.
  - reflexivity.
Defined.

(** In the zone and button scripts a ledger that fails validation is not
    sent: whatever the network would answer, [submitPlay] only sets the
    hint to one of the three complaints of [validateAssignments], and the
    ledger, the hand, the confirm button and the status bar stay as they
    are. *)
Theorem invalid_ledger_is_not_sent :
  (∀ s : Zones.state,
     (Zones.validateAssignments s).1 = false →
     ∃ msg, msg ∈ ["Place all cards before confirming."; "Front takes at most 3 cards.";
                   "Discard exactly 1 card."]
            ∧ ∀ net, Zones.submitPlay net s = Zones.setHint msg s)
  ∧ (∀ s : Buttons.state,
       (Buttons.validateAssignments s).1 = false →
       ∃ msg, msg ∈ ["Assign all cards before confirming."; "Front can hold at most 3 cards.";
                     "You must discard exactly 1 card."]
              ∧ ∀ net, Buttons.submitPlay net s = Buttons.setHint msg s).
Proof.
  split.
  - intros s Hbad. destruct (zones_validateAssignments_false s Hbad) as (msg & Hval & Hmsg).
    exists msg. split; [done|]. intros net. unfold Zones.submitPlay. by rewrite Hval.
  - intros s Hbad. destruct (buttons_validateAssignments_false s Hbad) as (msg & Hval & Hmsg).
    exists msg. split; [done|]. intros net. unfold Buttons.submitPlay. by rewrite Hval.
Qed.

(** An opening turn of the zone script with four cards on front. *)
Lemma invalid_ledger_is_not_sent_witness :
  let s := Zones.run [Zones.Move 0 (Zones.zone front); Zones.Move 1 (Zones.zone front);
                      Zones.Move 2 (Zones.zone front); Zones.Move 3 (Zones.zone front);
                      Zones.Move 4 (Zones.zone back)]
             (Zones.applyState openingDeal zonesPageLoad) in
  (Zones.validateAssignments s).1 = false
  ∧ ∃ msg, msg ∈ ["Place all cards before confirming."; "Front takes at most 3 cards.";
                  "Discard exactly 1 card."]
           ∧ ∀ net, Zones.submitPlay net s = Zones.setHint msg s.
Proof.
  intros s. split; [reflexivity|].
  apply (proj1 invalid_ledger_is_not_sent s). reflexivity.
Defined.

(** When the server accepts a play and answers with the next hand (at
    least two cards), [submitPlay] ends in a fresh turn: the placements
    that were sent are gone, the new hand is in place, the confirm button
    is disabled until the new cards are placed; the row script is back in
    action mode with its rows open for drops, and the zone and button
    scripts show no hint. *)
Theorem accepted_play_opens_next_turn (st : response) :
  placing st → truthy (error st) = false → 2 ≤ length (cards st) →
  (∀ (s : Rows.state) net,
     net {| req_game_id := Rows.gameId s; req_placements := Rows.buildPlacements s |}
     = Json st →
     let s' := Rows.submitPlay net s in
     Rows.boardPlacements s' = Rows.noPlacements
     ∧ Rows.currentCards s' = cards st
     ∧ Rows.currentServerBoard s' = Some (player_board st)
     ∧ Rows.isActionMode s' = true ∧ Rows.boardDrop s' = true
     ∧ Rows.confirmDisabled s' = true
     ∧ Rows.hint s' = Rows.placeMore (Rows.required s'))
  ∧ (∀ (s : Zones.state) net,
       (Zones.validateAssignments s).1 = true →
       net {| req_game_id := Zones.gameId s; req_placements := Zones.buildPlacements s |}
       = Json st →
       let s' := Zones.submitPlay net s in
       Zones.assignments s' = ∅ ∧ Zones.currentCards s' = cards st
       ∧ Zones.handCards s' = seq 0 (length (cards st))
       ∧ Zones.confirmDisabled s' = true
       ∧ Zones.hint s' = "")
  ∧ (∀ (s : Buttons.state) net,
       (Buttons.validateAssignments s).1 = true →
       net {| req_game_id := Buttons.gameId s; req_placements := Buttons.buildPlacements s |}
       = Json st →
       let s' := Buttons.submitPlay net s in
       Buttons.assignments s' = ∅ ∧ Buttons.currentCards s' = cards st
       ∧ Buttons.cardGroups s' = seq 0 (length (cards st))
       ∧ Buttons.confirmDisabled s' = true
       ∧ Buttons.hint s' = "").
Proof.
  intros Hph Herr Hn. split_and!.
  - intros s net Hnet. unfold Rows.submitPlay. rewrite Hnet, Herr.
    rewrite rows_applyState_placing_Normal by done. by apply rows_fresh_turn.
  - intros s net Hok Hnet. unfold Zones.submitPlay.
    rewrite (zones_validateAssignments_true s Hok). simpl.
    unfold Zones.buildPlacements in *. simpl. rewrite Hnet, Herr.
    by apply (zones_fresh_turn st (Zones.setConfirmDisabled true (Zones.setHint "" s))).
  - intros s net Hok Hnet. unfold Buttons.submitPlay.
    rewrite (buttons_validateAssignments_true s Hok). simpl.
    unfold Buttons.buildPlacements in *. simpl. rewrite Hnet, Herr.
    by apply (buttons_fresh_turn st (Buttons.setConfirmDisabled true (Buttons.setHint "" s))).
Qed.

(** The row script: the opening hand is placed and accepted, the server
    deals the first draw. *)
Lemma accepted_play_opens_next_turn_witness :
  let net := λ _ : request, Json drawDeal in
  let s := Rows.run [Rows.Place 0 front; Rows.Place 1 front; Rows.Place 2 middle;
                     Rows.Place 3 middle; Rows.Place 4 back]
             (after (Rows.applyState openingDeal rowsPageLoad)) in
  let s' := Rows.submitPlay net s in
  Rows.boardPlacements s' = Rows.noPlacements
  ∧ Rows.currentCards s' = cards drawDeal
  ∧ Rows.currentServerBoard s' = Some (player_board drawDeal)
  ∧ Rows.isActionMode s' = true ∧ Rows.boardDrop s' = true
  ∧ Rows.confirmDisabled s' = true
  ∧ Rows.hint s' = "Place 2 more cards.".
Proof.
  intros net s.
  apply (proj1 (accepted_play_opens_next_turn drawDeal (or_intror eq_refl) eq_refl
                  ltac:(simpl; lia))).
  reflexivity.
Defined.



(** When the answer to a play carries a phase the scripts do not know,
    input stays suspended: the confirm button remains disabled (in the row
    script action mode and the row drops stay off as well) and the ledger
    is kept. The row and zone scripts say nothing about it, the status bar
    keeps what it showed; the button script shows "Unexpected phase: " and
    the tag. *)
Theorem unknown_phase_suspends_input (st : response) (tag : string) :
  phase st = unexpected tag → truthy (error st) = false →
  (∀ (s : Rows.state) net,
     net {| req_game_id := Rows.gameId s; req_placements := Rows.buildPlacements s |}
     = Json st →
     let s' := Rows.submitPlay net s in
     Rows.confirmDisabled s' = true
     ∧ Rows.isActionMode s' = false ∧ Rows.boardDrop s' = false
     ∧ Rows.status s' = Rows.status s ∧ Rows.hint s' = Rows.hint s
     ∧ Rows.boardPlacements s' = Rows.boardPlacements s
     ∧ Rows.currentCards s' = Rows.currentCards s)
  ∧ (∀ (s : Zones.state) net,
       (Zones.validateAssignments s).1 = true →
       net {| req_game_id := Zones.gameId s; req_placements := Zones.buildPlacements s |}
       = Json st →
       let s' := Zones.submitPlay net s in
       Zones.confirmDisabled s' = true
       ∧ Zones.status s' = Zones.status s
       ∧ Zones.assignments s' = Zones.assignments s
       ∧ Zones.currentCards s' = Zones.currentCards s)
  ∧ (∀ (s : Buttons.state) net,
       (Buttons.validateAssignments s).1 = true →
       net {| req_game_id := Buttons.gameId s; req_placements := Buttons.buildPlacements s |}
       = Json st →
       let s' := Buttons.submitPlay net s in
       Buttons.confirmDisabled s' = true
       ∧ Buttons.status s' = Some ("Unexpected phase: " +:+ tag)
       ∧ Buttons.assignments s' = Buttons.assignments s
       ∧ Buttons.currentCards s' = Buttons.currentCards s).
Proof.
  intros Hph Herr. split_and!.
  - intros s net Hnet. unfold Rows.submitPlay. rewrite Hnet, Herr.
    unfold Rows.applyState. rewrite Hph. simpl. split_and!; done.
  - intros s net Hok Hnet. unfold Zones.submitPlay.
    rewrite (zones_validateAssignments_true s Hok). simpl.
    unfold Zones.buildPlacements in *. simpl. rewrite Hnet, Herr.
    unfold Zones.applyState. rewrite Hph. simpl. split_and!; done.
  - intros s net Hok Hnet. unfold Buttons.submitPlay.
    rewrite (buttons_validateAssignments_true s Hok). simpl.
    unfold Buttons.buildPlacements in *. simpl. rewrite Hnet, Herr.
    unfold Buttons.applyState. rewrite Hph. simpl. split_and!; done.
Qed.

Lemma unknown_phase_suspends_input_witness :
  let net := λ _ : request, Json oddState in
  let s := Rows.run [Rows.Place 0 middle; Rows.Place 1 back]
             (after (Rows.applyState drawDeal rowsPageLoad)) in
  let s' := Rows.submitPlay net s in
  Rows.confirmDisabled s' = true
  ∧ Rows.isActionMode s' = false ∧ Rows.boardDrop s' = false
  ∧ Rows.status s' = Rows.status s ∧ Rows.hint s' = Rows.hint s
  ∧ Rows.boardPlacements s' = Rows.boardPlacements s
  ∧ Rows.currentCards s' = Rows.currentCards s.
Proof.
  intros net s.
  apply (proj1 (unknown_phase_suspends_input oddState "ai_turn" eq_refl eq_refl)).
  reflexivity.
Defined.

(** At every point of a turn the confirm button shows the current ledger,
    never an earlier one. Row script (gestures carry hand indices): it is
    enabled exactly when the number of placed cards is the hand size on an
    opening turn and one less on a draw turn. Zone script and button
    script (clicks on buttons that exist): it is enabled exactly when
    every index of the hand is assigned and, on an opening turn, at most
    three are on front or, on a draw turn, exactly one is on discard. *)
Theorem confirm_button_follows_ledger (st : response) :
  placing st →
  (∀ (s0 : Rows.state) (ops : list Rows.op),
     Forall (in_hand (length (cards st))) ops →
     let s := Rows.run ops (after (Rows.applyState st s0)) in
     Rows.confirmDisabled s = false ↔
       length (Rows.bp_all (Rows.boardPlacements s))
       = (if Rows.isInitial s then length (cards st) else length (cards st) - 1)
       ∧ (Rows.isInitial s = false → cards st ≠ []))
  ∧ (∀ (s0 : Zones.state) (ops : list Zones.op),
       let s := Zones.run ops (Zones.applyState st s0) in
       Zones.confirmDisabled s = false ↔
         (∀ i, i < length (cards st) → is_Some (Zones.assignments s !! i))
         ∧ (if Zones.isInitial s then countFor (Zones.assignments s) front ≤ 3
            else countFor (Zones.assignments s) discard = 1))
  ∧ (∀ (s0 : Buttons.state) (ops : list Buttons.op),
       Forall (Buttons.buttonExists (bool_decide (phase st = init_human))
                 (length (cards st))) ops →
       let s := Buttons.run ops (Buttons.applyState st s0) in
       Buttons.confirmDisabled s = false ↔
         (∀ i, i < length (cards st) → is_Some (Buttons.assignments s !! i))
         ∧ (if Buttons.isInitialTurn s then countFor (Buttons.assignments s) front ≤ 3
            else countFor (Buttons.assignments s) discard = 1)).
Proof.
  intros Hph. split_and!.
  - intros s0 ops Hops. cbv zeta.
    destruct (rows_turn_wf st s0 ops Hph Hops) as ((_ & _ & _ & Ha & Hbtn) & Hc & Hi).
    rewrite Hbtn, negb_false_iff, rows_isSubmittable_spec, totalPlaced_length.
    unfold Rows.required. rewrite Hc.
    destruct (Rows.isInitial _); [intuition lia|].
    split.
    + intros [_ Hlen]. split; [lia|]. intros _ Hnil. rewrite Hnil in Hlen. simpl in Hlen. lia.
    + intros [Hlen Hne]. split; [done|].
      destruct (cards st); [by destruct Hne|]. simpl in *. lia.
  - intros s0 ops. cbv zeta.
    destruct (zones_turn_wf st s0 ops Hph) as ((_ & Hkeys & Hbtn) & Hc & _).
    rewrite Hbtn, negb_false_iff, zones_isSubmittable_spec. rewrite Hc in *.
    split.
    + intros [Hsize Hcond]. split; [|done]. by apply full_of_size; [|lia].
    + intros [Hall Hcond]. split; [|done]. by apply size_of_full.
  - intros s0 ops Hops. cbv zeta.
    destruct (buttons_turn_wf st s0 ops Hph Hops) as ((_ & Hkeys & Hbtn) & Hc & _).
    rewrite Hbtn, negb_false_iff, buttons_isSubmittable_spec. rewrite Hc in *.
    split.
    + intros [Hsize Hcond]. split; [|done]. by apply full_of_size; [|lia].
    + intros [Hall Hcond]. split; [|done]. by apply size_of_full.
Qed.

(** A draw turn of the row script: two cards placed, then one taken back. *)
Lemma confirm_button_follows_ledger_witness :
  let ops := [Rows.Place 0 middle; Rows.Place 1 back; Rows.Return 0] in
  let s := Rows.run ops (after (Rows.applyState drawDeal rowsPageLoad)) in
  (placing drawDeal ∧ Forall (in_hand (length (cards drawDeal))) ops)
  ∧ ¬ (length (Rows.bp_all (Rows.boardPlacements s))
       = (if Rows.isInitial s then length (cards drawDeal) else length (cards drawDeal) - 1)
       ∧ (Rows.isInitial s = false → cards drawDeal ≠ [])).
Proof.
  intros ops s.
  assert (placing drawDeal) as Hph by (by right).
  assert (Forall (in_hand (length (cards drawDeal))) ops) as Hops.
  { repeat constructor; simpl; lia. }
  split; [done|].
  intros Hcomplete.
  apply (proj1 (confirm_button_follows_ledger drawDeal Hph) rowsPageLoad ops Hops)
    in Hcomplete.
  discriminate Hcomplete.
Defined.

(** In the zone and button scripts the check made on a click,
    [validateAssignments], and the check that enables the confirm button,
    [updateConfirmButton], agree at every point of a turn, although the
    first compares the number of keys with [<] and the second with [===]. *)
Theorem validation_agrees_with_button (st : response) :
  placing st →
  (∀ (s0 : Zones.state) (ops : list Zones.op),
     let s := Zones.run ops (Zones.applyState st s0) in
     (Zones.validateAssignments s).1 = negb (Zones.confirmDisabled s))
  ∧ (∀ (s0 : Buttons.state) (ops : list Buttons.op),
       Forall (Buttons.buttonExists (bool_decide (phase st = init_human))
                 (length (cards st))) ops →
       let s := Buttons.run ops (Buttons.applyState st s0) in
       (Buttons.validateAssignments s).1 = negb (Buttons.confirmDisabled s)).
Proof.
  intros Hph. split.
  - intros s0 ops. cbv zeta.
    destruct (zones_turn_wf st s0 ops Hph) as ((_ & Hkeys & Hbtn) & _ & _).
    rewrite Hbtn, negb_involutive. apply eq_true_iff_eq.
    rewrite zones_validateAssignments_spec, zones_isSubmittable_spec.
    pose proof (size_le_bound _ _ Hkeys). intuition lia.
  - intros s0 ops Hops. cbv zeta.
    destruct (buttons_turn_wf st s0 ops Hph Hops) as ((_ & Hkeys & Hbtn) & _ & _).
    rewrite Hbtn, negb_involutive. apply eq_true_iff_eq.
    rewrite buttons_validateAssignments_spec, buttons_isSubmittable_spec.
    pose proof (size_le_bound _ _ Hkeys). intuition lia.
Qed.

Lemma validation_agrees_with_button_witness :
  let ops := [Buttons.Assign 0 discard; Buttons.Assign 1 front; Buttons.Assign 1 back] in
  let s := Buttons.run ops (Buttons.applyState drawDeal buttonsPageLoad) in
  (placing drawDeal
   ∧ Forall (Buttons.buttonExists (bool_decide (phase drawDeal = init_human))
               (length (cards drawDeal))) ops)
  ∧ (Buttons.validateAssignments s).1 = negb (Buttons.confirmDisabled s).
Proof.
  intros ops s.
  assert (placing drawDeal) as Hph by (by right).
  assert (Forall (Buttons.buttonExists (bool_decide (phase drawDeal = init_human))
                    (length (cards drawDeal))) ops) as Hops.
  { repeat constructor; simpl; lia. }
  split; [done|].
  apply (proj2 (validation_agrees_with_button drawDeal Hph) buttonsPageLoad ops Hops).
Defined.

Section undo.

Lemma filter_ne_id (idx : nat) (l : list nat) :
  idx ∉ l → filter (λ i, i ≠ idx) l = l.
Proof.
  induction l as [|x l IH]; intros Hnin; [done|].
  apply not_elem_of_cons in Hnin as [Hne Hnin].
  rewrite filter_cons, decide_True by done. by rewrite IH.
Qed.

Lemma filter_ne_snoc (idx : nat) (l : list nat) :
  filter (λ i, i ≠ idx) (l ++ [idx]) = filter (λ i, i ≠ idx) l.
Proof.
  rewrite filter_app. simpl. rewrite filter_cons, decide_False by (by intros ?).
  by rewrite filter_nil, app_nil_r.
Qed.

(** [updateConfirmButton] computes hint and button from the variables
    alone while the turn is open. *)
Lemma rows_updateConfirmButton_ext (s s' : Rows.state) :
  Rows.isActionMode s = true →
  Rows.gameId s' = Rows.gameId s → Rows.currentCards s' = Rows.currentCards s →
  Rows.currentServerBoard s' = Rows.currentServerBoard s →
  Rows.boardPlacements s' = Rows.boardPlacements s →
  Rows.isInitial s' = Rows.isInitial s → Rows.isActionMode s' = Rows.isActionMode s →
  Rows.status s' = Rows.status s → Rows.boardDrop s' = Rows.boardDrop s →
  Rows.updateConfirmButton s' = Rows.updateConfirmButton s.
Proof.
  destruct s, s'. simpl. intros -> -> -> -> -> -> -> -> ->.
  unfold Rows.updateConfirmButton, Rows.totalPlaced, Rows.required,
    Rows.setHint, Rows.setConfirmDisabled. simpl.
  repeat case_match; reflexivity.
Qed.

End undo.

(** Taking a card back undoes its placement. Row script, in a state of an
    open turn: a card of the hand that lies on no row, dropped on a row
    that has room and then dropped back on the pool, leaves exactly the
    state that refreshing the confirm button gives; dropping it on the
    pool straight away does the same. Zone script: an unassigned card of
    the hand dropped on a zone and then on the pool leaves the assignments
    as they were and the confirm button as a refresh would set it. *)
Theorem return_undoes_place :
  (∀ (s : Rows.state) (idx : nat) (r : Row),
     rows_wf s → idx < length (Rows.currentCards s) →
     idx ∉ Rows.bp_all (Rows.boardPlacements s) →
     r ≠ discard → Rows.committed s r + Rows.pending s r < Rows.rowMax r →
     after (Rows.returnCardToHand idx (after (Rows.placeCardOnRow idx r s)))
     = Rows.updateConfirmButton s
     ∧ after (Rows.returnCardToHand idx s) = Rows.updateConfirmButton s)
  ∧ (∀ (s : Zones.state) (idx : nat) (r : Row),
       idx ∈ Zones.handCards s → Zones.assignments s !! idx = None →
       let s' := Zones.moveCard idx Zones.pool (Zones.moveCard idx (Zones.zone r) s) in
       Zones.assignments s' = Zones.assignments s
       ∧ Zones.confirmDisabled s' = Zones.confirmDisabled (Zones.updateConfirmButton s)).
Proof.
  split.
  - intros s idx r Hwf Hidx Hnin Hr Hroom.
    pose proof Hwf as (_ & _ & _ & Ha & _).
    pose proof Hnin as Hnin'.
    unfold Rows.bp_all in Hnin'. rewrite !not_elem_of_app in Hnin'.
    destruct Hnin' as (Hf & Hm & Hb).
    assert (Rows.boardPlacements (Rows.removeFromPlacements idx s) = Rows.boardPlacements s)
      as Hrem.
    { simpl. rewrite !filter_ne_id by done. by destruct (Rows.boardPlacements s). }
    split.
    + destruct (rows_placeCardOnRow_cases idx r s Hwf Hidx)
        as [[? _]|[(_ & ? & _)|(_ & _ & Hplace)]]; [done|lia|].
      pose proof (rows_step_wf s (Rows.Place idx r) Hwf Hidx) as Hwf'.
      simpl in Hwf'. rewrite rows_returnCardToHand_Normal by done.
      rewrite Hplace. cbn [after].
      set (s2 := Rows.setBoardPlacements
                   (Rows.bp_push r idx (Rows.boardPlacements (Rows.removeFromPlacements idx s)))
                   (Rows.removeFromPlacements idx s)).
      destruct (rows_updateConfirmButton_vars s2) as (Hp2 & Hc2 & Hb2 & Hi2 & Ha2).
      assert (Rows.gameId (Rows.updateConfirmButton s2) = Rows.gameId s
              ∧ Rows.status (Rows.updateConfirmButton s2) = Rows.status s
              ∧ Rows.boardDrop (Rows.updateConfirmButton s2) = Rows.boardDrop s)
        as (Hg2 & Hs2 & Hd2).
      { unfold Rows.updateConfirmButton. repeat case_match; done. }
      apply rows_updateConfirmButton_ext; simpl;
        rewrite ?Hc2, ?Hb2, ?Hi2, ?Ha2, ?Hg2, ?Hs2, ?Hd2; try done.
      rewrite Hp2. subst s2. cbn [Rows.boardPlacements Rows.setBoardPlacements].
      rewrite Hrem.
      destruct (Rows.boardPlacements s) as [f m b], r; simpl in *; try done;
        rewrite ?filter_ne_snoc, ?filter_ne_id by done; done.
    + rewrite rows_returnCardToHand_Normal by done. cbn [after].
      apply rows_updateConfirmButton_ext; try done.
  - intros s idx r Hin Hnone. cbv zeta.
    assert (Zones.handCards (Zones.moveCard idx (Zones.zone r) s) = Zones.handCards s) as Hh.
    { by destruct (zones_moveCard_frame idx (Zones.zone r) s) as (_ & _ & ->). }
    assert (Zones.assignments
              (Zones.moveCard idx Zones.pool (Zones.moveCard idx (Zones.zone r) s))
            = Zones.assignments s) as Hassign.
    { rewrite !zones_moveCard_assignments, Hh, !bool_decide_eq_true_2 by done.
      by rewrite delete_insert_eq, delete_id. }
    split; [done|].
    destruct (zones_moveCard_frame idx Zones.pool (Zones.moveCard idx (Zones.zone r) s))
      as (Hc1 & Hi1 & _).
    destruct (zones_moveCard_frame idx (Zones.zone r) s) as (Hc2 & Hi2 & _).
    unfold Zones.moveCard at 1. rewrite Hh, bool_decide_eq_true_2 by done.
    rewrite !zones_isSubmittable_updateConfirmButton. f_equal.
    destruct (zones_updateConfirmButton_frame s) as (Ha3 & Hc3 & Hi3 & _).
    assert (∀ x y, Zones.isSubmittable (Zones.updateConfirmButton x) = Zones.isSubmittable y
                   ↔ Zones.isSubmittable x = Zones.isSubmittable y) as Hupd.
    { intros x y.
      destruct (zones_updateConfirmButton_frame x) as (? & ? & ? & _).
      by rewrite (zones_isSubmittable_ext (Zones.updateConfirmButton x) x). }
    apply Hupd. symmetry. apply Hupd. symmetry.
    apply zones_isSubmittable_ext; simpl.
    + rewrite zones_moveCard_assignments, bool_decide_eq_true_2 by done.
      by rewrite delete_insert_eq, delete_id.
    + done.
    + done.
Qed.

(** A fresh draw turn of the row script: card 0 goes to front and back to
    the pool. *)
Lemma return_undoes_place_witness :
  let s := after (Rows.applyState drawDeal rowsPageLoad) in
  after (Rows.returnCardToHand 0 (after (Rows.placeCardOnRow 0 front s)))
  = Rows.updateConfirmButton s
  ∧ after (Rows.returnCardToHand 0 s) = Rows.updateConfirmButton s.
Proof.
  intros s.
  apply (proj1 return_undoes_place s 0 front).
  - by apply (rows_applyState_placing drawDeal rowsPageLoad); right.
  - simpl. lia.
  - by intros ?%elem_of_nil.
  - discriminate.
  - vm_compute. lia.
Defined.

Section submission.

Lemma filter_row_fmap (r0 r : Row) (l : list nat) :
  length (filter (λ p, row p = r) ((λ idx, {| card_idx := idx; row := r0 |}) <$> l))
  = if decide (r0 = r) then length l else 0.
Proof.
  induction l as [|x l IH]; [by case_decide|].
  rewrite fmap_cons, filter_cons. simpl.
  destruct (decide (r0 = r)); simpl; by rewrite IH.
Qed.

Lemma rowPlacements_count (s : Rows.state) (r : Row) :
  length (filter (λ p, row p = r) (Rows.rowPlacements s)) = Rows.pending s r.
Proof.
  unfold Rows.rowPlacements, Rows.pending, Rows.onRow.
  rewrite !filter_app, !length_app, !filter_row_fmap.
  destruct r; simpl; repeat case_decide; try done; lia.
Qed.

Lemma rowPlacements_length (s : Rows.state) :
  length (Rows.rowPlacements s) = length (Rows.bp_all (Rows.boardPlacements s)).
Proof. by rewrite <-rows_placement_indices, length_fmap. Qed.

End submission.

(** What the row script sends when the confirm button is enabled is a
    play the server's rules allow: one placement per card of the hand, no
    discard on an opening turn and exactly one on a draw turn, and on each
    board row no more cards than the row still has room for. (The server
    board is within the row maxima and the gestures carry hand indices.) *)
Theorem row_submission_is_well_formed (st : response) :
  placing st →
  (∀ r, length (board_row (player_board st) r) ≤ Rows.rowMax r) →
  ∀ (s0 : Rows.state) (ops : list Rows.op),
    Forall (in_hand (length (cards st))) ops →
    let s := Rows.run ops (after (Rows.applyState st s0)) in
    Rows.confirmDisabled s = false →
    let ps := Rows.buildPlacements s in
    length ps = length (cards st)
    ∧ length (filter (λ p, row p = discard) ps) = (if Rows.isInitial s then 0 else 1)
    ∧ ∀ r, r ≠ discard →
        length (board_row (player_board st) r) + length (filter (λ p, row p = r) ps)
        ≤ Rows.rowMax r.
Proof.
  intros Hph Hboard s0 ops Hops. cbv zeta. intros Hbtn.
  destruct (rows_turn_wf st s0 ops Hph Hops) as (Hwf & Hc & _).
  destruct (rows_turn_within_max st s0 ops Hph) as [Hmax Hb].
  pose proof Hwf as (Hnd & Hlt & _ & _ & Hbtn').
  rewrite Hbtn' in Hbtn. apply negb_false_iff in Hbtn.
  apply rows_isSubmittable_spec in Hbtn as [_ Htotal].
  rewrite totalPlaced_length in Htotal. unfold Rows.required in Htotal.
  set (s := Rows.run ops (after (Rows.applyState st s0))) in *.
  assert (∀ r, r ≠ discard →
    length (board_row (player_board st) r) + Rows.pending s r ≤ Rows.rowMax r) as Hcap.
  { intros r Hr. destruct (Hmax r) as [Hz|Hle].
    - rewrite Hz. specialize (Hboard r). lia.
    - unfold Rows.committed in Hle. by rewrite Hb in Hle. }
  unfold Rows.buildPlacements.
  destruct (Rows.isInitial s); cbn [negb].
  - rewrite rowPlacements_length, rowPlacements_no_discard. rewrite Hc in Htotal.
    split_and!; [lia|done|]. intros r Hr. rewrite rowPlacements_count. by apply Hcap.
  - destruct (firstUnplaced_Some s Hnd ltac:(lia)) as (i & -> & _ & _).
    rewrite length_app, rowPlacements_length, filter_app, rowPlacements_no_discard.
    rewrite Hc in Htotal. simpl. split_and!; [lia|done|].
    intros r Hr. rewrite filter_app, length_app, rowPlacements_count.
    rewrite filter_cons, decide_False by (simpl; congruence). simpl.
    specialize (Hcap r Hr). lia.
Qed.

(** A draw turn on a board whose front row is already full. *)
Lemma row_submission_is_well_formed_witness :
  let st := {| error := None; game_id := "g"; phase := human_turn;
               cards := cards drawDeal;
               player_board := {| board_front := cards drawDeal; board_middle := [];
                                  board_back := [] |};
               ai_board := emptyBoard; ai_goes_first := false |} in
  let ops := [Rows.Place 0 front; Rows.Place 0 middle; Rows.Place 2 back] in
  let s := Rows.run ops (after (Rows.applyState st rowsPageLoad)) in
  Rows.buildPlacements s
  = [ {| card_idx := 0; row := middle |}; {| card_idx := 2; row := back |};
      {| card_idx := 1; row := discard |} ]
  ∧ length (Rows.buildPlacements s) = length (cards st)
  ∧ length (filter (λ p, row p = discard) (Rows.buildPlacements s))
    = (if Rows.isInitial s then 0 else 1)
  ∧ ∀ r, r ≠ discard →
      length (board_row (player_board st) r)
      + length (filter (λ p, row p = r) (Rows.buildPlacements s))
      ≤ Rows.rowMax r.
Proof.
  intros st ops s. split; [reflexivity|].
  apply (row_submission_is_well_formed st).
  - by right.
  - intros []; vm_compute; lia.
  - repeat constructor; simpl; lia.
  - reflexivity.
Defined.



Section pool.
Import Rows.

Lemma fst_filter_imap (Q : nat → Prop) `{!∀ i, Decision (Q i)}
    (l : list card) (g : nat → nat) :
  (filter (λ ic : nat * card, Q ic.1) (imap (λ i c, (g i, c)) l)).*1
  = filter Q (g <$> seq 0 (length l)).
Proof.
  revert g. induction l as [|c l IH]; intros g; [done|].
  rewrite imap_cons.
  change (seq 0 (length (c :: l))) with (0 :: seq 1 (length l)).
  rewrite <-fmap_S_seq, fmap_cons, <-list_fmap_compose, !filter_cons.
  specialize (IH (g ∘ S)).
  rewrite <-IH. simpl. repeat case_decide; done.
Qed.

(** The pool lists the hand indices that are on no row, in ascending
    order. *)
Lemma handPool_indices (s : state) :
  pool_idx <$> handPool s
  = filter (λ i, i ∉ getAllPlacedIndices s) (seq 0 (length (currentCards s))).
Proof.
  unfold handPool. rewrite <-list_fmap_compose.
  rewrite <-(list_fmap_id (seq 0 _)).
  by rewrite <-(fst_filter_imap (λ i, i ∉ getAllPlacedIndices s) (currentCards s) id).
Qed.

Lemma handPool_cards (s : state) (pc : poolCard) :
  pc ∈ handPool s →
  currentCards s !! pool_idx pc = Some (pool_card pc)
  ∧ (pool_idx pc ∉ bp_all (boardPlacements s))
  ∧ will_discard pc
    = andb (negb (isInitial s))
        (bool_decide (Z.of_nat (length (currentCards s))
                      - Z.of_nat (size (getAllPlacedIndices s)) = 1)%Z).
Proof.
  unfold handPool. intros ([i c] & -> & Hin)%list_elem_of_fmap.
  apply list_elem_of_filter in Hin as [Hnin Hin]. simpl in *.
  apply elem_of_lookup_imap in Hin as (j & c' & [= -> ->] & Hj).
  split_and!; [done| |done].
  unfold getAllPlacedIndices in Hnin. by rewrite elem_of_list_to_set in Hnin.
Qed.

(** The one index outside a duplicate-free list that holds all but one of
    the indices below [n]. *)
Lemma all_but_one (l : list nat) (n i : nat) :
  NoDup l → (∀ k, k ∈ l → k < n) → length l + 1 = n → i < n → i ∉ l →
  ∀ j, j ∈ l ↔ j < n ∧ j ≠ i.
Proof.
  intros Hnd Hlt Hlen Hi Hnin j.
  assert (l ++ [i] ≡ₚ seq 0 n) as Hperm.
  { apply Permutation_seq.
    - apply NoDup_app. split_and!; [done| |apply NoDup_singleton].
      by intros k Hk ->%list_elem_of_singleton.
    - intros k [Hk| ->%list_elem_of_singleton]%elem_of_app; [by apply Hlt|done].
    - rewrite length_app. simpl. lia. }
  split.
  - intros Hj. split; [by apply Hlt|]. by intros ->.
  - intros [Hj Hne].
    assert (j ∈ l ++ [i]) as Hin by (rewrite Hperm; apply elem_of_seq; lia).
    apply elem_of_app in Hin as [?|?%list_elem_of_singleton]; done.
Qed.

End pool.

(** What [renderHandArea] of the row script draws, at every point of a
    turn (gestures carrying hand indices): the pool holds exactly the
    cards of the hand that are on no row, in hand order, so that pool and
    rows together hold every card once. A card of the pool is marked
    [will-discard] only when the confirm button is enabled, and then it is
    the card [submitPlay] sends as the discard; on a draw turn with the
    button enabled the pool is that one marked card. *)
Theorem hand_pool_complements_rows (st : response) :
  placing st →
  ∀ (s0 : Rows.state) (ops : list Rows.op),
    Forall (in_hand (length (cards st))) ops →
    let s := Rows.run ops (after (Rows.applyState st s0)) in
    let pool := Rows.handPool s in
    Rows.pool_idx <$> pool
    = filter (λ i, i ∉ Rows.bp_all (Rows.boardPlacements s)) (seq 0 (length (cards st)))
    ∧ (Rows.pool_idx <$> pool) ++ Rows.bp_all (Rows.boardPlacements s)
      ≡ₚ seq 0 (length (cards st))
    ∧ (∀ pc, pc ∈ pool → cards st !! Rows.pool_idx pc = Some (Rows.pool_card pc))
    ∧ (∀ pc, pc ∈ pool → Rows.will_discard pc = true →
         Rows.confirmDisabled s = false
         ∧ Rows.buildPlacements s
           = Rows.rowPlacements s ++ [{| card_idx := Rows.pool_idx pc; row := discard |}])
    ∧ (Rows.isInitial s = false → Rows.confirmDisabled s = false →
         ∃ pc, pool = [pc] ∧ Rows.will_discard pc = true).
Proof.
  intros Hph s0 ops Hops. cbv zeta.
  destruct (rows_turn_wf st s0 ops Hph Hops) as (Hwf & Hc & _).
  pose proof Hwf as (Hnd & Hlt & _ & Ha & Hbtn).
  set (s := Rows.run ops (after (Rows.applyState st s0))) in *.
  rewrite Hc in Hlt.
  assert (Rows.pool_idx <$> Rows.handPool s
          = filter (λ i, i ∉ Rows.bp_all (Rows.boardPlacements s)) (seq 0 (length (cards st))))
    as Hidx.
  { rewrite handPool_indices, Hc. apply list_filter_iff. intros i.
    unfold Rows.getAllPlacedIndices. by rewrite elem_of_list_to_set. }
  assert (size (Rows.getAllPlacedIndices s) = length (Rows.bp_all (Rows.boardPlacements s)))
    as Hsize by (by apply size_list_to_set).
  assert (∀ pc, pc ∈ Rows.handPool s → Rows.will_discard pc = true →
            Rows.isInitial s = false
            ∧ length (Rows.bp_all (Rows.boardPlacements s)) + 1 = length (cards st)
            ∧ Rows.pool_idx pc < length (cards st)
            ∧ Rows.pool_idx pc ∉ Rows.bp_all (Rows.boardPlacements s)) as Hmark.
  { intros pc Hpc Hwd. destruct (handPool_cards s pc Hpc) as (Hcard & Hnin & Hflag).
    rewrite Hwd, Hsize, Hc in Hflag. symmetry in Hflag.
    apply andb_true_iff in Hflag as [Hdraw Hone].
    apply negb_true_iff in Hdraw. apply bool_decide_eq_true in Hone.
    split_and!; [done|lia| |done].
    rewrite Hc in Hcard. by apply lookup_lt_Some in Hcard. }
  split_and!.
  - done.
  - rewrite Hidx. apply Permutation_seq.
    + apply NoDup_app. split_and!; [apply NoDup_filter, NoDup_seq| |done].
      by intros k [? _]%list_elem_of_filter.
    + intros k [[_ [_ ?]%elem_of_seq]%list_elem_of_filter|?]%elem_of_app;
        [lia|by apply Hlt].
    + rewrite length_app.
      pose proof (filter_app_complement
        (λ i : nat, i ∉ Rows.bp_all (Rows.boardPlacements s)) (seq 0 (length (cards st))))
        as Hsplit.
      apply Permutation_length in Hsplit. rewrite length_app, length_seq in Hsplit.
      assert (length (filter (λ i : nat, ¬ (i ∉ Rows.bp_all (Rows.boardPlacements s)))
                        (seq 0 (length (cards st))))
              ≤ length (Rows.bp_all (Rows.boardPlacements s))) as Hle.
      { apply submseteq_length, NoDup_submseteq; [apply NoDup_filter, NoDup_seq|].
        intros k [Hk _]%list_elem_of_filter. by apply dec_stable. }
      lia.
  - intros pc Hpc. destruct (handPool_cards s pc Hpc) as (Hcard & _). by rewrite <-Hc.
  - intros pc Hpc Hwd. destruct (Hmark pc Hpc Hwd) as (Hdraw & Hlen & Hi & Hnin).
    assert (∀ j, j ∈ Rows.bp_all (Rows.boardPlacements s)
                 ↔ j < length (Rows.currentCards s) ∧ j ≠ Rows.pool_idx pc) as Hone.
    { rewrite Hc. by apply all_but_one. }
    split.
    + rewrite Hbtn, negb_false_iff, rows_isSubmittable_spec, totalPlaced_length.
      unfold Rows.required. rewrite Hdraw, Hc. split; [done|lia].
    + unfold Rows.buildPlacements. rewrite Hdraw. cbn [negb].
      rewrite (firstUnplaced_only s (Rows.pool_idx pc)); [done|done|by rewrite Hc].
  - intros Hdraw Hen.
    rewrite Hbtn, negb_false_iff, rows_isSubmittable_spec, totalPlaced_length in Hen.
    unfold Rows.required in Hen. rewrite Hdraw, Hc in Hen. destruct Hen as [_ Hlen].
    destruct (firstUnplaced_Some s Hnd ltac:(rewrite Hc; lia)) as (i & _ & Hi & Hnin).
    rewrite Hc in Hi.
    assert (filter (λ k, k ∉ Rows.bp_all (Rows.boardPlacements s)) (seq 0 (length (cards st)))
            = [i]) as Hfilter.
    { apply filter_only; [apply NoDup_seq| |apply elem_of_seq; lia].
      intros k [_ Hk]%elem_of_seq.
      rewrite (all_but_one _ (length (cards st)) i Hnd Hlt ltac:(lia) Hi Hnin k).
      destruct (decide (k = i)); intuition lia. }
    rewrite Hfilter in Hidx.
    destruct (Rows.handPool s) as [|pc [|pc' pool]] eqn:Hpool; try done.
    exists pc. split; [done|].
    destruct (handPool_cards s pc) as (_ & _ & ->); [rewrite Hpool; left|].
    rewrite Hdraw, Hsize, Hc. simpl. apply bool_decide_eq_true. lia.
Qed.

(** A draw turn: cards 0 and 2 on rows, card 1 left in the pool. *)
Lemma hand_pool_complements_rows_witness :
  let ops := [Rows.Place 2 back; Rows.Place 0 middle] in
  let s := Rows.run ops (after (Rows.applyState drawDeal rowsPageLoad)) in
  (placing drawDeal ∧ Forall (in_hand (length (cards drawDeal))) ops)
  ∧ Rows.handPool s
    = [ {| Rows.pool_idx := 1; Rows.pool_card := {| height := "T"; suit := "h" |};
           Rows.will_discard := true |} ]
  ∧ (Rows.pool_idx <$> Rows.handPool s) ++ Rows.bp_all (Rows.boardPlacements s)
    ≡ₚ seq 0 (length (cards drawDeal)).
Proof.
  intros ops s.
  assert (placing drawDeal) as Hph by (by right).
  assert (Forall (in_hand (length (cards drawDeal))) ops) as Hops.
  { repeat constructor; simpl; lia. }
  split; [done|]. split; [reflexivity|].
  apply (hand_pool_complements_rows drawDeal Hph rowsPageLoad ops Hops).
Defined.

Section zone_page.
Import Zones.

Lemma moveCardOnPage_vars idx z (p : page) :
  vars (moveCardOnPage idx z p) = moveCard idx z (vars p).
Proof.
  unfold moveCardOnPage, moveCard. by case_bool_decide.
Qed.

Lemma runOnPage_vars ops (p : page) : vars (runOnPage ops p) = run ops (vars p).
Proof.
  revert p. induction ops as [|[idx z] ops IH]; intros p; [done|].
  simpl. fold (runOnPage ops (moveCardOnPage idx z p)). fold (run ops (moveCard idx z (vars p))).
  by rewrite IH, moveCardOnPage_vars.
Qed.

Lemma applyStateOnPage_vars st (p : page) :
  vars (applyStateOnPage st p) = applyState st (vars p).
Proof. unfold applyStateOnPage. by destruct (phase st). Qed.

Lemma elem_of_zonesFor initial z :
  z ∈ zonesFor initial ↔ match z with pool => True | zone r => r ∈ rowNames initial end.
Proof.
  unfold zonesFor. rewrite elem_of_app, list_elem_of_singleton, list_elem_of_fmap.
  destruct z as [|r].
  - split; [done|by right].
  - split.
    + intros [(r' & [= ->] & Hr)|?]; done.
    + intros Hr. left. by exists r.
Qed.

Lemma allInPool_lookup (cs : list card) idx :
  idx < length cs → allInPool cs !! idx = Some pool.
Proof.
  intros Hidx. unfold allInPool. apply elem_of_list_to_map_1.
  - rewrite <-list_fmap_compose. simpl. rewrite list_fmap_id. apply NoDup_seq.
  - apply list_elem_of_fmap. exists idx. split; [done|]. apply elem_of_seq. lia.
Qed.

Lemma applyStateOnPage_wf st (p : page) :
  placing st → zones_page_wf (applyStateOnPage st p).
Proof.
  intros Hph.
  destruct (zones_applyState_placing st (vars p) Hph) as (Ha & Hc & Hi & Hwf).
  assert (applyStateOnPage st p
          = {| vars := applyState st (vars p);
               zoneEls := zonesFor (bool_decide (phase st = init_human));
               cardAt := allInPool (cards st) |}) as ->.
  { unfold applyStateOnPage. by destruct Hph as [-> | ->]. }
  split_and!; simpl; [done|by rewrite Hi|].
  intros idx Hidx. rewrite Hc in Hidx. rewrite allInPool_lookup by done.
  unfold ledgerZone. by rewrite Ha, lookup_empty.
Qed.

Lemma moveCardOnPage_wf idx z (p : page) :
  zones_page_wf p → zoneExists (isInitial (vars p)) (Move idx z) →
  zones_page_wf (moveCardOnPage idx z p).
Proof.
  intros (Hwf & Hz & Hat) Hex.
  destruct (zones_moveCard_frame idx z (vars p)) as (Hc & Hi & _).
  split_and!.
  - rewrite moveCardOnPage_vars. by apply zones_moveCard_wf.
  - rewrite moveCardOnPage_vars, Hi. unfold moveCardOnPage. by case_bool_decide.
  - intros j. rewrite moveCardOnPage_vars, Hc. intros Hj.
    unfold ledgerZone. rewrite zones_moveCard_assignments.
    unfold moveCardOnPage. case_bool_decide as Hin; [|by apply Hat].
    simpl. rewrite bool_decide_eq_true_2
      by (rewrite Hz; apply elem_of_zonesFor; by destruct z).
    destruct (decide (idx = j)) as [->|Hne].
    + rewrite lookup_insert_eq. destruct z; by rewrite ?lookup_delete_eq, ?lookup_insert_eq.
    + rewrite lookup_insert_ne by done. rewrite (Hat j Hj). unfold ledgerZone.
      destruct z; by rewrite ?lookup_delete_ne, ?lookup_insert_ne.
Qed.

Lemma runOnPage_wf ops (p : page) :
  zones_page_wf p → Forall (zoneExists (isInitial (vars p))) ops →
  zones_page_wf (runOnPage ops p).
Proof.
  revert p. induction ops as [|[idx z] ops IH]; intros p Hwf Hops; [done|].
  apply Forall_cons in Hops as [Ho Hops]. simpl.
  fold (runOnPage ops (moveCardOnPage idx z p)). apply IH.
  - by apply moveCardOnPage_wf.
  - rewrite moveCardOnPage_vars.
    by destruct (zones_moveCard_frame idx z (vars p)) as (_ & -> & _).
Qed.

End zone_page.

(** In the zone script the picture follows the ledger. At every point of a
    turn whose drops land on zones of the turn, every card of the hand
    sits in the zone its assignment names, and in the pool when it has
    none. On the page the variables change as [moveCard] and [applyState]
    say. *)
Theorem card_display_follows_ledger (st : response) :
  placing st →
  ∀ (p0 : Zones.page) (ops : list Zones.op),
    Forall (Zones.zoneExists (bool_decide (phase st = init_human))) ops →
    let p := Zones.runOnPage ops (Zones.applyStateOnPage st p0) in
    Zones.vars p = Zones.run ops (Zones.applyState st (Zones.vars p0))
    ∧ ∀ idx, idx < length (cards st) →
        Zones.cardAt p !! idx
        = Some (match Zones.assignments (Zones.vars p) !! idx with
                | Some r => Zones.zone r
                | None => Zones.pool
                end).
Proof.
  intros Hph p0 ops Hops. cbv zeta.
  destruct (zones_applyState_placing st (Zones.vars p0) Hph) as (_ & Hc & Hi & _).
  split.
  - by rewrite runOnPage_vars, applyStateOnPage_vars.
  - assert (zones_page_wf (Zones.runOnPage ops (Zones.applyStateOnPage st p0)))
      as (_ & _ & Hat).
    { apply runOnPage_wf; [by apply applyStateOnPage_wf|].
      by rewrite applyStateOnPage_vars, Hi. }
    intros idx Hidx. apply Hat.
    rewrite runOnPage_vars, applyStateOnPage_vars.
    destruct (zones_run_frame ops (Zones.applyState st (Zones.vars p0))) as [-> _].
    by rewrite Hc.
Qed.

(** A draw turn: card 0 to discard, card 1 to front and on to back, card 0
    back to the pool. *)
Lemma card_display_follows_ledger_witness :
  let p0 := {| Zones.vars := zonesPageLoad; Zones.zoneEls := []; Zones.cardAt := ∅ |} in
  let ops := [Zones.Move 0 (Zones.zone discard); Zones.Move 1 (Zones.zone front);
              Zones.Move 1 (Zones.zone back); Zones.Move 0 Zones.pool] in
  let p := Zones.runOnPage ops (Zones.applyStateOnPage drawDeal p0) in
  (placing drawDeal
   ∧ Forall (Zones.zoneExists (bool_decide (phase drawDeal = init_human))) ops)
  ∧ Zones.cardAt p !! 1
    = Some (match Zones.assignments (Zones.vars p) !! 1 with
            | Some r => Zones.zone r
            | None => Zones.pool
            end)
  ∧ Zones.cardAt p !! 1 = Some (Zones.zone back)
  ∧ Zones.cardAt p !! 0 = Some Zones.pool.
Proof.
  intros p0 ops p.
  assert (placing drawDeal) as Hph by (by right).
  assert (Forall (Zones.zoneExists (bool_decide (phase drawDeal = init_human))) ops) as Hops.
  { repeat constructor. }
  split; [done|]. split; [|split; reflexivity].
  apply (card_display_follows_ledger drawDeal Hph p0 ops Hops). simpl. lia.
Defined.

Section button_page.
Import Buttons.

Lemma assignCardOnPage_vars idx r (p : page) :
  vars (after (assignCardOnPage idx r p)) = after (assignCard idx r (vars p)).
Proof.
  unfold assignCardOnPage, assignCard. by case_bool_decide.
Qed.

Lemma buttons_runOnPage_vars ops (p : page) :
  vars (runOnPage ops p) = run ops (vars p).
Proof.
  revert p. induction ops as [|[idx r] ops IH]; intros p; [done|].
  simpl. fold (runOnPage ops (after (assignCardOnPage idx r p))).
  fold (run ops (after (assignCard idx r (vars p)))).
  by rewrite IH, assignCardOnPage_vars.
Qed.

Lemma buttons_applyStateOnPage_vars st (p : page) :
  vars (applyStateOnPage st p) = applyState st (vars p).
Proof. unfold applyStateOnPage. by destruct (phase st). Qed.

Lemma buttons_applyStateOnPage_wf st (p : page) :
  placing st → buttons_page_wf (applyStateOnPage st p).
Proof.
  intros Hph.
  destruct (buttons_applyState_placing st (vars p) Hph) as (Ha & Hc & Hi & _ & Hwf).
  assert (applyStateOnPage st p
          = {| vars := applyState st (vars p);
               buttonRows := rows (bool_decide (phase st = init_human));
               selected := ∅ |}) as ->.
  { unfold applyStateOnPage. by destruct Hph as [-> | ->]. }
  split_and!; simpl; [done|by rewrite Hi|by rewrite Ha].
Qed.

Lemma assignCardOnPage_wf idx r (p : page) :
  buttons_page_wf p →
  buttonExists (isInitialTurn (vars p)) (length (currentCards (vars p))) (Assign idx r) →
  buttons_page_wf (after (assignCardOnPage idx r p)).
Proof.
  intros (Hwf & Hrows & Hsel) [Hidx Hr].
  destruct (buttons_assignCard_vars idx r (vars p)) as (Hc & Hi & _).
  pose proof Hwf as (Hgroups & _).
  split_and!.
  - rewrite assignCardOnPage_vars. by apply buttons_assignCard_wf.
  - rewrite assignCardOnPage_vars, Hi. unfold assignCardOnPage. by case_bool_decide.
  - rewrite assignCardOnPage_vars, assignCard_assignments.
    unfold assignCardOnPage.
    rewrite bool_decide_eq_true_2 by (rewrite Hgroups, elem_of_seq; lia).
    simpl. rewrite bool_decide_eq_true_2 by (by rewrite Hrows). by rewrite Hsel.
Qed.

Lemma buttons_runOnPage_wf ops (p : page) :
  buttons_page_wf p →
  Forall (buttonExists (isInitialTurn (vars p)) (length (currentCards (vars p)))) ops →
  buttons_page_wf (runOnPage ops p).
Proof.
  revert p. induction ops as [|[idx r] ops IH]; intros p Hwf Hops; [done|].
  apply Forall_cons in Hops as [Ho Hops]. simpl.
  fold (runOnPage ops (after (assignCardOnPage idx r p))). apply IH.
  - by apply assignCardOnPage_wf.
  - rewrite assignCardOnPage_vars.
    by destruct (buttons_assignCard_vars idx r (vars p)) as (-> & -> & _).
Qed.

End button_page.

(** In the button script the highlighting follows the ledger. At every
    point of a turn whose clicks come from buttons of the turn, the
    selected button of a card is the row the ledger holds for it, and a
    card without an entry has no selected button. On the page the
    variables change as [assignCard] and [applyState] say. *)
Theorem selected_button_follows_ledger (st : response) :
  placing st →
  ∀ (p0 : Buttons.page) (ops : list Buttons.op),
    Forall (Buttons.buttonExists (bool_decide (phase st = init_human))
              (length (cards st))) ops →
    let p := Buttons.runOnPage ops (Buttons.applyStateOnPage st p0) in
    Buttons.vars p = Buttons.run ops (Buttons.applyState st (Buttons.vars p0))
    ∧ ∀ idx, Buttons.selected p !! idx = Buttons.assignments (Buttons.vars p) !! idx.
Proof.
  intros Hph p0 ops Hops. cbv zeta.
  destruct (buttons_applyState_placing st (Buttons.vars p0) Hph) as (_ & Hc & Hi & _).
  split.
  - by rewrite buttons_runOnPage_vars, buttons_applyStateOnPage_vars.
  - assert (buttons_page_wf (Buttons.runOnPage ops (Buttons.applyStateOnPage st p0)))
      as (_ & _ & Hsel).
    { apply buttons_runOnPage_wf; [by apply buttons_applyStateOnPage_wf|].
      by rewrite buttons_applyStateOnPage_vars, Hi, Hc. }
    intros idx. by rewrite Hsel.
Qed.

(** An opening turn: card 2 is given front and then middle. *)
Lemma selected_button_follows_ledger_witness :
  let p0 := {| Buttons.vars := buttonsPageLoad; Buttons.buttonRows := [];
               Buttons.selected := ∅ |} in
  let ops := [Buttons.Assign 2 front; Buttons.Assign 2 middle] in
  let p := Buttons.runOnPage ops (Buttons.applyStateOnPage openingDeal p0) in
  (placing openingDeal
   ∧ Forall (Buttons.buttonExists (bool_decide (phase openingDeal = init_human))
               (length (cards openingDeal))) ops)
  ∧ Buttons.selected p !! 2 = Buttons.assignments (Buttons.vars p) !! 2
  ∧ Buttons.selected p !! 2 = Some middle.
Proof.
  intros p0 ops p.
  assert (placing openingDeal) as Hph by (by left).
  assert (Forall (Buttons.buttonExists (bool_decide (phase openingDeal = init_human))
                    (length (cards openingDeal))) ops) as Hops.
  { repeat constructor; simpl; lia. }
  split; [done|]. split; [|reflexivity].
  apply (selected_button_follows_ledger openingDeal Hph p0 ops Hops).
Defined.

Section foreign.

Lemma rows_refreshUI_Throw (s : Rows.state) (k : nat) :
  k ∈ Rows.bp_all (Rows.boardPlacements s) → length (Rows.currentCards s) ≤ k →
  Rows.refreshUI s = Throw typeError s.
Proof.
  intros Hk Hge. unfold Rows.refreshUI, Rows.renderPlayerBoard.
  rewrite bool_decide_eq_false_2; [done|].
  intros [_ Hall]. rewrite Forall_forall in Hall. specialize (Hall k Hk). lia.
Qed.

End foreign.

(** An index that is no card of the hand. The zone script ignores a drop
    that carries one: [moveCard] finds no card element and changes
    nothing. The row script has no such check: on a row with room
    [placeCardOnRow] appends the index to the row and then throws while
    rendering, so hint and confirm button are not refreshed; every later
    return of another card throws as well, and returning the foreign index
    itself gives back the state a refresh of the original gives. The
    button script writes the mapping before it throws. *)
Theorem foreign_index_is_checked_only_by_zones :
  (∀ (st : response) (s0 : Zones.state) (ops : list Zones.op) (idx : nat) (z : Zones.Zone),
     placing st → length (cards st) ≤ idx →
     let s := Zones.run ops (Zones.applyState st s0) in
     Zones.moveCard idx z s = s)
  ∧ (∀ (s : Rows.state) (idx : nat) (r : Row),
       rows_wf s → length (Rows.currentCards s) ≤ idx →
       r ≠ discard → Rows.committed s r + Rows.pending s r < Rows.rowMax r →
       ∃ s', Rows.placeCardOnRow idx r s = Throw typeError s'
             ∧ Rows.onRow s' r = Rows.onRow s r ++ [idx]
             ∧ Rows.hint s' = Rows.hint s
             ∧ Rows.confirmDisabled s' = Rows.confirmDisabled s
             ∧ (∀ j, j ≠ idx →
                  Rows.returnCardToHand j s'
                  = Throw typeError (Rows.removeFromPlacements j s'))
             ∧ Rows.returnCardToHand idx s' = Normal (Rows.updateConfirmButton s))
  ∧ (∀ (st : response) (s0 : Buttons.state) (ops : list Buttons.op) (idx : nat) (r : Row),
       placing st →
       Forall (Buttons.buttonExists (bool_decide (phase st = init_human))
                 (length (cards st))) ops →
       length (cards st) ≤ idx →
       let s := Buttons.run ops (Buttons.applyState st s0) in
       Buttons.assignCard idx r s
       = Throw typeError (Buttons.setAssignments (<[idx := r]> (Buttons.assignments s)) s)).
Proof.
  split_and!.
  - intros st s0 ops idx z Hph Hidx. cbv zeta.
    destruct (zones_turn_wf st s0 ops Hph) as ((Hh & _) & Hc & _).
    unfold Zones.moveCard. rewrite bool_decide_eq_false_2; [done|].
    rewrite Hh, Hc, elem_of_seq. lia.
  - intros s idx r Hwf Hidx Hr Hroom.
    pose proof Hwf as (Hnd & Hlt & [b Hb] & Ha & _).
    assert (idx ∉ Rows.bp_all (Rows.boardPlacements s)) as Hnin.
    { intros Hin. specialize (Hlt idx Hin). lia. }
    pose proof Hnin as Hnin'.
    unfold Rows.bp_all in Hnin'. rewrite !not_elem_of_app in Hnin'.
    destruct Hnin' as (Hf & Hm & Hbk).
    assert (Rows.removeFromPlacements idx s = s) as Hrem.
    { unfold Rows.removeFromPlacements. rewrite !filter_ne_id by done.
      destruct s as [? ? ? [? ? ?] ? ? ? ? ? ?]. done. }
    set (s' := Rows.setBoardPlacements (Rows.bp_push r idx (Rows.boardPlacements s)) s).
    assert (idx ∈ Rows.bp_all (Rows.boardPlacements s')) as Hin'.
    { subst s'. simpl. rewrite bp_all_push by done. left. }
    exists s'. split_and!; try done.
    + unfold Rows.placeCardOnRow, Rows.committed, Rows.pending, Rows.onRow in *.
      rewrite Hb in *.
      destruct (Rows.bp_get (Rows.boardPlacements s) r) as [cur|] eqn:Hcur;
        [|by destruct r].
      simpl in Hroom. rewrite bool_decide_eq_false_2 by lia.
      rewrite Hrem. by apply (rows_refreshUI_Throw s' idx).
    + unfold Rows.onRow. subst s'. simpl. rewrite bp_get_push, decide_True by done.
      by destruct r.
    + intros j Hj. unfold Rows.returnCardToHand.
      apply (rows_refreshUI_Throw _ idx); [|done].
      rewrite bp_all_remove. apply list_elem_of_filter. by split.
    + unfold Rows.returnCardToHand.
      assert (Rows.removeFromPlacements idx s' = s) as ->.
      { subst s'. unfold Rows.removeFromPlacements. simpl.
        destruct s as [? ? ? [f m bk] ? ? ? ? ? ?], r; simpl in *; try done;
          rewrite ?filter_ne_snoc, ?filter_ne_id by done; done. }
      by apply rows_refreshUI_Normal; [eexists|].
  - intros st s0 ops idx r Hph Hops Hidx. cbv zeta.
    destruct (buttons_turn_wf st s0 ops Hph Hops) as ((Hg & _) & Hc & _).
    unfold Buttons.assignCard. rewrite bool_decide_eq_false_2; [done|].
    rewrite Hg, Hc, elem_of_seq. lia.
Qed.

(** Index 7 on an opening turn of five cards. *)
Lemma foreign_index_is_checked_only_by_zones_witness :
  let zs := Zones.run [Zones.Move 0 (Zones.zone front)]
              (Zones.applyState openingDeal zonesPageLoad) in
  let rs := after (Rows.applyState openingDeal rowsPageLoad) in
  Zones.moveCard 7 (Zones.zone front) zs = zs
  ∧ ∃ s', Rows.placeCardOnRow 7 front rs = Throw typeError s'
          ∧ Rows.onRow s' front = Rows.onRow rs front ++ [7]
          ∧ Rows.hint s' = Rows.hint rs
          ∧ Rows.confirmDisabled s' = Rows.confirmDisabled rs
          ∧ (∀ j, j ≠ 7 →
               Rows.returnCardToHand j s'
               = Throw typeError (Rows.removeFromPlacements j s'))
          ∧ Rows.returnCardToHand 7 s' = Normal (Rows.updateConfirmButton rs).
Proof.
  intros zs rs. split.
  - apply (proj1 foreign_index_is_checked_only_by_zones openingDeal zonesPageLoad _ 7).
    + by left.
    + simpl. lia.
  - apply (proj1 (proj2 foreign_index_is_checked_only_by_zones) rs 7 front).
    + by apply (rows_applyState_placing openingDeal rowsPageLoad); left.
    + simpl. lia.
    + discriminate.
    + vm_compute. lia.
Defined.

Section card_tables.



End card_tables.



(** [showGameOver]: the title names the side with the higher score, and the
    [winner] class goes to that side's score only; with equal scores the
    title is the tie and both scores are styled [loser]. In a result row
    the two sides' cell classes are opposite, the label agrees with them,
    any winner other than [player] and [ai] is shown as a tie, and a bonus
    text is either the dash or a plus sign followed by a positive
    number. *)
Theorem game_over_marks_one_winner :
  (∀ sc : Zones.scores,
     let h := Zones.showGameOverHeader sc in
     (Zones.go_title h = "🏆 You Win!" ↔ (Zones.score_ai sc < Zones.score_player sc)%Z)
     ∧ (Zones.go_title h = "AI Wins" ↔ (Zones.score_player sc < Zones.score_ai sc)%Z)
     ∧ (Zones.go_title h = "It's a Tie" ↔ Zones.score_player sc = Zones.score_ai sc)
     ∧ (Zones.playerValueClass h = "winner" ↔ Zones.go_title h = "🏆 You Win!")
     ∧ (Zones.aiValueClass h = "winner" ↔ Zones.go_title h = "AI Wins")
     ∧ (Zones.go_title h = "It's a Tie" ↔
          Zones.playerValueClass h = "loser" ∧ Zones.aiValueClass h = "loser"))
  ∧ (∀ r : Zones.handResult,
       let row := Zones.showGameOverRow r in
       (Zones.pC row = "go-winner" ↔ Zones.aC row = "go-loser")
       ∧ (Zones.pC row = "go-loser" ↔ Zones.aC row = "go-winner")
       ∧ (Zones.pC row = "go-tie" ↔ Zones.aC row = "go-tie")
       ∧ (Zones.label row = "← You" ↔ Zones.pC row = "go-winner")
       ∧ (Zones.label row = "AI →" ↔ Zones.aC row = "go-winner")
       ∧ (Zones.label row = "Tie" ↔
            Zones.hr_winner r ≠ "player" ∧ Zones.hr_winner r ≠ "ai")
       ∧ (Zones.playerBonusText row = "—" ↔ (Zones.hr_player_bonus r ≤ 0)%Z)
       ∧ (Zones.aiBonusText row = "—" ↔ (Zones.hr_ai_bonus r ≤ 0)%Z)).
Proof.
  split.
  - intros [p a]. unfold Zones.showGameOverHeader. simpl.
    repeat case_bool_decide; simplify_eq;
      (split_and!; split; intros; try done; try lia; try (by destruct_and?)).
  - intros [pl ai pb ab w]. unfold Zones.showGameOverRow. simpl.
    repeat case_decide; repeat case_bool_decide; simplify_eq;
      (split_and!; split; intros; try done; try lia; try (by destruct_and?)).
Qed.
